(** * PolymarketData: the scalping-market evaluation engine of [server/index.ts]

    A shallow embedding of the market scorer ([calculateScalpingScore] and
    its helpers), of the order-book depth computation ([getDepth]) and of
    the per-market step of the ranking pipeline ([getScalpingMarkets]),
    followed by the properties the specification states about them.

    Conventions of the embedding.
    - A JavaScript [number] is either [NaN] or a finite value, and a finite
      value is an exact rational.  Rounding error, signed zero, overflow
      and the two infinities are outside the model.  A value the API leaves
      out ([undefined]) behaves as [NaN] in every arithmetic expression and
      every [||] default of this program, and is represented by [NaN].
    - [Math.log10] is implementation-approximated in ECMAScript; it is a
      section variable [log10Q], and the few facts a proof needs about it
      are explicit hypotheses of that proof.
    - [Date.now()] is an input, [now]; [new Date(endDate).getTime()] is the
      [endDate] field of a market ([NaN] for an unparsable date).
    - Question texts are ASCII strings. *)

From Stdlib Require Import QArith Qabs Qround ZArith List Bool String Ascii.
From Stdlib Require Import DecimalString Lia Lqa Permutation Sorted.
Import ListNotations.

Open Scope Q_scope.

(* ================================================================== *)
(** * JavaScript numbers *)
(* ================================================================== *)

Inductive number : Type :=
| NaN
| Num (q : Q).

Declare Scope js_scope.
Delimit Scope js_scope with js.
Bind Scope js_scope with number.

Module Js.

Definition Qltb (x y : Q) : bool := negb (Qle_bool y x).

Definition lift2 (f : Q -> Q -> Q) (a b : number) : number :=
  match a, b with
  | Num x, Num y => Num (f x y)
  | _, _ => NaN
  end.

Definition cmp2 (f : Q -> Q -> bool) (a b : number) : bool :=
  match a, b with
  | Num x, Num y => f x y
  | _, _ => false
  end.

Definition add : number -> number -> number := lift2 Qplus.
Definition sub : number -> number -> number := lift2 Qminus.
Definition mul : number -> number -> number := lift2 Qmult.

(** [a / b].  A zero divisor would give an infinity (or [NaN]), which the
    model does not have.  Every division of the scorer has a divisor
    that the code has made non-zero, by a [||] default (see
    [divisors_nonzero]) or by the test [totalDepth === 0], so that case
    only needs a placeholder. *)
Definition div (a b : number) : number :=
  match a, b with
  | Num x, Num y => if Qeq_bool y 0 then NaN else Num (x / y)
  | _, _ => NaN
  end.

(** [<], [>], [<=], [>=] and [===]: all false when an operand is [NaN]. *)
Definition lt : number -> number -> bool := cmp2 Qltb.
Definition gt (a b : number) : bool := lt b a.
Definition le : number -> number -> bool := cmp2 Qle_bool.
Definition ge (a b : number) : bool := le b a.
Definition strict_eq : number -> number -> bool := cmp2 Qeq_bool.

(** Truthiness of a number: [0] and [NaN] are falsy. *)
Definition truthy (a : number) : bool :=
  match a with
  | NaN => false
  | Num x => negb (Qeq_bool x 0)
  end.

(** [a || d] on numbers. *)
Definition or_else (a d : number) : number := if truthy a then a else d.

Definition abs (a : number) : number :=
  match a with
  | NaN => NaN
  | Num x => Num (Qabs x)
  end.

(** [Math.max(a, b)] and [Math.min(a, b)]: [NaN] when an argument is. *)
Definition max : number -> number -> number :=
  lift2 (fun x y => if Qle_bool x y then y else x).
Definition min : number -> number -> number :=
  lift2 (fun x y => if Qle_bool x y then x else y).

(** The integer [n] that [x.toFixed(d)] prints, for [0 <= x]: the one
    closest to [x * 10^d], the larger one on a tie. *)
Definition fixedDigits (d : nat) (x : Q) : Z :=
  Qfloor (x * inject_Z (10 ^ Z.of_nat d) + (1 # 2)).

(** The value denoted by the string [x.toFixed(d)], that is,
    [parseFloat(x.toFixed(d))].  From [10^21] on, [toFixed] prints the
    number in full precision and the value read back is [x] itself. *)
Definition toFixedValue (d : nat) (a : number) : number :=
  match a with
  | NaN => NaN
  | Num x =>
      if Qle_bool (inject_Z (10 ^ 21)) (Qabs x) then Num x
      else
        let n := fixedDigits d (Qabs x) in
        let v := Qred (n # Pos.of_nat (10 ^ d)) in
        Num (if Qltb x 0 then Qred (- v) else v)
  end.

Definition decimal (n : Z) : string :=
  NilZero.string_of_uint (N.to_uint (Z.to_N n)).

Fixpoint zeros (k : nat) : string :=
  match k with
  | O => EmptyString
  | S k' => String "0" (zeros k')
  end.

Definition padLeft (d : nat) (s : string) : string :=
  (zeros (d - String.length s) ++ s)%string.

(** The string [x.toFixed(d)] for [1 <= d] (below [10^21]). *)
Definition toFixed (d : nat) (a : number) : string :=
  match a with
  | NaN => "NaN"
  | Num x =>
      let n := fixedDigits d (Qabs x) in
      let p := (10 ^ Z.of_nat d)%Z in
      ((if Qltb x 0 then "-" else EmptyString)
         ++ decimal (n / p) ++ "." ++ padLeft d (decimal (n mod p)))%string
  end.

End Js.

Infix "+" := Js.add : js_scope.
Infix "-" := Js.sub : js_scope.
Infix "*" := Js.mul : js_scope.
Infix "/" := Js.div : js_scope.
Infix "<?" := Js.lt (at level 70, no associativity) : js_scope.
Infix ">?" := Js.gt (at level 70, no associativity) : js_scope.
Infix "<=?" := Js.le (at level 70, no associativity) : js_scope.
Infix ">=?" := Js.ge (at level 70, no associativity) : js_scope.
Infix "===" := Js.strict_eq (at level 70, no associativity) : js_scope.
Notation "a '|||' d" := (Js.or_else a d) (at level 50, left associativity) : js_scope.

(** Decimal literals of the source, as numbers. *)
Coercion Num : Q >-> number.


(** A computable lower approximation of the decimal logarithm, used to run
    the scorer on concrete inputs: the integer part of [log10 x] for
    [1 <= x] (and an integer lower bound below [1]). *)
Fixpoint ilog10_fuel (fuel : nat) (n : Z) : Z :=
  match fuel with
  | O => 0%Z
  | S f => if (n <? 10)%Z then 0%Z else (1 + ilog10_fuel f (n / 10))%Z
  end.

Definition ilog10 (n : Z) : Z := ilog10_fuel (S (Z.to_nat (Z.log2 n))) n.

Definition log10_floor (x : Q) : Q :=
  if Qle_bool 1 x then inject_Z (ilog10 (Qfloor x))
  else inject_Z (- (1 + ilog10 (Qfloor (/ x)))).

(* ================================================================== *)
(** * Strings and patterns *)
(* ================================================================== *)

Definition lowerChar (c : ascii) : ascii :=
  let n := nat_of_ascii c in
  if ((65 <=? n) && (n <=? 90))%nat then ascii_of_nat (n + 32) else c.

(** [s.toLowerCase()] *)
Fixpoint toLowerCase (s : string) : string :=
  match s with
  | EmptyString => EmptyString
  | String c s' => String (lowerChar c) (toLowerCase s')
  end.

(** [s.includes(kw)] *)
Fixpoint includes (s kw : string) : bool :=
  String.prefix kw s ||
  match s with
  | EmptyString => false
  | String _ s' => includes s' kw
  end.

(** The regular expressions of [calculateEventResolutionPenalty], matched
    with Brzozowski derivatives. *)
Module Regex.

Inductive t : Type :=
| Void
| Eps
| Chr (p : ascii -> bool)
| Seq (r s : t)
| Alt (r s : t)
| Star (r : t).

Fixpoint nullable (r : t) : bool :=
  match r with
  | Void => false
  | Eps => true
  | Chr _ => false
  | Seq r s => nullable r && nullable s
  | Alt r s => nullable r || nullable s
  | Star _ => true
  end.

Definition seq (r s : t) : t :=
  match r, s with
  | Void, _ => Void
  | _, Void => Void
  | Eps, _ => s
  | _, _ => Seq r s
  end.

Definition alt (r s : t) : t :=
  match r, s with
  | Void, _ => s
  | _, Void => r
  | _, _ => Alt r s
  end.

Fixpoint deriv (c : ascii) (r : t) : t :=
  match r with
  | Void => Void
  | Eps => Void
  | Chr p => if p c then Eps else Void
  | Seq r s =>
      if nullable r then alt (seq (deriv c r) s) (deriv c s)
      else seq (deriv c r) s
  | Alt r s => alt (deriv c r) (deriv c s)
  | Star r => seq (deriv c r) (Star r)
  end.

(** Some prefix of [s] is matched by [r]. *)
Fixpoint matchesPrefix (r : t) (s : string) : bool :=
  nullable r ||
  match s with
  | EmptyString => false
  | String c s' => matchesPrefix (deriv c r) s'
  end.

(** [r.test(s)] for a pattern without anchors: a match starts anywhere. *)
Fixpoint test (r : t) (s : string) : bool :=
  matchesPrefix r s ||
  match s with
  | EmptyString => false
  | String _ s' => test r s'
  end.

(** A literal run of characters. *)
Fixpoint lit (s : string) : t :=
  match s with
  | EmptyString => Eps
  | String c s' => Seq (Chr (Ascii.eqb c)) (lit s')
  end.

(** [\d] *)
Definition digit : t :=
  Chr (fun c => let n := nat_of_ascii c in ((48 <=? n) && (n <=? 57))%nat).

(** [.]: any character but a line terminator. *)
Definition dot : t :=
  Chr (fun c => let n := nat_of_ascii c in negb ((n =? 10) || (n =? 13))%nat).

Definition plus (r : t) : t := Seq r (Star r).

(** [\d{1,2}] *)
Definition digit12 : t := Seq digit (Alt Eps digit).

(** [\d{4}] *)
Definition digit4 : t := Seq digit (Seq digit (Seq digit digit)).

(** [(a|b|...)] over literals. *)
Fixpoint oneOf (l : list string) : t :=
  match l with
  | [] => Void
  | [s] => lit s
  | s :: l' => Alt (lit s) (oneOf l')
  end.

End Regex.

(* ================================================================== *)
(** * Keyword exclusion lists *)
(* ================================================================== *)

Open Scope string_scope.

Definition JUMP_RISK_KEYWORDS : list string :=
  [ (* Geopolitical / Regime Change *)
    "regime"; "overthrow"; "coup"; "revolution"; "collapse"; "fall of";
    "supreme leader"; "khamenei"; "putin "; "xi jinping"; "kim jong";
    "maduro"; "zelensky"; "netanyahu";
    (* War / Conflict *)
    "war "; "strike "; "nuclear"; "invade"; "invasion"; "attack on";
    "bombing"; "missile"; "assassination"; "assassinate"; "ceasefire";
    "hostage"; "martial law"; "military action";
    (* Government Decisions / Fed *)
    "fed "; "federal reserve"; "fomc"; "rate cut"; "rate hike"; "basis points";
    "interest rate"; "powell"; "ecb "; "central bank"; "monetary policy";
    "tariff"; "sanction";
    (* Court / Legal *)
    "supreme court"; "ruling"; "verdict"; "indictment"; "convicted";
    "sentenced"; "court decision"; "lawsuit"; "appeal"; "pardon";
    (* Elections / Politics *)
    "primary"; "nomination"; "nominee"; "endorsement"; "withdraw";
    "drop out"; "electoral"; "ballot"; "caucus"; "delegate";
    "impeach"; "resign"; "cabinet"; "presidential election"; "win the election";
    "election winner"; "elected president";
    (* Specific Event Triggers (Date-based deadlines) *)
    "by midnight"; "by end of day"; "before january"; "before february";
    "before march"; "before april"; "before may"; "before june";
    "before july"; "before august"; "before september"; "before october";
    "before november"; "before december";
    "by january"; "by february"; "by march"; "by april"; "by may"; "by june";
    "by july"; "by august"; "by september"; "by october"; "by november";
    "by december" ].

Definition STRUCTURAL_DECAY_KEYWORDS : list string :=
  [ (* Championship/Season Winners *)
    "win the premier league"; "win the champions league"; "win the world series";
    "win the nba"; "win the nfl"; "win the stanley cup";
    "world cup winner"; "championship winner"; "league winner"; "tournament winner";
    "win the title"; "crowned champion"; "season winner"; "win the championship";
    "win the playoffs"; "make the playoffs"; "win the division";
    "win the conference"; "win the cup"; "win the series";
    (* Super Bowl specific *)
    "win super bowl"; "super bowl 20"; "super bowl champion"; "super bowl winner";
    (* Premier League specific *)
    "english premier league"; "premier league?"; "la liga"; "bundesliga"; "serie a";
    "ligue 1"; "eredivisie";
    (* Sports Awards *)
    "ballon d'or"; "mvp "; "rookie of the year"; "cy young"; "heisman";
    "golden boot"; "golden glove"; "player of the year"; "coach of the year";
    "defensive player"; "most improved";
    (* Long-dated / Lifetime Events *)
    "ever "; "will ever"; "lifetime"; "career"; "all-time"; "hall of fame";
    (* Season Long Predictions *)
    "finish first"; "finish last"; "relegated"; "promoted"; "qualify for" ].

Definition months : list string :=
  [ "january"; "february"; "march"; "april"; "may"; "june"; "july";
    "august"; "september"; "october"; "november"; "december" ].

Definition countdownPatterns : list Regex.t :=
  [ Regex.Seq (Regex.lit "by ") (Regex.oneOf months);
    Regex.Seq (Regex.lit "before ") (Regex.oneOf months);
    Regex.lit "by end of";
    Regex.lit "by midnight";
    Regex.Seq (Regex.lit "by ")
      (Regex.Seq Regex.digit12 (Regex.Seq (Regex.lit "/") Regex.digit12));
    Regex.Seq (Regex.lit "by ") Regex.digit4;
    Regex.Seq (Regex.lit "before ") Regex.digit4 ].

(** [/will .+ <word>/] *)
Definition willPattern (word : string) : Regex.t :=
  Regex.Seq (Regex.lit "will ")
    (Regex.Seq (Regex.plus Regex.dot) (Regex.lit (" " ++ word))).

Definition singleEventPatterns : list Regex.t :=
  map willPattern
    [ "announce"; "decision"; "rule on"; "vote on"; "result";
      "confirm"; "approve"; "reject"; "pass"; "veto" ].

Close Scope string_scope.

(* ================================================================== *)
(** * Data model *)
(* ================================================================== *)

(** What [parseFloat(JSON.parse(market.outcomePrices)[0])] does with the
    JSON text of the [outcomePrices] field: either [JSON.parse] (or the
    indexing of its result, when that is [null]) throws, or [parseFloat]
    is applied to element [0] and returns a number, which is [NaN] when
    the element is absent or not numeric ([parseFloat] never throws). *)
Inductive OutcomePrices : Type :=
| Unparsable
| FirstPrice (p : number).

(** [interface Market].  [clobTokenIds] is the array the JSON text parses
    to ([[]] when [JSON.parse] throws: the [catch] keeps the initial
    array). *)
Record Market : Type := {
  id : string;
  question : string;
  slug : string;
  volume24hr : number;
  volume1wk : number;
  outcomePrices : OutcomePrices;
  clobTokenIds : list string;
  outcomes : string;
  endDate : number;
  orderPriceMinTickSize : number;
  feesEnabled : bool;
  liquidity : number;
  oneWeekPriceChange : number
}.

(** A level of [interface OrderBook]; [price] and [size] are the values
    [parseFloat] reads from the two decimal strings. *)
Record Level : Type := {
  price : number;
  size : number
}.

Record OrderBook : Type := {
  bids : list Level;
  asks : list Level
}.

Inductive Side : Type := Bids | Asks.

(** The object [calculateScalpingScore] returns. *)
Record ScoreResult : Type := {
  score : number;
  exclusionReason : option string
}.

(** The [details] object and the record [getScalpingMarkets] builds for a
    market; [None] is [null].  The fields copied from the market carry the
    prefix [p_], where the source has [volume7d] for [p_volume7d] and so
    on, and [exclusionReason'] is the record's [exclusionReason]. *)
Record Details : Type := {
  spreadInTicks : number;
  depth1Tick : number;
  depth3Tick : number;
  depth5Tick : number;
  daysToRes : number;
  bidDepth1 : number;
  askDepth1 : number;
  bidDepth5 : number;
  askDepth5 : number
}.

Record Processed : Type := {
  p_id : string;
  p_question : string;
  p_slug : string;
  p_volume24hr : number;
  p_volume7d : number;
  p_endDate : number;
  p_tickSize : number;
  p_liquidity : number;
  p_oneWeekPriceChange : number;
  spread : option number;
  bestBid : option number;
  bestAsk : option number;
  scalpingScore : number;
  exclusionReason' : option string;
  details : Details
}.

(** The double quote that the keyword messages put around the keyword. *)
Definition dquote : string := String (ascii_of_nat 34) EmptyString.

(* ================================================================== *)
(** * Scoring helper functions *)
(* ================================================================== *)

Open Scope js_scope.

Definition calculateEventResolutionPenalty (question : string) : number :=
  let lowerQ := toLowerCase question in
  let hasCountdown := existsb (fun p => Regex.test p lowerQ) countdownPatterns in
  let isSingleEvent := existsb (fun p => Regex.test p lowerQ) singleEventPatterns in
  if hasCountdown then 0.3
  else if isSingleEvent then 0.5
  else 1.0.

Definition calculateJumpRiskPenalty
    (question : string) (oneWeekPriceChange : number) : number :=
  let lowerQ := toLowerCase question in
  let hasJumpRiskKeyword :=
    existsb (fun kw => includes lowerQ kw) JUMP_RISK_KEYWORDS in
  if hasJumpRiskKeyword then 0
  else
    let absChange := Js.abs (oneWeekPriceChange ||| 0) in
    if absChange >? 0.30 then 0.2
    else if absChange >? 0.20 then 0.5
    else if absChange >? 0.10 then 0.8
    else 1.0.

Definition calculateDriftPenalty
    (currentPrice oneWeekPriceChange : number) : number :=
  let isNearZero := currentPrice <? 0.15 in
  let isNearOne := currentPrice >? 0.85 in
  let isDriftingDown := oneWeekPriceChange <? Num (- 0.05) in
  let isDriftingUp := oneWeekPriceChange >? 0.05 in
  if isNearZero && isDriftingDown then 0
  else if isNearOne && isDriftingUp then 0
  else if isNearZero || isNearOne then 0.5
  else if Js.abs oneWeekPriceChange <? 0.03 then 1.2
  else 1.0.

Section Engine.

(** [Math.log10] on the positive finite numbers. *)
Variable log10Q : Q -> Q.

(** [Math.log10(a)]: [NaN] for a negative argument or [NaN].  (At [0] the
    source yields the negative infinity, which the model does not have; no
    property below evaluates it there.) *)
Definition log10 (a : number) : number :=
  match a with
  | NaN => NaN
  | Num x => if Js.Qltb 0 x then Num (log10Q x) else NaN
  end.

Definition calculateVolumeChurnScore (volume24hr volume7d : number) : number :=
  let expectedDailyRatio := Num 1 / Num 7 in
  let actualRatio := volume24hr / (volume7d ||| 1) in
  if actualRatio >? 0.3 then
    Js.max 20 (100 - (actualRatio - expectedDailyRatio) * 150)
  else
    let consistencyFactor := 1 - Js.abs (actualRatio - expectedDailyRatio) * 4 in
    let baseScore := Js.min 100 (log10 (volume24hr + 1) * 20) in
    baseScore * Js.max 0.5 (Js.min 1.3 consistencyFactor).

Definition calculateDepthQualityScore
    (bidDepth1 askDepth1 bidDepth5 askDepth5 : number) : number :=
  let totalDepth := bidDepth5 + askDepth5 in
  if totalDepth === 0 then 0
  else if (bidDepth1 === 0) || (askDepth1 === 0) then 0
  else
    let imbalance := Js.abs (bidDepth5 - askDepth5) / (bidDepth5 + askDepth5) in
    let symmetryScore := 1 - imbalance in
    let depthScore := Js.min 100 (log10 (totalDepth + 1) * 30) in
    let beyondTOB := (bidDepth5 - bidDepth1) + (askDepth5 - askDepth1) in
    let layerBonus := Js.min 1.3 (1 + log10 (beyondTOB + 2) * 0.1) in
    depthScore * symmetryScore * layerBonus.

(* ================================================================== *)
(** * Main scalping score calculation *)
(* ================================================================== *)

(** [market.orderPriceMinTickSize || 0.01] *)
Definition tickSizeOf (market : Market) : number :=
  orderPriceMinTickSize market ||| 0.01.

(** The [try]/[catch] around the price: [0.5] when parsing throws. *)
Definition midPriceOf (market : Market) : number :=
  match outcomePrices market with
  | Unparsable => 0.5
  | FirstPrice p => p
  end.

(** [(new Date(market.endDate).getTime() - Date.now()) / 3600000] *)
Definition hoursToResOf (now : Q) (market : Market) : number :=
  (endDate market - now) / 3600000.

(** Component 1, spread stability. *)
Definition spreadScoreOf (spreadInTicks : number) : number :=
  if spreadInTicks <=? 1.2 then 100
  else if spreadInTicks <=? 2.0 then 80
  else if spreadInTicks <=? 3.0 then 50
  else 20.

(** Component 3 before the drift multiplier. *)
Definition reversionBase (midPrice : number) : number :=
  let distFrom50 := Js.abs (midPrice - 0.5) in
  Js.max 0 (100 - distFrom50 * 180).

(** Component 5, time safety. *)
Definition timeScoreOf (hoursToRes : number) : number :=
  if hoursToRes <? 72 then 40
  else if hoursToRes <? 24 * 7 then 70
  else if hoursToRes <? 24 * 60 then 100
  else if hoursToRes <? 24 * 180 then 80
  else 60.

Definition excluded (reason : string) : ScoreResult :=
  {| score := 0; exclusionReason := Some reason |}.

Definition calculateScalpingScore
    (now : Q) (market : Market)
    (spread bidDepth1 askDepth1 bidDepth5 askDepth5 : number) : ScoreResult :=
  let tickSize := tickSizeOf market in
  let spreadInTicks := spread / tickSize in
  let lowerQuestion := toLowerCase (question market) in
  (* 1. Fees check *)
  if feesEnabled market then excluded "Fees enabled"
  (* 2. Wide spread cutoff *)
  else if spreadInTicks >? 5 then excluded "Spread too wide (>5 ticks)"
  else
  (* 3. Jump risk keywords *)
  match find (fun kw => includes lowerQuestion kw) JUMP_RISK_KEYWORDS with
  | Some matchedJumpRisk =>
      excluded ("Jump risk keyword: " ++ dquote ++ matchedJumpRisk ++ dquote)
  | None =>
  (* 4. Structural decay keywords *)
  match find (fun kw => includes lowerQuestion kw) STRUCTURAL_DECAY_KEYWORDS with
  | Some matchedDecay =>
      excluded ("Structural decay keyword: " ++ dquote ++ matchedDecay ++ dquote)
  | None =>
  (* 5. Parse price and apply edge exclusions *)
  let midPrice := midPriceOf market in
  if (midPrice <? 0.08) || (midPrice >? 0.92) then
    excluded ("Price at edge (" ++ Js.toFixed 1 (midPrice * 100) ++ "%)")
  else
  (* 6. Time exclusions *)
  let hoursToRes := hoursToResOf now market in
  if hoursToRes <? 48 then excluded "Less than 48 hours to resolution"
  (* 7. Empty book exclusions *)
  else if (bidDepth1 === 0) || (askDepth1 === 0) then
    excluded "One-sided or empty book"
  else
  (* 8. Drift penalty *)
  let driftMultiplier :=
    calculateDriftPenalty midPrice (oneWeekPriceChange market ||| 0) in
  if driftMultiplier === 0 then excluded "Directional drift toward edge"
  else
  (* 9. Jump risk penalty based on weekly volatility *)
  let jumpRiskMultiplier :=
    calculateJumpRiskPenalty (question market) (oneWeekPriceChange market ||| 0) in
  if jumpRiskMultiplier === 0 then excluded "High weekly volatility"
  else
  (* Component scores *)
  let spreadScore := spreadScoreOf spreadInTicks in
  let volumeChurnScore :=
    calculateVolumeChurnScore (volume24hr market) (volume1wk market) in
  let reversionScore := reversionBase midPrice * driftMultiplier in
  let depthScore :=
    calculateDepthQualityScore bidDepth1 askDepth1 bidDepth5 askDepth5 in
  let timeScore := timeScoreOf hoursToRes in
  let eventPenalty := calculateEventResolutionPenalty (question market) in
  (* Composite score *)
  let rawScore :=
    spreadScore * 0.25 + volumeChurnScore * 0.25 + reversionScore * 0.20
    + depthScore * 0.15 + timeScore * 0.10 in
  let finalScore := rawScore * eventPenalty * jumpRiskMultiplier in
  {| score := Js.toFixedValue 2 (Js.max 0 finalScore);
     exclusionReason := None |}
  end
  end.

(* ================================================================== *)
(** * Order-book depth and the ranking pipeline *)
(* ================================================================== *)

(** [Array.prototype.sort] with a comparison function: a stable insertion
    sort.  A comparison that returns [NaN] counts as [0], as in the
    language definition.  The language fixes the order of the result (the
    sorted order, ties in their original order) when the comparison is
    consistent, which [b.key - a.key] is when every key is a number; with
    a [NaN] key the order is left to the engine, and statements about the
    order of the result carry the hypothesis that the keys are numbers. *)
Fixpoint insertBy {A : Type} (cmp : A -> A -> number) (x : A) (l : list A)
  : list A :=
  match l with
  | [] => [x]
  | y :: l' => if cmp x y >? 0 then y :: insertBy cmp x l' else x :: y :: l'
  end.

Definition sortBy {A : Type} (cmp : A -> A -> number) (l : list A) : list A :=
  fold_right (insertBy cmp) [] l.

(** Bids descending and asks ascending by price. *)
Definition sortBids (l : list Level) : list Level :=
  sortBy (fun a b => price b - price a) l.
Definition sortAsks (l : list Level) : list Level :=
  sortBy (fun a b => price a - price b) l.

(** The closure [getDepth] of [getScalpingMarkets], with the market and the
    two sorted sides it captures as parameters. *)
Definition getDepth (m : Market) (sortedBids sortedAsks : list Level)
    (ticks : number) (side : Side) (basePrice : number) : number :=
  let arr := match side with Bids => sortedBids | Asks => sortedAsks end in
  let tickSize := orderPriceMinTickSize m ||| 0.01 in
  let limitPrice :=
    match side with
    | Bids => basePrice - ticks * tickSize
    | Asks => basePrice + ticks * tickSize
    end in
  fold_left (fun acc item => acc + size item)
    (filter (fun item =>
               let p := price item in
               match side with
               | Bids => p >=? limitPrice
               | Asks => p <=? limitPrice
               end) arr)
    (Num 0).

(** The record a market starts with.  [now] stands for every reading of the
    clock made while one market is processed. *)
Definition initialProcessed (now : Q) (m : Market) : Processed :=
  {| p_id := id m;
     p_question := question m;
     p_slug := slug m;
     p_volume24hr := volume24hr m;
     p_volume7d := volume1wk m;
     p_endDate := endDate m;
     p_tickSize := orderPriceMinTickSize m ||| 0.01;
     p_liquidity := liquidity m ||| 0;
     p_oneWeekPriceChange := oneWeekPriceChange m ||| 0;
     spread := None;
     bestBid := None;
     bestAsk := None;
     scalpingScore := 0;
     exclusionReason' := None;
     details :=
       {| spreadInTicks := 0;
          depth1Tick := 0;
          depth3Tick := 0;
          depth5Tick := 0;
          daysToRes := Js.toFixedValue 1 ((endDate m - now) / 86400000);
          bidDepth1 := 0;
          askDepth1 := 0;
          bidDepth5 := 0;
          askDepth5 := 0 |} |}.

(** The part of the callback that runs once a book with both sides
    non-empty has arrived. *)
Definition scoreWithBook (now : Q) (m : Market) (book : OrderBook)
    (processed : Processed) : Processed :=
  let sortedBids := sortBids (bids book) in
  let sortedAsks := sortAsks (asks book) in
  match sortedBids, sortedAsks with
  | b0 :: _, a0 :: _ =>
      let bestBid := price b0 in
      let bestAsk := price a0 in
      let spread := bestAsk - bestBid in
      let depth := getDepth m sortedBids sortedAsks in
      let bidDepth1 := depth 1 Bids bestBid in
      let askDepth1 := depth 1 Asks bestAsk in
      let bidDepth3 := depth 3 Bids bestBid in
      let askDepth3 := depth 3 Asks bestAsk in
      let bidDepth5 := depth 5 Bids bestBid in
      let askDepth5 := depth 5 Asks bestAsk in
      let scoreResult :=
        calculateScalpingScore now m spread
          bidDepth1 askDepth1 bidDepth5 askDepth5 in
      {| p_id := p_id processed;
         p_question := p_question processed;
         p_slug := p_slug processed;
         p_volume24hr := p_volume24hr processed;
         p_volume7d := p_volume7d processed;
         p_endDate := p_endDate processed;
         p_tickSize := p_tickSize processed;
         p_liquidity := p_liquidity processed;
         p_oneWeekPriceChange := p_oneWeekPriceChange processed;
         spread := Some spread;
         bestBid := Some bestBid;
         bestAsk := Some bestAsk;
         scalpingScore := score scoreResult;
         exclusionReason' := exclusionReason scoreResult;
         details :=
           {| spreadInTicks := spread / (orderPriceMinTickSize m ||| 0.01);
              depth1Tick := bidDepth1 + askDepth1;
              depth3Tick := bidDepth3 + askDepth3;
              depth5Tick := bidDepth5 + askDepth5;
              daysToRes := daysToRes (details processed);
              bidDepth1 := bidDepth1;
              askDepth1 := askDepth1;
              bidDepth5 := bidDepth5;
              askDepth5 := askDepth5 |} |}
  | _, _ => processed
  end.

(** The callback [response.data.map(async (m) => ...)].  [fetchBook] is the
    order-book request: [None] when it throws (the [catch] swallows it). *)
Definition processMarket (now : Q) (fetchBook : string -> option OrderBook)
    (m : Market) : Processed :=
  let processed := initialProcessed now m in
  match clobTokenIds m with
  | [] => processed
  | tokenId :: _ =>
      match fetchBook tokenId with
      | None => processed
      | Some book =>
          if negb (List.length (bids book) =? 0)%nat
             && negb (List.length (asks book) =? 0)%nat
          then scoreWithBook now m book processed
          else processed
      end
  end.

(** [getScalpingMarkets]: [response] is the market listing ([None] when the
    request throws), and the result is sorted by score, descending. *)
Definition getScalpingMarkets (now : Q) (response : option (list Market))
    (fetchBook : string -> option OrderBook) : list Processed :=
  match response with
  | None => []
  | Some data =>
      sortBy (fun a b => scalpingScore b - scalpingScore a)
        (map (processMarket now fetchBook) data)
  end.

End Engine.

Close Scope js_scope.

(* ================================================================== *)
(** * The specification's reading of the scorer *)
(* ================================================================== *)

(** The nine hard-exclusion checks of the classifier, each as the reason it
    reports when it fires, in the order in which the specification lists
    them. *)
Section HardExclusions.

Variables (now : Q) (m : Market) (spread bidDepth1 askDepth1 : number).

Definition check_fees : option string :=
  if feesEnabled m then Some "Fees enabled"%string else None.

Definition check_spread : option string :=
  if (spread / tickSizeOf m >? 5)%js
  then Some "Spread too wide (>5 ticks)"%string else None.

Definition check_jump_keyword : option string :=
  option_map
    (fun kw => ("Jump risk keyword: " ++ dquote ++ kw ++ dquote)%string)
    (find (fun kw => includes (toLowerCase (question m)) kw)
       JUMP_RISK_KEYWORDS).

Definition check_decay_keyword : option string :=
  option_map
    (fun kw => ("Structural decay keyword: " ++ dquote ++ kw ++ dquote)%string)
    (find (fun kw => includes (toLowerCase (question m)) kw)
       STRUCTURAL_DECAY_KEYWORDS).

Definition check_price_edge : option string :=
  if ((midPriceOf m <? 0.08) || (midPriceOf m >? 0.92))%js
  then Some ("Price at edge ("
               ++ Js.toFixed 1 (midPriceOf m * 100)%js ++ "%)")%string
  else None.

Definition check_time : option string :=
  if (hoursToResOf now m <? 48)%js
  then Some "Less than 48 hours to resolution"%string else None.

Definition check_book : option string :=
  if ((bidDepth1 === 0) || (askDepth1 === 0))%js
  then Some "One-sided or empty book"%string else None.

Definition check_drift : option string :=
  if (calculateDriftPenalty (midPriceOf m) (oneWeekPriceChange m ||| 0)
      === 0)%js
  then Some "Directional drift toward edge"%string else None.

Definition check_volatility : option string :=
  if (calculateJumpRiskPenalty (question m) (oneWeekPriceChange m ||| 0)
      === 0)%js
  then Some "High weekly volatility"%string else None.

Definition hardExclusions : list (option string) :=
  [ check_fees; check_spread; check_jump_keyword; check_decay_keyword;
    check_price_edge; check_time; check_book; check_drift;
    check_volatility ].

End HardExclusions.

(** The reason of the first check that fires, if any does. *)
Fixpoint firstMatch (l : list (option string)) : option string :=
  match l with
  | [] => None
  | Some r :: _ => Some r
  | None :: l' => firstMatch l'
  end.

(** The composite of an eligible market: the weighted sum of the five
    components, times the event-resolution and jump-risk multipliers,
    floored at [0] and rounded to two decimals. *)
Definition compositeScore (log10Q : Q -> Q) (now : Q) (m : Market)
    (spread bidDepth1 askDepth1 bidDepth5 askDepth5 : number) : number :=
  Js.toFixedValue 2
    (Js.max 0
       ((spreadScoreOf (spread / tickSizeOf m) * 0.25
         + calculateVolumeChurnScore log10Q (volume24hr m) (volume1wk m) * 0.25
         + (reversionBase (midPriceOf m)
            * calculateDriftPenalty (midPriceOf m) (oneWeekPriceChange m ||| 0))
           * 0.20
         + calculateDepthQualityScore log10Q
             bidDepth1 askDepth1 bidDepth5 askDepth5 * 0.15
         + timeScoreOf (hoursToResOf now m) * 0.10)
        * calculateEventResolutionPenalty (question m)
        * calculateJumpRiskPenalty (question m) (oneWeekPriceChange m ||| 0)))%js.

(** A market is served by a book when the listing names a token, the
    request for its book succeeds and both sides of the book have levels;
    otherwise its book is unavailable. *)
Definition bookOf (fetchBook : string -> option OrderBook) (m : Market)
  : option OrderBook :=
  match clobTokenIds m with
  | [] => None
  | tokenId :: _ =>
      match fetchBook tokenId with
      | Some book =>
          match bids book, asks book with
          | _ :: _, _ :: _ => Some book
          | _, _ => None
          end
      | None => None
      end
  end.

(** The question, in lower case, contains one of the keywords. *)
Definition containsKeyword (q : string) (kws : list string) : Prop :=
  exists kw, In kw kws /\ includes (toLowerCase q) kw = true.

(** Best bid and best ask of a book: the price of the first level of the
    bids sorted descending, of the asks sorted ascending. *)
Definition bestBidOf (book : OrderBook) : option number :=
  option_map price (hd_error (sortBids (bids book))).
Definition bestAskOf (book : OrderBook) : option number :=
  option_map price (hd_error (sortAsks (asks book))).

(** A level whose price is a number. *)
Definition numericPrice (l : Level) : Prop := exists q, price l = Num q.

(** Level sizes that are numbers and not negative. *)
Definition nonnegSize (l : Level) : Prop :=
  match size l with
  | Num s => 0 <= s
  | NaN => False
  end.

(** A tick size the market can have: absent, or not negative. *)
Definition tickValid (m : Market) : Prop :=
  match orderPriceMinTickSize m with
  | Num t => 0 <= t
  | NaN => True
  end.

(** Level sizes that are positive numbers. *)
Definition positiveSize (l : Level) : Prop :=
  match size l with
  | Num s => 0 < s
  | NaN => False
  end.

(** A market the scorer can grade with numbers: numeric 24-hour volume
    that is not negative, numeric price, a tick size that is not negative,
    and, when a book serves it, sizes that are not negative. *)
Definition wellFormedFor (fetchBook : string -> option OrderBook)
    (m : Market) : Prop :=
  (exists v, volume24hr m = Num v /\ 0 <= v)
  /\ (exists p, midPriceOf m = Num p)
  /\ tickValid m
  /\ (forall book, bookOf fetchBook m = Some book ->
        Forall nonnegSize (bids book) /\ Forall nonnegSize (asks book)).

(* ================================================================== *)
(** * The other views of a book *)
(* ================================================================== *)

(** The object [calculateSpread] of [services/polymarket.ts] returns;
    [None] is [null]. *)
Record SpreadData : Type := {
  sd_spread : number;
  sd_bestBid : number;
  sd_bestAsk : number
}.

(** [calculateSpread] of [services/polymarket.ts]. *)
Definition calculateSpread (book : OrderBook) : option SpreadData :=
  if (List.length (bids book) =? 0)%nat || (List.length (asks book) =? 0)%nat
  then None
  else
    let sortedBids := sortBids (bids book) in
    let sortedAsks := sortAsks (asks book) in
    match sortedBids, sortedAsks with
    | b0 :: _, a0 :: _ =>
        let bestBid := price b0 in
        let bestAsk := price a0 in
        let spread := (bestAsk - bestBid)%js in
        Some {| sd_spread := spread;
                sd_bestBid := bestBid;
                sd_bestAsk := bestAsk |}
    | _, _ => None
    end.

(** What the callback of [getTopMarkets] reads off the book of a market:
    [spreadData] and the two depths at the best prices.  [fetched] is
    [None] when the market names no token or the request throws. *)
Record TopOfBook : Type := {
  tb_spread : option number;
  tb_bestBid : option number;
  tb_bestAsk : option number;
  bestBidDepth : number;
  bestAskDepth : number
}.

Definition topOfBook (fetched : option OrderBook) : TopOfBook :=
  let none :=
    {| tb_spread := None; tb_bestBid := None; tb_bestAsk := None;
       bestBidDepth := 0; bestAskDepth := 0 |} in
  match fetched with
  | None => none
  | Some book =>
      if negb (List.length (bids book) =? 0)%nat
         && negb (List.length (asks book) =? 0)%nat
      then
        let sortedBids := sortBids (bids book) in
        let sortedAsks := sortAsks (asks book) in
        match sortedBids, sortedAsks with
        | b0 :: _, a0 :: _ =>
            let bestBid := price b0 in
            let bestAsk := price a0 in
            {| tb_spread := Some (bestAsk - bestBid)%js;
               tb_bestBid := Some bestBid;
               tb_bestAsk := Some bestAsk;
               bestBidDepth :=
                 fold_left (fun acc b => (acc + size b)%js)
                   (filter (fun b => (price b === bestBid)%js) sortedBids)
                   (Num 0);
               bestAskDepth :=
                 fold_left (fun acc a => (acc + size a)%js)
                   (filter (fun a => (price a === bestAsk)%js) sortedAsks)
                   (Num 0) |}
        | _, _ => none
        end
      else none
  end.

(** The fill likelihood score of [getTopMarkets].  Its two divisors,
    [avgDepth + 1] and [1 + spread], are 0 for depths that sum to -2 and
    for a spread of -1, where the source gets an infinity; the properties
    of this score assume depths that are not negative and a spread above
    -1. *)
Definition fillScoreOf (log10Q : Q -> Q) (volume24hr : number)
    (tob : TopOfBook) : number :=
  let avgDepth := ((bestBidDepth tob + bestAskDepth tob) / 2)%js in
  let hourlyVol := (volume24hr / 24)%js in
  let spreadOrDefault :=
    match tb_spread tob with
    | None => Num 0.1
    | Some s => (s ||| 0.1)%js
    end in
  let spreadPenalty := (1 / (1 + spreadOrDefault))%js in
  let rawScore := (hourlyVol / (avgDepth + 1) * spreadPenalty)%js in
  let fillScore :=
    Js.min 100 (Js.max 0 (log10 log10Q (rawScore + 1) * 50)%js) in
  Js.toFixedValue 2 fillScore.

(* ================================================================== *)
(** * The language of a pattern *)
(* ================================================================== *)

(** The strings a pattern matches as a whole. *)
Inductive Matches : Regex.t -> string -> Prop :=
| MEps : Matches Regex.Eps EmptyString
| MChr (p : ascii -> bool) (c : ascii) :
    p c = true -> Matches (Regex.Chr p) (String c EmptyString)
| MSeq (r s : Regex.t) (u v : string) :
    Matches r u -> Matches s v -> Matches (Regex.Seq r s) (u ++ v)
| MAltL (r s : Regex.t) (u : string) :
    Matches r u -> Matches (Regex.Alt r s) u
| MAltR (r s : Regex.t) (u : string) :
    Matches s u -> Matches (Regex.Alt r s) u
| MStar0 (r : Regex.t) : Matches (Regex.Star r) EmptyString
| MStarS (r : Regex.t) (u v : string) :
    Matches r u -> Matches (Regex.Star r) v ->
    Matches (Regex.Star r) (u ++ v).

(** [w] occurs in [s]. *)
Definition occursIn (w s : string) : Prop :=
  exists a c : string, s = (a ++ w ++ c)%string.

(** The characters of [\d] and of [.]. *)
Definition isDigit (c : ascii) : bool :=
  let n := nat_of_ascii c in ((48 <=? n) && (n <=? 57))%nat.
Definition notLineBreak (c : ascii) : bool :=
  let n := nat_of_ascii c in negb ((n =? 10) || (n =? 13))%nat.

Fixpoint allChars (p : ascii -> bool) (s : string) : Prop :=
  match s with
  | EmptyString => True
  | String c s' => p c = true /\ allChars p s'
  end.

(** A run of [lo] to [hi] digits. *)
Definition numeral (lo hi : nat) (s : string) : Prop :=
  allChars isDigit s /\ (lo <= String.length s <= hi)%nat.

Open Scope string_scope.

(** The deadlines that name a month. *)
Definition monthDeadline (w : string) : Prop :=
  exists mo, In mo months /\ (w = "by " ++ mo \/ w = "before " ++ mo).

(** What the countdown patterns of [calculateEventResolutionPenalty]
    match. *)
Definition deadlinePhrase (w : string) : Prop :=
  monthDeadline w
  \/ w = "by end of"
  \/ w = "by midnight"
  \/ (exists d n, numeral 1 2 d /\ numeral 1 2 n /\ w = "by " ++ d ++ "/" ++ n)
  \/ (exists y, numeral 4 4 y /\ (w = "by " ++ y \/ w = "before " ++ y)).

Definition eventWords : list string :=
  [ "announce"; "decision"; "rule on"; "vote on"; "result";
    "confirm"; "approve"; "reject"; "pass"; "veto" ].

(** What its single-event patterns match: [will], at least one character
    that is no line break, and one of the event words. *)
Definition singleEventPhrase (w : string) : Prop :=
  exists x word,
    In word eventWords /\ x <> "" /\ allChars notLineBreak x
    /\ w = "will " ++ x ++ " " ++ word.

Close Scope string_scope.

(* ================================================================== *)
(** * Sample markets and books *)
(* ================================================================== *)

Module Sample.

(** 2025-11-02T00:00:00Z, in milliseconds. *)
Definition now : Q := 1762041600000.

(** A liquid market that resolves 500 hours after [now]. *)
Definition market (q : string) (p : OutcomePrices) (fees : bool)
    (change : number) : Market :=
  {| id := "517310";
     question := q;
     slug := "sample-market";
     volume24hr := Num 100000;
     volume1wk := Num 700000;
     outcomePrices := p;
     clobTokenIds := ["7132"%string];
     outcomes := "[]";
     endDate := Num 1763841600000;
     orderPriceMinTickSize := Num 0.01;
     feesEnabled := fees;
     liquidity := Num 25000;
     oneWeekPriceChange := change |}.

Definition rain : string := "Will it rain in Paris on Friday?".

Definition calm : Market := market rain (FirstPrice 0.5) false (Num 0).
Definition withFees : Market := market rain (FirstPrice 0.5) true (Num 0).
Definition championship : Market :=
  market "Will Team X win the championship?" (FirstPrice 0.04) false (Num 0).
Definition unparsable : Market := market rain Unparsable false (Num 0).
Definition nanPrice : Market := market rain (FirstPrice NaN) false (Num 0).

Definition level (p s : Q) : Level := {| price := Num p; size := Num s |}.

Definition book : OrderBook :=
  {| bids := [level 0.48 4000; level 0.50 1000];
     asks := [level 0.51 1000; level 0.53 4000] |}.

Definition crossedBook : OrderBook :=
  {| bids := [level 0.55 1000; level 0.52 4000];
     asks := [level 0.50 1000; level 0.53 4000] |}.

Definition emptyBook : OrderBook := {| bids := []; asks := [] |}.

Definition serve (b : OrderBook) (tokenId : string) : option OrderBook :=
  Some b.

Definition unreachable (tokenId : string) : option OrderBook := None.

End Sample.

(* ================================================================== *)
(** * Comparisons of rationals as propositions *)
(* ================================================================== *)

Lemma Qltb_lt (x y : Q) : Js.Qltb x y = true <-> x < y.
Proof.
  unfold Js.Qltb. rewrite negb_true_iff.
  split; intro H.
  - apply Qnot_le_lt. intro K. apply Qle_bool_iff in K. congruence.
  - destruct (Qle_bool y x) eqn:E; [|reflexivity].
    apply Qle_bool_iff in E. exfalso. apply (Qlt_not_le _ _ H E).
Qed.

Lemma Qltb_ge (x y : Q) : Js.Qltb x y = false <-> y <= x.
Proof.
  unfold Js.Qltb. rewrite negb_false_iff. apply Qle_bool_iff.
Qed.

Lemma Qleb_gt (x y : Q) : Qle_bool x y = false <-> y < x.
Proof.
  rewrite <- Qltb_lt. unfold Js.Qltb.
  destruct (Qle_bool x y); simpl; intuition congruence.
Qed.

Lemma Qeqb_neq (x y : Q) : Qeq_bool x y = false <-> ~ x == y.
Proof.
  split.
  - apply Qeq_bool_neq.
  - intro H. destruct (Qeq_bool x y) eqn:E; [|reflexivity].
    apply Qeq_bool_iff in E. contradiction.
Qed.

Lemma Qabs_cases (x : Q) :
  (0 <= x /\ Qabs x == x) \/ (x <= 0 /\ Qabs x == - x).
Proof.
  destruct (Qlt_le_dec x 0) as [H|H].
  - right. split; [lra|]. apply Qabs_neg. lra.
  - left. split; [assumption|]. apply Qabs_pos. assumption.
Qed.

Ltac reflect_cmp :=
  repeat match goal with
  | H : Js.Qltb _ _ = true |- _ => apply Qltb_lt in H
  | H : Js.Qltb _ _ = false |- _ => apply Qltb_ge in H
  | H : Qle_bool _ _ = true |- _ => apply Qle_bool_iff in H
  | H : Qle_bool _ _ = false |- _ => apply Qleb_gt in H
  | H : Qeq_bool _ _ = true |- _ => apply Qeq_bool_iff in H
  | H : Qeq_bool _ _ = false |- _ => apply Qeqb_neq in H
  end.

Ltac case_cmp :=
  match goal with
  | |- context [Js.Qltb ?x ?y] => destruct (Js.Qltb x y) eqn:?
  | |- context [Qle_bool ?x ?y] => destruct (Qle_bool x y) eqn:?
  | |- context [Qeq_bool ?x ?y] => destruct (Qeq_bool x y) eqn:?
  end.

Ltac unfold_js :=
  unfold Js.or_else, Js.truthy, Js.gt, Js.ge, Js.lt, Js.le, Js.strict_eq,
    Js.abs, Js.max, Js.min, Js.add, Js.sub, Js.mul, Js.div,
    Js.cmp2, Js.lift2 in *.

(** The divisors the scorer builds with [||] are numbers other than 0. *)
Lemma or_else_nonzero (a : number) (d : Q) :
  ~ d == 0 -> exists x, (a ||| Num d)%js = Num x /\ ~ x == 0.
Proof.
  intro Hd. unfold Js.or_else, Js.truthy. destruct a as [|x].
  - exists d. split; [reflexivity | exact Hd].
  - destruct (Qeq_bool x 0) eqn:E; simpl.
    + exists d. split; [reflexivity | exact Hd].
    + exists x. split; [reflexivity | apply Qeqb_neq; exact E].
Qed.

Lemma divisors_nonzero (m : Market) :
  (exists t, tickSizeOf m = Num t /\ ~ t == 0)
  /\ (exists d, (volume1wk m ||| 1)%js = Num d /\ ~ d == 0).
Proof.
  split; apply or_else_nonzero; discriminate.
Qed.

(* ================================================================== *)
(** * The scorer as a ladder of checks followed by the composite *)
(* ================================================================== *)

Lemma firstMatch_cons (o : option string) (l : list (option string)) :
  firstMatch (o :: l) = match o with Some r => Some r | None => firstMatch l end.
Proof. destruct o; reflexivity. Qed.

(** [calculateScalpingScore] reports the first check that fires and
    otherwise the composite. *)
Lemma calculateScalpingScore_ladder (log10Q : Q -> Q) (now : Q) (m : Market)
    (spread bidDepth1 askDepth1 bidDepth5 askDepth5 : number) :
  calculateScalpingScore log10Q now m
    spread bidDepth1 askDepth1 bidDepth5 askDepth5
  = match firstMatch (hardExclusions now m spread bidDepth1 askDepth1) with
    | Some reason => excluded reason
    | None =>
        {| score := compositeScore log10Q now m
                      spread bidDepth1 askDepth1 bidDepth5 askDepth5;
           exclusionReason := None |}
    end.
Proof.
  unfold calculateScalpingScore, hardExclusions.
  rewrite !firstMatch_cons.
  unfold check_fees. destruct (feesEnabled m); [reflexivity|].
  unfold check_spread. destruct (Js.gt _ _); [reflexivity|].
  unfold check_jump_keyword. destruct (find _ JUMP_RISK_KEYWORDS); [reflexivity|].
  unfold check_decay_keyword.
  destruct (find _ STRUCTURAL_DECAY_KEYWORDS); [reflexivity|].
  cbv zeta. unfold check_price_edge.
  destruct (Js.lt (midPriceOf m) _ || Js.gt (midPriceOf m) _); [reflexivity|].
  unfold check_time. destruct (Js.lt (hoursToResOf now m) _); [reflexivity|].
  unfold check_book.
  destruct (Js.strict_eq bidDepth1 _ || Js.strict_eq askDepth1 _);
    [reflexivity|].
  unfold check_drift. destruct (Js.strict_eq (calculateDriftPenalty _ _) _);
    [reflexivity|].
  unfold check_volatility.
  destruct (Js.strict_eq (calculateJumpRiskPenalty _ _) _); reflexivity.
Qed.

(* ================================================================== *)
(** * Keywords *)
(* ================================================================== *)

Lemma existsb_keyword (q : string) (kws : list string) :
  existsb (fun kw => includes (toLowerCase q) kw) kws = true
  <-> containsKeyword q kws.
Proof. unfold containsKeyword. apply existsb_exists. Qed.

Lemma find_keyword_none (q : string) (kws : list string) :
  find (fun kw => includes (toLowerCase q) kw) kws = None
  <-> ~ containsKeyword q kws.
Proof.
  unfold containsKeyword. split.
  - intros H [kw [Hin Hkw]].
    pose proof (find_none _ _ H kw Hin) as K. simpl in K. congruence.
  - intro H. destruct (find _ kws) eqn:E; [|reflexivity].
    apply find_some in E. exfalso. apply H. eauto.
Qed.

(* ================================================================== *)
(** * When each check fires *)
(* ================================================================== *)

Lemma check_fees_fires (m : Market) :
  check_fees m <> None <-> feesEnabled m = true.
Proof.
  unfold check_fees. destruct (feesEnabled m); split; congruence.
Qed.

Lemma check_spread_fires (m : Market) (s t : Q) :
  tickSizeOf m = Num t ->
  check_spread m (Num s) <> None <-> 5 < s / t.
Proof.
  intro Et. destruct (divisors_nonzero m) as [(t' & Et' & Ht) _].
  rewrite Et in Et'. injection Et' as <-.
  unfold check_spread. rewrite Et. unfold_js.
  apply Qeqb_neq in Ht. rewrite Ht.
  case_cmp; reflect_cmp; split; intro H; try congruence.
  exfalso. lra.
Qed.

Lemma check_jump_keyword_fires (m : Market) :
  check_jump_keyword m <> None
  <-> containsKeyword (question m) JUMP_RISK_KEYWORDS.
Proof.
  unfold check_jump_keyword.
  destruct (find _ JUMP_RISK_KEYWORDS) as [kw|] eqn:E; cbn [option_map].
  - split; [intros _ | discriminate].
    apply find_some in E. exists kw. exact E.
  - split; [congruence|]. intro H.
    apply find_keyword_none in E. contradiction.
Qed.

Lemma check_decay_keyword_fires (m : Market) :
  check_decay_keyword m <> None
  <-> containsKeyword (question m) STRUCTURAL_DECAY_KEYWORDS.
Proof.
  unfold check_decay_keyword.
  destruct (find _ STRUCTURAL_DECAY_KEYWORDS) as [kw|] eqn:E; cbn [option_map].
  - split; [intros _ | discriminate].
    apply find_some in E. exists kw. exact E.
  - split; [congruence|]. intro H.
    apply find_keyword_none in E. contradiction.
Qed.

Lemma check_price_edge_fires (m : Market) (p : Q) :
  midPriceOf m = Num p ->
  check_price_edge m <> None <-> p < 0.08 \/ 0.92 < p.
Proof.
  intro Ep. unfold check_price_edge. rewrite Ep. unfold_js.
  repeat (case_cmp; simpl); reflect_cmp; split; intro H;
    try congruence; try (left; assumption); try (right; assumption).
  exfalso. destruct H; lra.
Qed.

Lemma check_time_fires (now : Q) (m : Market) (e : Q) :
  endDate m = Num e ->
  check_time now m <> None <-> (e - now) / 3600000 < 48.
Proof.
  intro Ee. unfold check_time, hoursToResOf. rewrite Ee. unfold_js.
  change (Qeq_bool 3600000 0) with false. cbv iota.
  case_cmp; reflect_cmp; split; intro H; try congruence.
  exfalso. lra.
Qed.

Lemma check_book_fires (b1 a1 : Q) :
  check_book (Num b1) (Num a1) <> None <-> b1 == 0 \/ a1 == 0.
Proof.
  unfold check_book. unfold_js.
  repeat (case_cmp; simpl); reflect_cmp; split; intro H;
    try congruence; try (left; assumption); try (right; assumption).
  exfalso. destruct H; contradiction.
Qed.

Lemma check_drift_fires (m : Market) (p c : Q) :
  midPriceOf m = Num p ->
  oneWeekPriceChange m = Num c ->
  check_drift m <> None
  <-> (p < 0.15 /\ c < - 0.05) \/ (0.85 < p /\ 0.05 < c).
Proof.
  intros Ep Ec. unfold check_drift, calculateDriftPenalty.
  rewrite Ep, Ec. unfold_js.
  destruct (Qeq_bool c 0) eqn:E0; simpl; reflect_cmp;
    repeat (case_cmp; simpl); reflect_cmp; split; intro H;
    try congruence;
    try (left; split; lra); try (right; split; lra);
    try (exfalso; destruct H as [[? ?]|[? ?]]; lra);
    try (exfalso; vm_compute in H; congruence).
Qed.

(** The volatility penalty is 0 only on a jump-risk keyword, which the
    third check has reported by then: the ninth check adds no exclusion
    of its own. *)
Lemma check_volatility_fires (m : Market) :
  check_volatility m <> None
  <-> containsKeyword (question m) JUMP_RISK_KEYWORDS.
Proof.
  rewrite <- existsb_keyword. unfold check_volatility, calculateJumpRiskPenalty.
  destruct (existsb _ JUMP_RISK_KEYWORDS).
  - split; [reflexivity | discriminate].
  - repeat match goal with
           | |- context [if Js.gt ?a ?b then _ else _] => destruct (Js.gt a b)
           end; split; intro H; try discriminate; exfalso; apply H; reflexivity.
Qed.

Lemma volatility_check_is_shadowed (now : Q) (m : Market)
    (spread bidDepth1 askDepth1 : number) :
  check_jump_keyword m = None ->
  nth 8 (hardExclusions now m spread bidDepth1 askDepth1) None = None.
Proof.
  intro H. cbn [hardExclusions nth].
  destruct (check_volatility m) eqn:E; [|reflexivity].
  exfalso.
  assert (K : check_volatility m <> None) by congruence.
  apply check_volatility_fires, check_jump_keyword_fires in K.
  contradiction.
Qed.

(* ================================================================== *)
(** * Values of the penalties *)
(* ================================================================== *)

(** C7. The jump-risk volatility penalty is 0 when the question contains a
    jump-risk keyword; otherwise it is 0.2, 0.5, 0.8 or 1.0 according to
    whether the absolute one-week change exceeds 0.30, 0.20, 0.10 or none
    of them; for a change of 0.35 and no keyword it is exactly 0.2. *)
Theorem C7_jump_risk_penalty_values (q : string) :
  (containsKeyword q JUMP_RISK_KEYWORDS ->
   forall c : number, calculateJumpRiskPenalty q c = Num 0)
  /\ (~ containsKeyword q JUMP_RISK_KEYWORDS ->
      (forall c : Q,
          (0.30 < Qabs c -> calculateJumpRiskPenalty q (Num c) = Num 0.2)
          /\ (0.20 < Qabs c <= 0.30 ->
              calculateJumpRiskPenalty q (Num c) = Num 0.5)
          /\ (0.10 < Qabs c <= 0.20 ->
              calculateJumpRiskPenalty q (Num c) = Num 0.8)
          /\ (Qabs c <= 0.10 ->
              calculateJumpRiskPenalty q (Num c) = Num 1.0))
      /\ calculateJumpRiskPenalty q (Num 0.35) = Num 0.2).
Proof.
  split.
  - intros H c. apply existsb_keyword in H.
    unfold calculateJumpRiskPenalty. rewrite H. reflexivity.
  - intro H.
    assert (E : existsb (fun kw => includes (toLowerCase q) kw)
                  JUMP_RISK_KEYWORDS = false).
    { destruct (existsb _ JUMP_RISK_KEYWORDS) eqn:E; [|reflexivity].
      apply existsb_keyword in E. contradiction. }
    split.
    + intro c. unfold calculateJumpRiskPenalty. rewrite E. unfold_js.
      destruct (Qabs_cases c) as [[? ?]|[? ?]];
        repeat split; intros; repeat (case_cmp; simpl); reflect_cmp;
        try reflexivity; lra.
    + unfold calculateJumpRiskPenalty. rewrite E. reflexivity.
Qed.

(** The penalty at the sample question, at a change of 0.35 and under each
    threshold. *)
Lemma C7_jump_risk_penalty_witness :
  calculateJumpRiskPenalty Sample.rain (Num 0.35) = Num 0.2
  /\ calculateJumpRiskPenalty Sample.rain (Num (- 0.25)) = Num 0.5
  /\ calculateJumpRiskPenalty Sample.rain (Num 0.15) = Num 0.8
  /\ calculateJumpRiskPenalty Sample.rain (Num 0.02) = Num 1.0
  /\ calculateJumpRiskPenalty "Will the Fed cut rates in March?" (Num 0.02)
     = Num 0.
Proof.
  assert (Hno : ~ containsKeyword Sample.rain JUMP_RISK_KEYWORDS).
  { apply find_keyword_none. vm_compute. reflexivity. }
  assert (Hyes : containsKeyword "Will the Fed cut rates in March?"
                   JUMP_RISK_KEYWORDS).
  { apply existsb_keyword. vm_compute. reflexivity. }
  destruct (C7_jump_risk_penalty_values Sample.rain) as [_ H].
  destruct (H Hno) as [Hc H35].
  split; [exact H35|].
  split; [destruct (Hc (- 0.25)) as (_ & K & _);
          apply K; vm_compute; split; [reflexivity | discriminate]|].
  split; [destruct (Hc 0.15) as (_ & _ & K & _);
          apply K; vm_compute; split; [reflexivity | discriminate]|].
  split; [destruct (Hc 0.02) as (_ & _ & _ & K);
          apply K; vm_compute; discriminate|].
  destruct (C7_jump_risk_penalty_values "Will the Fed cut rates in March?")
    as [H0 _].
  apply (H0 Hyes).
Defined.

(** C6. The drift penalty is 0 for a price below 0.15 with a one-week
    change below -0.05 and for a price above 0.85 with a change above 0.05,
    0.5 for a price in an edge band without that drift, 1.2 away from the
    edges when the absolute change is below 0.03, and 1.0 otherwise; the
    scorer returns no reason exactly when none of the nine checks fires,
    and its score is then the composite in which the drift multiplier
    occurs once, as the factor of the mean-reversion component
    max(0, 100 - 180|midPrice - 0.5|), so that the multiplier enters the
    score only there. *)
Theorem C6_drift_penalty_values_and_single_use :
  (forall p c : Q,
      (p < 0.15 -> c < - 0.05 ->
       calculateDriftPenalty (Num p) (Num c) = Num 0)
      /\ (0.85 < p -> 0.05 < c ->
          calculateDriftPenalty (Num p) (Num c) = Num 0)
      /\ (p < 0.15 -> - 0.05 <= c ->
          calculateDriftPenalty (Num p) (Num c) = Num 0.5)
      /\ (0.85 < p -> c <= 0.05 ->
          calculateDriftPenalty (Num p) (Num c) = Num 0.5)
      /\ (0.15 <= p <= 0.85 -> Qabs c < 0.03 ->
          calculateDriftPenalty (Num p) (Num c) = Num 1.2)
      /\ (0.15 <= p <= 0.85 -> 0.03 <= Qabs c ->
          calculateDriftPenalty (Num p) (Num c) = Num 1.0))
  /\ (forall (log10Q : Q -> Q) (now : Q) (m : Market)
             (spread bidDepth1 askDepth1 bidDepth5 askDepth5 : number),
         let r := calculateScalpingScore log10Q now m
                    spread bidDepth1 askDepth1 bidDepth5 askDepth5 in
         let drift := calculateDriftPenalty (midPriceOf m)
                        (oneWeekPriceChange m ||| 0)%js in
         let eligible :=
           firstMatch (hardExclusions now m spread bidDepth1 askDepth1)
           = None in
         (exclusionReason r = None <-> eligible)
         /\ (eligible ->
             score r
             = Js.toFixedValue 2
                 (Js.max 0
                    ((spreadScoreOf (spread / tickSizeOf m) * 0.25
                      + calculateVolumeChurnScore log10Q
                          (volume24hr m) (volume1wk m) * 0.25
                      + (Js.max 0 (100 - Js.abs (midPriceOf m - 0.5) * 180)
                         * drift) * 0.20
                      + calculateDepthQualityScore log10Q
                          bidDepth1 askDepth1 bidDepth5 askDepth5 * 0.15
                      + timeScoreOf (hoursToResOf now m) * 0.10)
                     * calculateEventResolutionPenalty (question m)
                     * calculateJumpRiskPenalty (question m)
                         (oneWeekPriceChange m ||| 0)))%js)).
Proof.
  split.
  - intros p c. unfold calculateDriftPenalty. unfold_js.
    destruct (Qabs_cases c) as [[? ?]|[? ?]];
      repeat split; intros; repeat (case_cmp; simpl); reflect_cmp;
      try reflexivity; lra.
  - intros log10Q now m spread b1 a1 b5 a5 r drift eligible.
    subst r drift eligible.
    rewrite calculateScalpingScore_ladder.
    destruct (firstMatch _); simpl.
    + split; [split; discriminate | discriminate].
    + split; [split; reflexivity | intros _; reflexivity].
Qed.

Lemma C6_drift_penalty_witness :
  calculateDriftPenalty (Num 0.10) (Num (- 0.10)) = Num 0
  /\ calculateDriftPenalty (Num 0.90) (Num 0.10) = Num 0
  /\ calculateDriftPenalty (Num 0.10) (Num 0.02) = Num 0.5
  /\ calculateDriftPenalty (Num 0.90) (Num (- 0.10)) = Num 0.5
  /\ calculateDriftPenalty (Num 0.50) (Num 0.01) = Num 1.2
  /\ calculateDriftPenalty (Num 0.50) (Num 0.04) = Num 1.0
  /\ firstMatch (hardExclusions Sample.now Sample.calm
                   (Num 0.01) (Num 1000) (Num 1000)) = None
  /\ exclusionReason
       (calculateScalpingScore log10_floor Sample.now Sample.calm
          (Num 0.01) (Num 1000) (Num 1000) (Num 5000) (Num 5000)) = None
  /\ score (calculateScalpingScore log10_floor Sample.now Sample.calm
              (Num 0.01) (Num 1000) (Num 1000) (Num 5000) (Num 5000))
     = Num (207 # 2).
Proof.
  destruct C6_drift_penalty_values_and_single_use as [Hv Hs].
  split; [destruct (Hv 0.10 (- 0.10)) as (H & _); apply H; reflexivity|].
  split; [destruct (Hv 0.90 0.10) as (_ & H & _); apply H; reflexivity|].
  split; [destruct (Hv 0.10 0.02) as (_ & _ & H & _);
          apply H; [reflexivity | discriminate]|].
  split; [destruct (Hv 0.90 (- 0.10)) as (_ & _ & _ & H & _);
          apply H; [reflexivity | discriminate]|].
  split; [destruct (Hv 0.50 0.01) as (_ & _ & _ & _ & H & _);
          apply H; [split; discriminate | reflexivity]|].
  split; [destruct (Hv 0.50 0.04) as (_ & _ & _ & _ & _ & H);
          apply H; [split; discriminate | discriminate]|].
  assert (He : firstMatch (hardExclusions Sample.now Sample.calm
                             (Num 0.01) (Num 1000) (Num 1000)) = None)
    by (vm_compute; reflexivity).
  pose proof (Hs log10_floor Sample.now Sample.calm
                (Num 0.01) (Num 1000) (Num 1000) (Num 5000) (Num 5000))
    as K.
  cbv zeta in K. destruct K as [Hiff Hscore].
  split; [exact He|].
  split; [apply Hiff; exact He|].
  rewrite (Hscore He). vm_compute. reflexivity.
Defined.

(* ================================================================== *)
(** * The hard-exclusion ladder *)
(* ================================================================== *)

(** C1. The result of the scorer is either an exclusion, with score 0 and
    the reason of the first of the nine checks that fires, taken in the
    order fees, spread above 5 ticks, jump-risk keyword, structural-decay
    keyword, price outside [0.08, 0.92], less than 48 hours to resolution,
    zero top-of-book depth on a side, drift penalty 0, volatility penalty
    0; or, when none fires, an eligible result with no reason and the
    composite score.  In particular, when the first three checks do not
    fire and the question contains a structural-decay keyword, the reason
    is that keyword whatever the price is, 0.04 included. *)
Theorem C1_hard_exclusions_first_match_wins (log10Q : Q -> Q) (now : Q)
    (m : Market) (spread bidDepth1 askDepth1 bidDepth5 askDepth5 : number) :
  let r := calculateScalpingScore log10Q now m
             spread bidDepth1 askDepth1 bidDepth5 askDepth5 in
  exclusionReason r = firstMatch (hardExclusions now m spread bidDepth1 askDepth1)
  /\ match exclusionReason r with
     | Some _ => score r = Num 0
     | None => score r = compositeScore log10Q now m
                           spread bidDepth1 askDepth1 bidDepth5 askDepth5
     end
  /\ (forall reason : string,
         check_fees m = None ->
         check_spread m spread = None ->
         check_jump_keyword m = None ->
         check_decay_keyword m = Some reason ->
         r = {| score := Num 0; exclusionReason := Some reason |}).
Proof.
  intro r. subst r. rewrite calculateScalpingScore_ladder.
  split; [|split].
  - destruct (firstMatch _); reflexivity.
  - destruct (firstMatch _); reflexivity.
  - intros reason H1 H2 H3 H4. unfold hardExclusions.
    rewrite !firstMatch_cons, H1, H2, H3, H4. reflexivity.
Qed.

(** The championship question at a price of 0.04: the keyword is reported,
    not the price. *)
Lemma C1_championship_witness :
  midPriceOf Sample.championship = Num 0.04
  /\ check_price_edge Sample.championship = Some "Price at edge (4.0%)"%string
  /\ calculateScalpingScore log10_floor Sample.now Sample.championship
       (Num 0.01) (Num 1000) (Num 1000) (Num 5000) (Num 5000)
     = {| score := Num 0;
          exclusionReason :=
            Some ("Structural decay keyword: "
                    ++ dquote ++ "win the championship" ++ dquote)%string |}.
Proof.
  split; [reflexivity|]. split; [reflexivity|].
  apply (C1_hard_exclusions_first_match_wins log10_floor Sample.now
           Sample.championship); reflexivity.
Defined.

(* ================================================================== *)
(** * Dependence on the clock *)
(* ================================================================== *)

(** C9, as stated, fails: the scorer reads the clock, and one snapshot
    evaluated 460 hours apart is eligible the first time and excluded the
    second. *)
Lemma C9_same_snapshot_different_results :
  calculateScalpingScore log10_floor Sample.now Sample.calm
    (Num 0.01) (Num 1000) (Num 1000) (Num 5000) (Num 5000)
  <> calculateScalpingScore log10_floor (Sample.now + 460 * 3600000) Sample.calm
       (Num 0.01) (Num 1000) (Num 1000) (Num 5000) (Num 5000).
Proof.
  intro H. vm_compute in H. discriminate H.
Qed.

(** C9, amended.  The result is a function of the snapshot and of the
    clock, and of the clock only through the hours to resolution: two
    evaluations of one snapshot agree whenever their clock readings are on
    the same side of the 48-hour cutoff and in the same time-safety
    band. *)
Theorem C9_same_time_band_same_result (log10Q : Q -> Q) (now1 now2 : Q)
    (m : Market) (spread bidDepth1 askDepth1 bidDepth5 askDepth5 : number) :
  Js.lt (hoursToResOf now1 m) (Num 48) = Js.lt (hoursToResOf now2 m) (Num 48) ->
  timeScoreOf (hoursToResOf now1 m) = timeScoreOf (hoursToResOf now2 m) ->
  calculateScalpingScore log10Q now1 m
    spread bidDepth1 askDepth1 bidDepth5 askDepth5
  = calculateScalpingScore log10Q now2 m
      spread bidDepth1 askDepth1 bidDepth5 askDepth5.
Proof.
  intros H48 Hband. rewrite !calculateScalpingScore_ladder.
  unfold hardExclusions, check_time, compositeScore.
  rewrite H48, Hband. reflexivity.
Qed.

Lemma C9_same_time_band_witness :
  calculateScalpingScore log10_floor Sample.now Sample.calm
    (Num 0.01) (Num 1000) (Num 1000) (Num 5000) (Num 5000)
  = calculateScalpingScore log10_floor (Sample.now + 3600000) Sample.calm
      (Num 0.01) (Num 1000) (Num 1000) (Num 5000) (Num 5000).
Proof.
  apply C9_same_time_band_same_result; reflexivity.
Defined.

(* ================================================================== *)
(** * A price that does not parse *)
(* ================================================================== *)

(** When parsing the price throws, the price is 0.5: the edge check does
    not fire and the mean-reversion base is 100. *)
Lemma unparsable_price_defaults (m : Market) :
  outcomePrices m = Unparsable ->
  midPriceOf m = Num 0.5
  /\ check_price_edge m = None
  /\ exists b, reversionBase (midPriceOf m) = Num b /\ b == 100.
Proof.
  intro H. unfold check_price_edge, midPriceOf. rewrite H.
  split; [reflexivity|]. split; [reflexivity|].
  eexists. split; [reflexivity|]. reflexivity.
Qed.

(** C10 at a price list whose first element is not numeric (the JSON text
    of an empty array, say): [parseFloat] returns [NaN] without throwing,
    so the price is [NaN] and not 0.5; the edge check does not fire, the
    mean-reversion base is [NaN] and not 100, and the market is eligible
    with score [NaN]. *)
Theorem C10_non_numeric_price_scores_NaN :
  outcomePrices Sample.nanPrice = FirstPrice NaN
  /\ midPriceOf Sample.nanPrice = NaN
  /\ check_price_edge Sample.nanPrice = None
  /\ reversionBase (midPriceOf Sample.nanPrice) = NaN
  /\ forall log10Q : Q -> Q,
       calculateScalpingScore log10Q Sample.now Sample.nanPrice
         (Num 0.01) (Num 1000) (Num 1000) (Num 5000) (Num 5000)
       = {| score := NaN; exclusionReason := None |}.
Proof.
  repeat split; try reflexivity.
Qed.

(* ================================================================== *)
(** * Sorting and banded depth *)
(* ================================================================== *)

Lemma insertBy_perm {A : Type} (cmp : A -> A -> number) (x : A) (l : list A) :
  Permutation (insertBy cmp x l) (x :: l).
Proof.
  induction l as [|y l IH]; simpl.
  - apply Permutation_refl.
  - match goal with |- context [if ?c then _ else _] => destruct c end.
    + eapply perm_trans; [apply perm_skip, IH | apply perm_swap].
    + apply Permutation_refl.
Qed.

Lemma sortBy_perm {A : Type} (cmp : A -> A -> number) (l : list A) :
  Permutation (sortBy cmp l) l.
Proof.
  induction l as [|x l IH]; simpl.
  - apply perm_nil.
  - eapply perm_trans; [apply insertBy_perm | apply perm_skip, IH].
Qed.

Lemma sortBy_cons {A : Type} (cmp : A -> A -> number) (x : A) (l : list A) :
  exists y l', sortBy cmp (x :: l) = y :: l'.
Proof.
  destruct (sortBy cmp (x :: l)) as [|y l'] eqn:E; [|eauto].
  pose proof (sortBy_perm cmp (x :: l)) as P. rewrite E in P.
  apply Permutation_nil in P. discriminate P.
Qed.

(** On numeric prices the first level of the sorted bids carries the
    highest bid, and the first level of the sorted asks the lowest ask. *)
Lemma sortBids_head_max (l : list Level) (b0 : Level) (bs : list Level) :
  Forall numericPrice l ->
  sortBids l = b0 :: bs ->
  forall x, In x l -> (price x <=? price b0)%js = true.
Proof.
  unfold sortBids. revert b0 bs.
  induction l as [|y l IH]; intros b0 bs Hnum Hs x Hin; [destruct Hin|].
  inversion Hnum as [|? ? [qy Hy] Hl]; subst.
  simpl in Hs.
  destruct (sortBy (fun a b => (price b - price a)%js) l) as [|z zs] eqn:Ez.
  - assert (l = []) as ->.
    { pose proof (sortBy_perm (fun a b => (price b - price a)%js) l) as P.
      rewrite Ez in P. apply Permutation_nil in P. exact P. }
    simpl in Hs. injection Hs as <- <-.
    destruct Hin as [<-|[]]. rewrite Hy. unfold_js. apply Qle_bool_iff, Qle_refl.
  - specialize (IH z zs Hl eq_refl).
    assert (Hz : numericPrice z).
    { eapply Forall_forall; [exact Hl|].
      eapply Permutation_in; [apply sortBy_perm|].
      rewrite Ez. left. reflexivity. }
    destruct Hz as [qz Hz].
    simpl in Hs. rewrite Hy, Hz in Hs. unfold_js.
    destruct (Js.Qltb 0 (qz - qy)) eqn:E; injection Hs as <- <-; reflect_cmp.
    + destruct Hin as [<-|Hin]; [|apply IH; exact Hin].
      rewrite Hy, Hz. apply Qle_bool_iff. lra.
    + destruct Hin as [<-|Hin].
      * rewrite Hy. apply Qle_bool_iff, Qle_refl.
      * specialize (IH x Hin). rewrite Hz in IH. rewrite Hy.
        destruct (price x) as [|qx]; [discriminate IH|].
        reflect_cmp. apply Qle_bool_iff. lra.
Qed.

Lemma sortAsks_head_min (l : list Level) (a0 : Level) (ays : list Level) :
  Forall numericPrice l ->
  sortAsks l = a0 :: ays ->
  forall x, In x l -> (price a0 <=? price x)%js = true.
Proof.
  unfold sortAsks. revert a0 ays.
  induction l as [|y l IH]; intros a0 ays Hnum Hs x Hin; [destruct Hin|].
  inversion Hnum as [|? ? [qy Hy] Hl]; subst.
  simpl in Hs.
  destruct (sortBy (fun a b => (price a - price b)%js) l) as [|z zs] eqn:Ez.
  - assert (l = []) as ->.
    { pose proof (sortBy_perm (fun a b => (price a - price b)%js) l) as P.
      rewrite Ez in P. apply Permutation_nil in P. exact P. }
    simpl in Hs. injection Hs as <- <-.
    destruct Hin as [<-|[]]. rewrite Hy. unfold_js. apply Qle_bool_iff, Qle_refl.
  - specialize (IH z zs Hl eq_refl).
    assert (Hz : numericPrice z).
    { eapply Forall_forall; [exact Hl|].
      eapply Permutation_in; [apply sortBy_perm|].
      rewrite Ez. left. reflexivity. }
    destruct Hz as [qz Hz].
    simpl in Hs. rewrite Hy, Hz in Hs. unfold_js.
    destruct (Js.Qltb 0 (qy - qz)) eqn:E; injection Hs as <- <-; reflect_cmp.
    + destruct Hin as [<-|Hin]; [|apply IH; exact Hin].
      rewrite Hy, Hz. apply Qle_bool_iff. lra.
    + destruct Hin as [<-|Hin].
      * rewrite Hy. apply Qle_bool_iff, Qle_refl.
      * specialize (IH x Hin). rewrite Hz in IH. rewrite Hy.
        destruct (price x) as [|qx]; [discriminate IH|].
        reflect_cmp. apply Qle_bool_iff. lra.
Qed.

(** The sum of the sizes selected by a filter grows with the filter. *)
Lemma depth_sum_mono (f g : Level -> bool) (l : list Level) :
  (forall x, f x = true -> g x = true) ->
  Forall nonnegSize l ->
  forall a1 a2 : Q, a1 <= a2 ->
  exists s1 s2,
    fold_left (fun acc item => (acc + size item)%js) (filter f l) (Num a1)
    = Num s1
    /\ fold_left (fun acc item => (acc + size item)%js) (filter g l) (Num a2)
       = Num s2
    /\ a1 <= s1 /\ s1 <= s2.
Proof.
  intros Hfg Hl. induction Hl as [|x l Hx Hl IH]; intros a1 a2 Ha; simpl.
  - exists a1, a2. repeat split; [apply Qle_refl | exact Ha].
  - unfold nonnegSize in Hx. destruct (size x) as [|s] eqn:Es; [contradiction|].
    destruct (f x) eqn:Ef.
    + rewrite (Hfg x Ef). simpl. rewrite Es. simpl.
      destruct (IH (a1 + s) (a2 + s)) as (s1 & s2 & E1 & E2 & H1 & H2);
        [lra|].
      exists s1, s2. repeat split; [exact E1 | exact E2 | lra | exact H2].
    + destruct (g x); simpl.
      * rewrite Es. simpl.
        destruct (IH a1 (a2 + s)) as (s1 & s2 & E1 & E2 & H1 & H2); [lra|].
        exists s1, s2. repeat split; assumption.
      * apply IH. exact Ha.
Qed.

(** The band of [n] ticks contains the band of [k] ticks for [k <= n]. *)
Lemma band_widens (m : Market) (side : Side) (basePrice : number)
    (k n : Q) (x : Level) :
  tickValid m -> k <= n ->
  let tickSize := (orderPriceMinTickSize m ||| 0.01)%js in
  match side with
  | Bids => (price x >=? basePrice - Num k * tickSize)%js = true ->
            (price x >=? basePrice - Num n * tickSize)%js = true
  | Asks => (price x <=? basePrice + Num k * tickSize)%js = true ->
            (price x <=? basePrice + Num n * tickSize)%js = true
  end.
Proof.
  intros Ht Hkn tickSize.
  assert (Hts : exists t, tickSize = Num t /\ 0 <= t).
  { subst tickSize. unfold tickValid in Ht. unfold Js.or_else, Js.truthy.
    destruct (orderPriceMinTickSize m) as [|t].
    - exists 0.01. split; [reflexivity | discriminate].
    - destruct (Qeq_bool t 0); simpl.
      + exists 0.01. split; [reflexivity | discriminate].
      + exists t. split; [reflexivity | exact Ht]. }
  destruct Hts as [t [-> Ht0]].
  assert (Hmul : k * t <= n * t) by (apply Qmult_le_compat_r; assumption).
  destruct side, basePrice as [|b], (price x) as [|p]; unfold_js;
    try discriminate; intro H; reflect_cmp; apply Qle_bool_iff; lra.
Qed.

(** C8. On a book whose level sizes are not negative, and for a tick size
    that is not negative, the depth [getDepth] computes for a side at [N]
    ticks is at least the depth it computes at [M] ticks, for all
    [N > M >= 1]. *)
Theorem C8_depth_monotone_in_ticks (m : Market) (book : OrderBook)
    (side : Side) (basePrice : number) (N M : Q) :
  Forall nonnegSize (bids book) ->
  Forall nonnegSize (asks book) ->
  tickValid m ->
  1 <= M -> M < N ->
  (getDepth m (sortBids (bids book)) (sortAsks (asks book))
     (Num N) side basePrice
   >=? getDepth m (sortBids (bids book)) (sortAsks (asks book))
         (Num M) side basePrice)%js = true.
Proof.
  intros Hb Ha Ht _ HMN.
  assert (Hsb : Forall nonnegSize (sortBids (bids book))).
  { eapply Permutation_Forall; [|exact Hb].
    apply Permutation_sym, sortBy_perm. }
  assert (Hsa : Forall nonnegSize (sortAsks (asks book))).
  { eapply Permutation_Forall; [|exact Ha].
    apply Permutation_sym, sortBy_perm. }
  assert (HMN' : M <= N) by lra.
  unfold getDepth.
  destruct side.
  - destruct (depth_sum_mono
                (fun item => (price item >=? basePrice - Num M * (orderPriceMinTickSize m ||| 0.01))%js)
                (fun item => (price item >=? basePrice - Num N * (orderPriceMinTickSize m ||| 0.01))%js)
                (sortBids (bids book))
                (fun x => band_widens m Bids basePrice M N x Ht HMN')
                Hsb 0 0 (Qle_refl 0)) as (s1 & s2 & E1 & E2 & _ & Hs).
    rewrite E1, E2. apply Qle_bool_iff. exact Hs.
  - destruct (depth_sum_mono
                (fun item => (price item <=? basePrice + Num M * (orderPriceMinTickSize m ||| 0.01))%js)
                (fun item => (price item <=? basePrice + Num N * (orderPriceMinTickSize m ||| 0.01))%js)
                (sortAsks (asks book))
                (fun x => band_widens m Asks basePrice M N x Ht HMN')
                Hsa 0 0 (Qle_refl 0)) as (s1 & s2 & E1 & E2 & _ & Hs).
    rewrite E1, E2. apply Qle_bool_iff. exact Hs.
Qed.

Lemma C8_depth_monotone_witness :
  getDepth Sample.calm (sortBids (bids Sample.book))
    (sortAsks (asks Sample.book)) (Num 1) Bids (Num 0.50) = Num 1000
  /\ getDepth Sample.calm (sortBids (bids Sample.book))
       (sortAsks (asks Sample.book)) (Num 3) Bids (Num 0.50) = Num 5000
  /\ (getDepth Sample.calm (sortBids (bids Sample.book))
        (sortAsks (asks Sample.book)) (Num 3) Bids (Num 0.50)
      >=? getDepth Sample.calm (sortBids (bids Sample.book))
            (sortAsks (asks Sample.book)) (Num 1) Bids (Num 0.50))%js = true.
Proof.
  split; [reflexivity|]. split; [reflexivity|].
  apply C8_depth_monotone_in_ticks.
  - repeat constructor; discriminate.
  - repeat constructor; discriminate.
  - discriminate.
  - discriminate.
  - reflexivity.
Defined.

(* ================================================================== *)
(** * The per-market step of the pipeline *)
(* ================================================================== *)

Lemma exclusionReason_firstMatch (log10Q : Q -> Q) (now : Q) (m : Market)
    (spread bidDepth1 askDepth1 bidDepth5 askDepth5 : number) :
  exclusionReason
    (calculateScalpingScore log10Q now m
       spread bidDepth1 askDepth1 bidDepth5 askDepth5)
  = firstMatch (hardExclusions now m spread bidDepth1 askDepth1).
Proof.
  rewrite calculateScalpingScore_ladder. destruct (firstMatch _); reflexivity.
Qed.

Lemma processMarket_unavailable (log10Q : Q -> Q) (now : Q)
    (fetchBook : string -> option OrderBook) (m : Market) :
  bookOf fetchBook m = None ->
  processMarket log10Q now fetchBook m = initialProcessed now m.
Proof.
  unfold bookOf, processMarket.
  destruct (clobTokenIds m) as [|tokenId ?]; [reflexivity|].
  destruct (fetchBook tokenId) as [book|]; [|reflexivity].
  destruct (bids book) as [|? ?]; [reflexivity|].
  destruct (asks book) as [|? ?]; [reflexivity|].
  discriminate.
Qed.

Lemma processMarket_available (log10Q : Q -> Q) (now : Q)
    (fetchBook : string -> option OrderBook) (m : Market) (book : OrderBook) :
  bookOf fetchBook m = Some book ->
  exists b0 bs a0 ays,
    sortBids (bids book) = b0 :: bs
    /\ sortAsks (asks book) = a0 :: ays
    /\ let p := processMarket log10Q now fetchBook m in
       let depth := getDepth m (b0 :: bs) (a0 :: ays) in
       let r := calculateScalpingScore log10Q now m (price a0 - price b0)%js
                  (depth (Num 1) Bids (price b0)) (depth (Num 1) Asks (price a0))
                  (depth (Num 5) Bids (price b0)) (depth (Num 5) Asks (price a0)) in
       spread p = Some (price a0 - price b0)%js
       /\ bestBid p = Some (price b0)
       /\ bestAsk p = Some (price a0)
       /\ bidDepth1 (details p) = depth (Num 1) Bids (price b0)
       /\ askDepth1 (details p) = depth (Num 1) Asks (price a0)
       /\ scalpingScore p = score r
       /\ exclusionReason' p = exclusionReason r.
Proof.
  unfold bookOf, processMarket.
  destruct (clobTokenIds m) as [|tokenId ?]; [discriminate|].
  destruct (fetchBook tokenId) as [fetched|]; [|discriminate].
  destruct (bids fetched) as [|x xs] eqn:Eb; [discriminate|].
  destruct (asks fetched) as [|y ys] eqn:Ea; [discriminate|].
  intro H. injection H as <-.
  destruct (sortBy_cons (fun a b => (price b - price a)%js) x xs)
    as (b0 & bs & Hb).
  destruct (sortBy_cons (fun a b => (price a - price b)%js) y ys)
    as (a0 & ays & Ha).
  exists b0, bs, a0, ays.
  unfold scoreWithBook, sortBids, sortAsks. rewrite Eb, Ea, Hb, Ha.
  repeat split; reflexivity.
Qed.

(** C5, as stated, fails: the record the pipeline builds for a market
    with fees enabled carries no exclusion reason when the book of the
    market is empty or cannot be fetched. *)
Lemma C5_fee_market_without_book_has_no_reason :
  feesEnabled Sample.withFees = true
  /\ exclusionReason'
       (processMarket log10_floor Sample.now (Sample.serve Sample.emptyBook)
          Sample.withFees) = None
  /\ exclusionReason'
       (processMarket log10_floor Sample.now Sample.unreachable
          Sample.withFees) = None
  /\ exclusionReason'
       (processMarket log10_floor Sample.now Sample.unreachable
          Sample.withFees) <> Some "Fees enabled"%string.
Proof.
  repeat split; try reflexivity. discriminate.
Qed.

(** C5, amended.  For a market with fees enabled the scorer returns the
    reason "Fees enabled" and score 0, whatever the other attributes of
    the market, the spread and the depths of its book.  The record the
    pipeline builds for it has score 0; it carries that reason when a
    book with both sides arrived, and no reason when the book is empty on
    a side or could not be fetched, as the scorer is then not called. *)
Theorem C5_fees_enabled_excluded_when_scored (log10Q : Q -> Q) (now : Q)
    (m : Market) :
  feesEnabled m = true ->
  (forall spread bidDepth1 askDepth1 bidDepth5 askDepth5 : number,
      calculateScalpingScore log10Q now m
        spread bidDepth1 askDepth1 bidDepth5 askDepth5
      = {| score := Num 0; exclusionReason := Some "Fees enabled"%string |})
  /\ (forall fetchBook : string -> option OrderBook,
         let p := processMarket log10Q now fetchBook m in
         scalpingScore p = Num 0
         /\ (bookOf fetchBook m <> None ->
             exclusionReason' p = Some "Fees enabled"%string)
         /\ (bookOf fetchBook m = None -> exclusionReason' p = None)).
Proof.
  intro H.
  assert (Hs : forall spread bidDepth1 askDepth1 bidDepth5 askDepth5,
             calculateScalpingScore log10Q now m
               spread bidDepth1 askDepth1 bidDepth5 askDepth5
             = {| score := Num 0;
                  exclusionReason := Some "Fees enabled"%string |}).
  { intros. unfold calculateScalpingScore. rewrite H. reflexivity. }
  split; [exact Hs|].
  intros fetchBook p. subst p.
  destruct (bookOf fetchBook m) as [book|] eqn:Hbook.
  - destruct (processMarket_available log10Q now fetchBook m book Hbook)
      as (b0 & bs & a0 & ays & _ & _ & Hp).
    cbv zeta in Hp. destruct Hp as (_ & _ & _ & _ & _ & Hscore & Hreason).
    rewrite Hscore, Hreason, Hs.
    split; [reflexivity|]. split; [reflexivity | discriminate].
  - rewrite (processMarket_unavailable _ _ _ _ Hbook).
    split; [reflexivity|]. split; [congruence | reflexivity].
Qed.

Lemma C5_fees_enabled_witness :
  feesEnabled Sample.withFees = true
  /\ calculateScalpingScore log10_floor Sample.now Sample.withFees
       (Num 0.01) (Num 1000) (Num 1000) (Num 5000) (Num 5000)
     = {| score := Num 0; exclusionReason := Some "Fees enabled"%string |}
  /\ exclusionReason'
       (processMarket log10_floor Sample.now (Sample.serve Sample.book)
          Sample.withFees) = Some "Fees enabled"%string
  /\ exclusionReason'
       (processMarket log10_floor Sample.now Sample.unreachable
          Sample.withFees) = None.
Proof.
  destruct (C5_fees_enabled_excluded_when_scored log10_floor Sample.now
              Sample.withFees eq_refl) as [Hs Hp].
  split; [reflexivity|]. split; [apply Hs|].
  split.
  - pose proof (Hp (Sample.serve Sample.book)) as K. cbv zeta in K.
    destruct K as (_ & K & _). apply K. discriminate.
  - pose proof (Hp Sample.unreachable) as K. cbv zeta in K.
    destruct K as (_ & _ & K). apply K. reflexivity.
Defined.

(** C4, as stated, fails: a market whose book is empty, or whose request
    fails, is given no exclusion reason at all. *)
Lemma C4_empty_book_has_no_reason :
  exclusionReason'
    (processMarket log10_floor Sample.now (Sample.serve Sample.emptyBook)
       Sample.calm) = None
  /\ exclusionReason'
       (processMarket log10_floor Sample.now Sample.unreachable Sample.calm)
     = None
  /\ exclusionReason'
       (processMarket log10_floor Sample.now (Sample.serve Sample.emptyBook)
          Sample.calm) <> Some "One-sided or empty book"%string.
Proof.
  repeat split; try reflexivity. discriminate.
Qed.

(** C4, amended.  When the order book of a market cannot be fetched or has
    an empty side, the scorer is not called: the record of the market keeps
    its initial values, with spread, best bid and best ask unavailable,
    score 0 and no exclusion reason; and the batch is not aborted, as the
    ranking holds one record for each market of the listing, that market's
    included. *)
Theorem C4_unavailable_book_keeps_defaults (log10Q : Q -> Q) (now : Q)
    (fetchBook : string -> option OrderBook) (m : Market) :
  bookOf fetchBook m = None ->
  let p := processMarket log10Q now fetchBook m in
  p = initialProcessed now m
  /\ spread p = None /\ bestBid p = None /\ bestAsk p = None
  /\ scalpingScore p = Num 0
  /\ exclusionReason' p = None
  /\ forall data : list Market,
       In m data ->
       In p (getScalpingMarkets log10Q now (Some data) fetchBook)
       /\ List.length (getScalpingMarkets log10Q now (Some data) fetchBook)
          = List.length data.
Proof.
  intros H p. subst p. rewrite (processMarket_unavailable _ _ _ _ H).
  repeat split; try reflexivity.
  - unfold getScalpingMarkets.
    eapply Permutation_in; [apply Permutation_sym, sortBy_perm|].
    rewrite <- (processMarket_unavailable log10Q _ _ _ H).
    apply in_map. assumption.
  - unfold getScalpingMarkets.
    rewrite (Permutation_length (sortBy_perm _ _)). apply length_map.
Qed.

Lemma C4_unavailable_book_witness :
  bookOf (Sample.serve Sample.emptyBook) Sample.calm = None
  /\ spread (processMarket log10_floor Sample.now
               (Sample.serve Sample.emptyBook) Sample.calm) = None
  /\ List.length
       (getScalpingMarkets log10_floor Sample.now
          (Some [Sample.withFees; Sample.calm; Sample.championship])
          (Sample.serve Sample.emptyBook)) = 3%nat.
Proof.
  split; [reflexivity|].
  destruct (C4_unavailable_book_keeps_defaults log10_floor Sample.now
              (Sample.serve Sample.emptyBook) Sample.calm eq_refl)
    as (_ & Hs & _ & _ & _ & _ & Hd).
  split; [exact Hs|].
  apply (Hd [Sample.withFees; Sample.calm; Sample.championship]).
  right. left. reflexivity.
Defined.

(** C3, as stated, fails: a crossed book served for a calm market at a
    price of 0.5 gives a negative spread and an eligible market, with the
    highest score the scorer can give. *)
Lemma C3_crossed_book_is_eligible :
  let p := processMarket log10_floor Sample.now
             (Sample.serve Sample.crossedBook) Sample.calm in
  bestBid p = Some (Num 0.55)
  /\ bestAsk p = Some (Num 0.50)
  /\ spread p = Some (Num (0.50 - 0.55))
  /\ exclusionReason' p = None
  /\ scalpingScore p = Num (207 # 2).
Proof.
  vm_compute. repeat split; reflexivity.
Qed.

(** C3, amended.  For a book whose best ask is below its best bid, the
    spread is the negative difference, passed on as it is; for a tick size
    that is not negative the spread in ticks is negative too, so the
    wide-spread check does not fire and the spread component is 100: the
    market is excluded exactly when one of the other eight checks fires,
    and is eligible otherwise. *)
Theorem C3_crossed_book_negative_spread_not_wide (log10Q : Q -> Q) (now : Q)
    (fetchBook : string -> option OrderBook) (m : Market) (book : OrderBook)
    (b a : Q) :
  bookOf fetchBook m = Some book ->
  bestBidOf book = Some (Num b) ->
  bestAskOf book = Some (Num a) ->
  a < b ->
  tickValid m ->
  let p := processMarket log10Q now fetchBook m in
  spread p = Some (Num (a - b))
  /\ a - b < 0
  /\ check_spread m (Num (a - b)) = None
  /\ spreadScoreOf (Num (a - b) / tickSizeOf m) = Num 100
  /\ exclusionReason' p
     = firstMatch
         [ check_fees m; check_jump_keyword m; check_decay_keyword m;
           check_price_edge m; check_time now m;
           check_book (bidDepth1 (details p)) (askDepth1 (details p));
           check_drift m; check_volatility m ].
Proof.
  intros Hbook Hb Ha Hab Ht p.
  destruct (processMarket_available log10Q now fetchBook m book Hbook)
    as (b0 & bs & a0 & ays & Esb & Esa & Hp).
  fold p in Hp. cbv zeta in Hp.
  destruct Hp as (Hs & _ & _ & Hb1 & Ha1 & _ & Hr).
  unfold bestBidOf in Hb. rewrite Esb in Hb. simpl in Hb.
  unfold bestAskOf in Ha. rewrite Esa in Ha. simpl in Ha.
  injection Hb as Hb. injection Ha as Ha.
  rewrite Hb, Ha in *.
  assert (Hticks : exists t, tickSizeOf m = Num t /\ 0 < t).
  { unfold tickValid in Ht. unfold tickSizeOf, Js.or_else, Js.truthy.
    destruct (orderPriceMinTickSize m) as [|t].
    - exists 0.01. split; reflexivity.
    - destruct (Qeq_bool t 0) eqn:E; simpl.
      + exists 0.01. split; reflexivity.
      + exists t. split; [reflexivity|]. reflect_cmp.
        destruct (Qle_lt_or_eq _ _ Ht) as [K|K]; [exact K|].
        exfalso. apply E. symmetry. exact K. }
  destruct Hticks as (t & Et & Ht0).
  assert (Hneg : (a - b) / t < 0).
  { apply Qlt_shift_div_r; [exact Ht0 | lra]. }
  assert (Hcs : check_spread m (Num (a - b)) = None).
  { unfold check_spread. rewrite Et. unfold_js.
    destruct (Qeq_bool t 0) eqn:E0; [reflexivity|].
    case_cmp; [|reflexivity]. reflect_cmp. lra. }
  split; [exact Hs|]. split; [lra|]. split; [exact Hcs|]. split.
  - unfold spreadScoreOf. rewrite Et. unfold_js.
    destruct (Qeq_bool t 0) eqn:E0.
    + reflect_cmp. lra.
    + case_cmp; [reflexivity|]. reflect_cmp. lra.
  - rewrite Hr, Hb1, Ha1.
    rewrite (exclusionReason_firstMatch log10Q now m (Num a - Num b)%js
                (getDepth m (b0 :: bs) (a0 :: ays) (Num 1) Bids (Num b))
                (getDepth m (b0 :: bs) (a0 :: ays) (Num 1) Asks (Num a))
                (getDepth m (b0 :: bs) (a0 :: ays) (Num 5) Bids (Num b))
                (getDepth m (b0 :: bs) (a0 :: ays) (Num 5) Asks (Num a))).
    unfold hardExclusions. rewrite !firstMatch_cons.
    change (Num a - Num b)%js with (Num (a - b)). rewrite Hcs.
    reflexivity.
Qed.

Lemma C3_crossed_book_witness :
  let p := processMarket log10_floor Sample.now
             (Sample.serve Sample.crossedBook) Sample.championship in
  bestAskOf Sample.crossedBook = Some (Num 0.50)
  /\ bestBidOf Sample.crossedBook = Some (Num 0.55)
  /\ spread p = Some (Num (0.50 - 0.55))
  /\ check_spread Sample.championship (Num (0.50 - 0.55)) = None
  /\ exclusionReason' p
     = Some ("Structural decay keyword: "
               ++ dquote ++ "win the championship" ++ dquote)%string.
Proof.
  intro p.
  destruct (C3_crossed_book_negative_spread_not_wide log10_floor Sample.now
              (Sample.serve Sample.crossedBook) Sample.championship
              Sample.crossedBook 0.55 0.50)
    as (Hs & _ & Hc & _ & Hr);
    [reflexivity | reflexivity | reflexivity | reflexivity | discriminate |].
  split; [reflexivity|]. split; [reflexivity|].
  split; [exact Hs|]. split; [exact Hc|].
  fold p in Hr. rewrite Hr. reflexivity.
Defined.

(* ================================================================== *)
(** * Ranges of the components and of the composite *)
(* ================================================================== *)

Lemma spreadScoreOf_range (x : number) :
  exists s, spreadScoreOf x = Num s /\ 20 <= s <= 100.
Proof.
  unfold spreadScoreOf.
  repeat match goal with
         | |- context [if ?c then _ else _] => destruct c
         end; eexists; (split; [reflexivity | split; discriminate]).
Qed.

Lemma timeScoreOf_range (h : number) :
  exists t, timeScoreOf h = Num t /\ 40 <= t <= 100.
Proof.
  unfold timeScoreOf.
  repeat match goal with
         | |- context [if ?c then _ else _] => destruct c
         end; eexists; (split; [reflexivity | split; discriminate]).
Qed.

Lemma calculateEventResolutionPenalty_range (q : string) :
  exists e, calculateEventResolutionPenalty q = Num e /\ 0 <= e <= 1.
Proof.
  unfold calculateEventResolutionPenalty.
  destruct (existsb _ countdownPatterns);
    [|destruct (existsb _ singleEventPatterns)];
    eexists; (split; [reflexivity | split; discriminate]).
Qed.

Lemma calculateJumpRiskPenalty_range (q : string) (c : number) :
  exists j, calculateJumpRiskPenalty q c = Num j /\ 0 <= j <= 1.
Proof.
  unfold calculateJumpRiskPenalty.
  destruct (existsb _ JUMP_RISK_KEYWORDS).
  - eexists; (split; [reflexivity | split; discriminate]).
  - repeat match goal with
           | |- context [if Js.gt ?a ?b then _ else _] => destruct (Js.gt a b)
           end; eexists; (split; [reflexivity | split; discriminate]).
Qed.

Lemma calculateDriftPenalty_range (p c : number) :
  exists d, calculateDriftPenalty p c = Num d /\ 0 <= d <= 1.2.
Proof.
  unfold calculateDriftPenalty.
  repeat match goal with
         | |- context [if ?c then _ else _] => destruct c
         end; eexists; (split; [reflexivity | split; discriminate]).
Qed.

Lemma reversionBase_range (p : Q) :
  exists b, reversionBase (Num p) = Num b /\ 0 <= b <= 100.
Proof.
  unfold reversionBase. unfold_js. eexists. split; [reflexivity|].
  pose proof (Qabs_nonneg (p - 0.5)) as Habs.
  case_cmp; reflect_cmp; lra.
Qed.

Section Ranges.

Variable log10Q : Q -> Q.

(** The one fact about the decimal logarithm that the range of the score
    rests on. *)
Hypothesis log10Q_nonneg : forall x : Q, 1 <= x -> 0 <= log10Q x.

Lemma calculateVolumeChurnScore_upper (v : Q) (w : number) :
  0 <= v ->
  exists s, calculateVolumeChurnScore log10Q (Num v) w = Num s /\ s <= 100.
Proof.
  intro Hv.
  assert (Hd : exists d, (w ||| 1)%js = Num d /\ Qeq_bool d 0 = false).
  { unfold Js.or_else, Js.truthy. destruct w as [|x].
    - exists 1. split; reflexivity.
    - destruct (Qeq_bool x 0) eqn:E; simpl.
      + exists 1. split; reflexivity.
      + exists x. split; [reflexivity | exact E]. }
  destruct Hd as (d & Ed & Hd0).
  unfold calculateVolumeChurnScore. rewrite Ed.
  unfold log10. unfold_js. rewrite Hd0.
  assert (Hpos : Js.Qltb 0 (v + 1) = true) by (apply Qltb_lt; lra).
  rewrite Hpos.
  set (r := v / d). set (L := log10Q (v + 1)).
  assert (H7 : 1 / 7 == 1 # 7) by reflexivity.
  destruct (Qeq_bool 7 0) eqn:E7; [discriminate E7|].
  destruct (Js.Qltb 0.3 r) eqn:Er.
  - eexists. split; [reflexivity|]. reflect_cmp.
    case_cmp; reflect_cmp; lra.
  - eexists. split; [reflexivity|]. reflect_cmp.
    pose proof (Qabs_nonneg (r - 1 / 7)) as Habs.
    set (A := Qabs (r - 1 / 7)) in *.
    repeat (case_cmp; reflect_cmp); try lra; nra.
Qed.


Lemma calculateDepthQualityScore_range (b1 a1 b5 a5 : Q) :
  0 <= b1 <= b5 -> 0 <= a1 <= a5 ->
  exists s,
    calculateDepthQualityScore log10Q (Num b1) (Num a1) (Num b5) (Num a5)
    = Num s /\ 0 <= s <= 130.
Proof.
  intros Hb Ha. unfold calculateDepthQualityScore. unfold_js.
  destruct (Qeq_bool (b5 + a5) 0) eqn:Et.
  { exists 0. split; [reflexivity | split; discriminate]. }
  destruct (Qeq_bool b1 0 || Qeq_bool a1 0).
  { exists 0. split; [reflexivity | split; discriminate]. }
  reflect_cmp.
  assert (Htot : 0 < b5 + a5).
  { destruct (Qlt_le_dec 0 (b5 + a5)) as [K|K]; [exact K|].
    exfalso. apply Et. lra. }
  unfold log10.
  assert (H1 : Js.Qltb 0 (b5 + a5 + 1) = true) by (apply Qltb_lt; lra).
  assert (H2 : Js.Qltb 0 (b5 - b1 + (a5 - a1) + 2) = true)
    by (apply Qltb_lt; lra).
  rewrite H1, H2. unfold_js.
  pose proof (log10Q_nonneg (b5 + a5 + 1)) as HL1.
  pose proof (log10Q_nonneg (b5 - b1 + (a5 - a1) + 2)) as HL2.
  set (L1 := log10Q (b5 + a5 + 1)) in *.
  set (L2 := log10Q (b5 - b1 + (a5 - a1) + 2)) in *.
  assert (HL1' : 0 <= L1) by (apply HL1; lra).
  assert (HL2' : 0 <= L2) by (apply HL2; lra).
  assert (Himb : 0 <= Qabs (b5 - a5) / (b5 + a5) <= 1).
  { split.
    - apply Qle_shift_div_l; [exact Htot|].
      pose proof (Qabs_nonneg (b5 - a5)). lra.
    - apply Qle_shift_div_r; [exact Htot|].
      destruct (Qabs_cases (b5 - a5)) as [[? ?]|[? ?]]; lra. }
  set (imb := Qabs (b5 - a5) / (b5 + a5)) in *.
  eexists. split; [reflexivity|].
  match goal with
  | |- 0 <= ?X * ?S * ?B <= 130 =>
      assert (HX : 0 <= X <= 100) by (case_cmp; reflect_cmp; lra);
      assert (HS : 0 <= S <= 1) by lra;
      assert (HB : 1 <= B <= 1.3) by (case_cmp; reflect_cmp; lra);
      generalize dependent X; generalize dependent S;
      generalize dependent B
  end.
  intros B HB S HS X HX.
  assert (HP : 0 <= X * S <= 100) by nra.
  split; nra.
Qed.

(** Rounding to two decimals keeps a score within [[0, 103.5]]. *)
Lemma toFixedValue_range (x : Q) :
  0 <= x <= 103.5 ->
  exists s, Js.toFixedValue 2 (Num x) = Num s /\ 0 <= s <= 103.5.
Proof.
  intros [H0 H1]. unfold Js.toFixedValue.
  assert (Ea : Qabs x == x) by (apply Qabs_pos; exact H0).
  assert (Ebig : Qle_bool (inject_Z (10 ^ 21)) (Qabs x) = false).
  { apply Qleb_gt. rewrite Ea.
    apply Qle_lt_trans with (y := 103.5); [exact H1 | reflexivity]. }
  assert (Eneg : Js.Qltb x 0 = false) by (apply Qltb_ge; exact H0).
  rewrite Ebig, Eneg. eexists. split; [reflexivity|].
  rewrite Qred_correct. unfold Js.fixedDigits.
  change (Pos.of_nat (10 ^ 2)) with 100%positive.
  change (inject_Z (10 ^ Z.of_nat 2)) with 100.
  set (n := Qfloor (Qabs x * 100 + (1 # 2))).
  assert (Hlo : (0 <= n)%Z).
  { change 0%Z with (Qfloor (1 # 2)). apply Qfloor_resp_le.
    rewrite Ea. lra. }
  assert (Hhi : (n <= 10350)%Z).
  { change 10350%Z with (Qfloor (103.5 * 100 + (1 # 2))).
    apply Qfloor_resp_le. rewrite Ea. lra. }
  unfold Qle. simpl. lia.
Qed.

End Ranges.

(** C2, as stated, fails: the sample market at a price of 0.5, with a
    tight spread and a deep, balanced book, is eligible and scores 103.5.
    The stability bonus of the drift multiplier (1.2) and the layer bonus
    of the depth component (1.3) take the weighted sum above 100. *)
Lemma C2_eligible_score_above_100 :
  let r := calculateScalpingScore log10_floor Sample.now Sample.calm
             (Num 0.01) (Num 1000) (Num 1000) (Num 5000) (Num 5000) in
  exclusionReason r = None
  /\ score r = Num (207 # 2)
  /\ (score r >? Num 100)%js = true.
Proof.
  vm_compute. repeat split; reflexivity.
Qed.

(** The same score for every decimal logarithm that is at least 5 at
    100001, 10/3 at 10001 and 3 at 8002. *)
Lemma sample_score_any_log10 (log10Q : Q -> Q) :
  5 <= log10Q (100000 + 1) ->
  10 # 3 <= log10Q (5000 + 5000 + 1) ->
  3 <= log10Q (5000 - 1000 + (5000 - 1000) + 2) ->
  calculateScalpingScore log10Q Sample.now Sample.calm
    (Num 0.01) (Num 1000) (Num 1000) (Num 5000) (Num 5000)
  = {| score := Num (207 # 2); exclusionReason := None |}.
Proof.
  intros Hv Hd Hl.
  rewrite calculateScalpingScore_ladder.
  replace (firstMatch _) with (@None string) by reflexivity.
  f_equal.
  unfold compositeScore, calculateVolumeChurnScore, calculateDepthQualityScore,
    log10.
  change (volume24hr Sample.calm) with (Num 100000).
  change (volume1wk Sample.calm) with (Num 700000).
  unfold_js.
  change (Qeq_bool 700000 0) with false. cbv iota.
  change (Qeq_bool 7 0) with false. cbv iota.
  change (Js.Qltb 0.3 (100000 / 700000)) with false. cbv iota.
  change (Js.Qltb 0 (100000 + 1)) with true. cbv iota.
  change (Qeq_bool (5000 + 5000) 0) with false. cbv iota.
  change (Qeq_bool 1000 0) with false. cbv iota.
  change (Js.Qltb 0 (5000 + 5000 + 1)) with true.
  change (Js.Qltb 0 (5000 - 1000 + (5000 - 1000) + 2)) with true.
  cbv iota.
  destruct (Qle_bool 100 (log10Q (100000 + 1) * 20)) eqn:E1;
    [|reflect_cmp; lra].
  destruct (Qle_bool 100 (log10Q (5000 + 5000 + 1) * 30)) eqn:E2;
    [|reflect_cmp; lra].
  destruct (Qle_bool 1.3 (1 + log10Q (5000 - 1000 + (5000 - 1000) + 2) * 0.1))
    eqn:E3; [|reflect_cmp; lra].
  reflexivity.
Qed.

(** The score of an eligible market with numeric price, volume and depths. *)
Lemma compositeScore_range (log10Q : Q -> Q) (now : Q) (m : Market)
    (spread : number) (v p b1 a1 b5 a5 : Q) :
  (forall x : Q, 1 <= x -> 0 <= log10Q x) ->
  volume24hr m = Num v -> 0 <= v ->
  midPriceOf m = Num p ->
  0 <= b1 <= b5 -> 0 <= a1 <= a5 ->
  exists s,
    compositeScore log10Q now m spread (Num b1) (Num a1) (Num b5) (Num a5)
    = Num s /\ 0 <= s <= 103.5.
Proof.
  intros Hlog Ev Hv Ep Hb Ha.
  unfold compositeScore. rewrite Ev, Ep.
  destruct (spreadScoreOf_range (spread / tickSizeOf m)%js) as (s1 & -> & H1).
  destruct (calculateVolumeChurnScore_upper log10Q v (volume1wk m) Hv)
    as (s2 & -> & H2).
  destruct (reversionBase_range p) as (b & -> & Hbase).
  destruct (calculateDriftPenalty_range (Num p) (oneWeekPriceChange m ||| 0)%js)
    as (d & -> & Hd).
  destruct (calculateDepthQualityScore_range log10Q Hlog b1 a1 b5 a5 Hb Ha)
    as (s4 & -> & H4).
  destruct (timeScoreOf_range (hoursToResOf now m)) as (t & -> & Ht).
  destruct (calculateEventResolutionPenalty_range (question m))
    as (e & -> & He).
  destruct (calculateJumpRiskPenalty_range (question m)
              (oneWeekPriceChange m ||| 0)%js) as (j & -> & Hj).
  unfold_js. apply toFixedValue_range.
  assert (Hbd : 0 <= b * d <= 120) by nra.
  set (bd := b * d) in *.
  set (raw := s1 * 0.25 + s2 * 0.25 + bd * 0.20 + s4 * 0.15 + t * 0.10).
  assert (Hraw : raw <= 103.5) by (subst raw; lra).
  case_cmp; reflect_cmp; [|split; discriminate].
  split; [assumption|].
  destruct (Qlt_le_dec raw 0) as [Hneg|Hpos].
  - assert (raw * e <= 0) by nra. assert (raw * e * j <= 0) by nra. lra.
  - assert (0 <= raw * e <= raw) by nra. assert (raw * e * j <= raw * e) by nra.
    lra.
Qed.

(** The depths the pipeline passes to the scorer, on a book whose sizes
    are not negative: numbers, with the depth at 1 tick between 0 and the
    depth at 5 ticks. *)
Lemma getDepth_ordered (m : Market) (sortedBids sortedAsks : list Level)
    (side : Side) (basePrice : number) :
  Forall nonnegSize sortedBids -> Forall nonnegSize sortedAsks ->
  tickValid m ->
  exists d1 d5,
    getDepth m sortedBids sortedAsks (Num 1) side basePrice = Num d1
    /\ getDepth m sortedBids sortedAsks (Num 5) side basePrice = Num d5
    /\ 0 <= d1 <= d5.
Proof.
  intros Hb Ha Ht.
  assert (H15 : 1 <= 5) by discriminate.
  unfold getDepth. destruct side.
  - destruct (depth_sum_mono _ _ sortedBids
                (fun x => band_widens m Bids basePrice 1 5 x Ht H15)
                Hb 0 0 (Qle_refl 0)) as (s1 & s2 & E1 & E2 & H0 & Hs).
    exists s1, s2. repeat split; assumption.
  - destruct (depth_sum_mono _ _ sortedAsks
                (fun x => band_widens m Asks basePrice 1 5 x Ht H15)
                Ha 0 0 (Qle_refl 0)) as (s1 & s2 & E1 & E2 & H0 & Hs).
    exists s1, s2. repeat split; assumption.
Qed.

(** The range of the score, through the pipeline: for a market served by a
    book whose sizes are not negative. *)
Lemma processMarket_score_range (log10Q : Q -> Q) (now : Q)
    (fetchBook : string -> option OrderBook) (m : Market) (book : OrderBook)
    (v p : Q) :
  (forall x : Q, 1 <= x -> 0 <= log10Q x) ->
  bookOf fetchBook m = Some book ->
  Forall nonnegSize (bids book) -> Forall nonnegSize (asks book) ->
  tickValid m ->
  volume24hr m = Num v -> 0 <= v ->
  midPriceOf m = Num p ->
  exists s,
    scalpingScore (processMarket log10Q now fetchBook m) = Num s
    /\ 0 <= s <= 103.5.
Proof.
  intros Hlog Hbook Hb Ha Ht Ev Hv Ep.
  destruct (processMarket_available log10Q now fetchBook m book Hbook)
    as (b0 & bs & a0 & ays & Esb & Esa & Hp).
  cbv zeta in Hp. destruct Hp as (_ & _ & _ & _ & _ & Hscore & _).
  rewrite Hscore. clear Hscore.
  assert (Hsb : Forall nonnegSize (b0 :: bs)).
  { rewrite <- Esb. eapply Permutation_Forall; [|exact Hb].
    apply Permutation_sym, sortBy_perm. }
  assert (Hsa : Forall nonnegSize (a0 :: ays)).
  { rewrite <- Esa. eapply Permutation_Forall; [|exact Ha].
    apply Permutation_sym, sortBy_perm. }
  destruct (getDepth_ordered m _ _ Bids (price b0) Hsb Hsa Ht)
    as (b1 & b5 & -> & -> & Hbd).
  destruct (getDepth_ordered m _ _ Asks (price a0) Hsb Hsa Ht)
    as (a1 & a5 & -> & -> & Had).
  rewrite calculateScalpingScore_ladder.
  destruct (firstMatch _); simpl.
  - exists 0. split; [reflexivity | split; discriminate].
  - apply compositeScore_range with (v := v) (p := p); assumption.
Qed.

(** C2, amended.  An excluded market has score exactly 0.  An eligible
    market whose price is a number, whose 24-hour volume is a number and
    not negative, and whose depths are numbers with 0 <= depth at 1 tick
    <= depth at 5 ticks on each side, has a score in [0, 103.5], for every
    decimal logarithm that is not negative from 1 on. *)
Theorem C2_score_range (log10Q : Q -> Q) (now : Q) (m : Market)
    (spread bidDepth1 askDepth1 bidDepth5 askDepth5 : number) :
  let r := calculateScalpingScore log10Q now m
             spread bidDepth1 askDepth1 bidDepth5 askDepth5 in
  (forall reason : string,
      exclusionReason r = Some reason -> score r = Num 0)
  /\ (exclusionReason r = None ->
      (forall x : Q, 1 <= x -> 0 <= log10Q x) ->
      forall v p b1 a1 b5 a5 : Q,
        volume24hr m = Num v -> 0 <= v ->
        midPriceOf m = Num p ->
        bidDepth1 = Num b1 -> askDepth1 = Num a1 ->
        bidDepth5 = Num b5 -> askDepth5 = Num a5 ->
        0 <= b1 <= b5 -> 0 <= a1 <= a5 ->
        exists s, score r = Num s /\ 0 <= s <= 103.5).
Proof.
  intro r. subst r. rewrite calculateScalpingScore_ladder.
  destruct (firstMatch _) as [reason0|]; simpl.
  { split; [reflexivity | discriminate]. }
  split; [discriminate|].
  intros _ Hlog v p b1 a1 b5 a5 Ev Hv Ep -> -> -> -> Hb Ha.
  apply compositeScore_range with (v := v) (p := p); assumption.
Qed.

Lemma log10_floor_nonneg (x : Q) : 1 <= x -> 0 <= log10_floor x.
Proof.
  intro H. unfold log10_floor.
  apply Qle_bool_iff in H. rewrite H.
  change 0 with (inject_Z 0). rewrite <- Zle_Qle.
  unfold ilog10. generalize (S (Z.to_nat (Z.log2 (Qfloor x)))) as fuel.
  generalize (Qfloor x) as n.
  intros n fuel. revert n.
  induction fuel as [|fuel IH]; intro n; cbn [ilog10_fuel].
  - apply Z.le_refl.
  - destruct (n <? 10)%Z; [apply Z.le_refl|].
    specialize (IH (n / 10)%Z). lia.
Qed.

Lemma C2_score_range_witness :
  let r := calculateScalpingScore log10_floor Sample.now Sample.calm
             (Num 0.01) (Num 1400) (Num 1000) (Num 3000) (Num 5000) in
  exclusionReason r = None
  /\ exists s, score r = Num s /\ 0 <= s <= 103.5.
Proof.
  intro r. split; [reflexivity|].
  apply (C2_score_range log10_floor Sample.now Sample.calm
           (Num 0.01) (Num 1400) (Num 1000) (Num 3000) (Num 5000))
    with (v := 100000) (p := 0.5) (b1 := 1400) (a1 := 1000)
         (b5 := 3000) (a5 := 5000);
    try reflexivity; try discriminate;
    try (split; discriminate).
  exact log10_floor_nonneg.
Defined.

(* ================================================================== *)
(** * The order of the ranking *)
(* ================================================================== *)

Lemma insertBy_Forall {A : Type} (P : A -> Prop) (cmp : A -> A -> number)
    (x : A) (l : list A) :
  P x -> Forall P l -> Forall P (insertBy cmp x l).
Proof.
  intros Hx Hl. eapply Permutation_Forall.
  - apply Permutation_sym, insertBy_perm.
  - constructor; assumption.
Qed.

(** Sorting by a numeric key, descending. *)
Lemma sortBy_descending {A : Type} (key : A -> number) (l : list A) :
  Forall (fun x => exists q, key x = Num q) l ->
  StronglySorted (fun a b => (key a >=? key b)%js = true)
    (sortBy (fun a b => (key b - key a)%js) l).
Proof.
  set (R := fun a b => (key a >=? key b)%js = true).
  set (cmp := fun a b => (key b - key a)%js).
  induction 1 as [|x l [qx Hx] Hl IH]; simpl; [constructor|].
  assert (Hs : Forall (fun x => exists q, key x = Num q) (sortBy cmp l)).
  { eapply Permutation_Forall; [|exact Hl].
    apply Permutation_sym, sortBy_perm. }
  revert IH Hs. generalize (sortBy cmp l) as s. clear l Hl.
  induction s as [|y s IHs]; intros Hsorted Hnum; simpl.
  - repeat constructor.
  - inversion Hsorted as [|? ? Hs' Hy]; subst.
    inversion Hnum as [|? ? [qy Hqy] Hnum']; subst.
    unfold cmp at 1. rewrite Hx, Hqy. unfold_js.
    destruct (Js.Qltb 0 (qy - qx)) eqn:E; reflect_cmp.
    + constructor; [apply IHs; assumption|].
      apply insertBy_Forall; [|exact Hy].
      unfold R. rewrite Hx, Hqy. unfold_js. apply Qle_bool_iff. lra.
    + constructor; [exact Hsorted|].
      constructor.
      * unfold R. rewrite Hx, Hqy. unfold_js. apply Qle_bool_iff. lra.
      * rewrite Forall_forall in *. intros z Hz.
        specialize (Hy z Hz). destruct (Hnum' z Hz) as [qz Hqz].
        unfold R in *. rewrite Hx, Hqy, Hqz in *. unfold_js.
        reflect_cmp. apply Qle_bool_iff. lra.
Qed.

(** Sorting by a numeric key, ascending. *)
Lemma sortBy_ascending {A : Type} (key : A -> number) (l : list A) :
  Forall (fun x => exists q, key x = Num q) l ->
  StronglySorted (fun a b => (key a <=? key b)%js = true)
    (sortBy (fun a b => (key a - key b)%js) l).
Proof.
  set (R := fun a b => (key a <=? key b)%js = true).
  set (cmp := fun a b => (key a - key b)%js).
  induction 1 as [|x l [qx Hx] Hl IH]; simpl; [constructor|].
  assert (Hs : Forall (fun x => exists q, key x = Num q) (sortBy cmp l)).
  { eapply Permutation_Forall; [|exact Hl].
    apply Permutation_sym, sortBy_perm. }
  revert IH Hs. generalize (sortBy cmp l) as s. clear l Hl.
  induction s as [|y s IHs]; intros Hsorted Hnum; simpl.
  - repeat constructor.
  - inversion Hsorted as [|? ? Hs' Hy]; subst.
    inversion Hnum as [|? ? [qy Hqy] Hnum']; subst.
    unfold cmp at 1. rewrite Hx, Hqy. unfold_js.
    destruct (Js.Qltb 0 (qx - qy)) eqn:E; reflect_cmp.
    + constructor; [apply IHs; assumption|].
      apply insertBy_Forall; [|exact Hy].
      unfold R. rewrite Hx, Hqy. unfold_js. apply Qle_bool_iff. lra.
    + constructor; [exact Hsorted|].
      constructor.
      * unfold R. rewrite Hx, Hqy. unfold_js. apply Qle_bool_iff. lra.
      * rewrite Forall_forall in *. intros z Hz.
        specialize (Hy z Hz). destruct (Hnum' z Hz) as [qz Hqz].
        unfold R in *. rewrite Hx, Hqy, Hqz in *. unfold_js.
        reflect_cmp. apply Qle_bool_iff. lra.
Qed.



(** X1. When every record has a numeric score, the ranking is the list of
    the per-market records, one for each market of the listing, in
    descending order of score: every record scores at least as much as
    each record after it. *)
Theorem X1_ranking_sorted_descending (log10Q : Q -> Q) (now : Q)
    (data : list Market) (fetchBook : string -> option OrderBook) :
  Forall (fun p => exists s, scalpingScore p = Num s)
    (map (processMarket log10Q now fetchBook) data) ->
  let out := getScalpingMarkets log10Q now (Some data) fetchBook in
  Permutation out (map (processMarket log10Q now fetchBook) data)
  /\ StronglySorted
       (fun a b => (scalpingScore a >=? scalpingScore b)%js = true) out.
Proof.
  intros H out. subst out. unfold getScalpingMarkets. split.
  - apply sortBy_perm.
  - apply sortBy_descending. exact H.
Qed.

Lemma X1_ranking_sorted_witness :
  map scalpingScore
    (getScalpingMarkets log10_floor Sample.now
       (Some [Sample.withFees; Sample.calm; Sample.championship])
       (Sample.serve Sample.book))
  = [Num (207 # 2); Num 0; Num 0]
  /\ StronglySorted
       (fun a b => (scalpingScore a >=? scalpingScore b)%js = true)
       (getScalpingMarkets log10_floor Sample.now
          (Some [Sample.withFees; Sample.calm; Sample.championship])
          (Sample.serve Sample.book)).
Proof.
  split; [vm_compute; reflexivity|].
  apply X1_ranking_sorted_descending.
  vm_compute. repeat constructor; eexists; reflexivity.
Defined.



(* ================================================================== *)
(** * The records of the pipeline *)
(* ================================================================== *)

(** The two forms of a record: the initial one, or the one filled from a
    book with both sides. *)
Lemma processMarket_cases (log10Q : Q -> Q) (now : Q)
    (fetchBook : string -> option OrderBook) (m : Market) :
  (bookOf fetchBook m = None
   /\ processMarket log10Q now fetchBook m = initialProcessed now m)
  \/ (exists book b0 bs a0 ays,
         bookOf fetchBook m = Some book
         /\ sortBids (bids book) = b0 :: bs
         /\ sortAsks (asks book) = a0 :: ays
         /\ processMarket log10Q now fetchBook m
            = scoreWithBook log10Q now m book (initialProcessed now m)).
Proof.
  destruct (bookOf fetchBook m) as [book|] eqn:E.
  - right.
    destruct (processMarket_available log10Q now fetchBook m book E)
      as (b0 & bs & a0 & ays & Hb & Ha & _).
    exists book, b0, bs, a0, ays. repeat split; try assumption.
    unfold bookOf in E. unfold processMarket.
    destruct (clobTokenIds m) as [|tokenId ?]; [discriminate|].
    destruct (fetchBook tokenId) as [fetched|]; [|discriminate].
    destruct (bids fetched) as [|x xs] eqn:Eb; [discriminate|].
    destruct (asks fetched) as [|y ys] eqn:Ea; [discriminate|].
    injection E as <-. reflexivity.
  - left. split; [reflexivity|].
    apply processMarket_unavailable. exact E.
Qed.

(** X3. Every record of the ranking keeps two invariants.  A record with
    an exclusion reason has score 0.  And its book data are either all
    absent (no spread, no best bid, no best ask, score 0, no reason) or
    all present, with the spread equal to best ask minus best bid and the
    spread in ticks equal to the spread divided by the reported tick
    size. *)
Theorem X3_record_invariants (log10Q : Q -> Q) (now : Q)
    (data : list Market) (fetchBook : string -> option OrderBook)
    (p : Processed) :
  In p (getScalpingMarkets log10Q now (Some data) fetchBook) ->
  (exclusionReason' p <> None -> scalpingScore p = Num 0)
  /\ ((spread p = None /\ bestBid p = None /\ bestAsk p = None
       /\ scalpingScore p = Num 0 /\ exclusionReason' p = None)
      \/ (exists b a : number,
             bestBid p = Some b /\ bestAsk p = Some a
             /\ spread p = Some (a - b)%js
             /\ spreadInTicks (details p) = ((a - b) / p_tickSize p)%js)).
Proof.
  intro Hin. unfold getScalpingMarkets in Hin.
  apply (Permutation_in _ (sortBy_perm _ _)) in Hin.
  apply in_map_iff in Hin. destruct Hin as (m & <- & _).
  destruct (processMarket_cases log10Q now fetchBook m)
    as [[_ ->] | (book & b0 & bs & a0 & ays & _ & Hb & Ha & ->)].
  - split; [intro H; exfalso; apply H; reflexivity|].
    left. repeat split; reflexivity.
  - unfold scoreWithBook. rewrite Hb, Ha. cbn -[calculateScalpingScore getDepth].
    split.
    + rewrite calculateScalpingScore_ladder.
      destruct (firstMatch _); [reflexivity|].
      intro H; exfalso; apply H; reflexivity.
    + right. exists (price b0), (price a0). repeat split; reflexivity.
Qed.

Lemma X3_record_invariants_witness :
  exists p,
    In p (getScalpingMarkets log10_floor Sample.now
            (Some [Sample.withFees; Sample.calm]) (Sample.serve Sample.book))
    /\ exclusionReason' p = Some "Fees enabled"%string
    /\ scalpingScore p = Num 0
    /\ spread p = Some (Num 0.51 - Num 0.50)%js.
Proof.
  exists (processMarket log10_floor Sample.now (Sample.serve Sample.book)
            Sample.withFees).
  assert (Hin : In (processMarket log10_floor Sample.now
                      (Sample.serve Sample.book) Sample.withFees)
                  (getScalpingMarkets log10_floor Sample.now
                     (Some [Sample.withFees; Sample.calm])
                     (Sample.serve Sample.book))).
  { vm_compute. right. left. reflexivity. }
  split; [exact Hin|]. split; [reflexivity|].
  destruct (X3_record_invariants _ _ _ _ _ Hin) as [H0 _].
  split; [apply H0; discriminate | reflexivity].
Defined.

(** The depths at two tick distances, on sides whose sizes are not
    negative: numbers, ordered as the distances are. *)
Lemma getDepth_mono_num (m : Market) (sortedBids sortedAsks : list Level)
    (side : Side) (basePrice : number) (k n : Q) :
  Forall nonnegSize sortedBids -> Forall nonnegSize sortedAsks ->
  tickValid m -> k <= n ->
  exists dk dn,
    getDepth m sortedBids sortedAsks (Num k) side basePrice = Num dk
    /\ getDepth m sortedBids sortedAsks (Num n) side basePrice = Num dn
    /\ 0 <= dk <= dn.
Proof.
  intros Hb Ha Ht Hkn.
  unfold getDepth. destruct side.
  - destruct (depth_sum_mono _ _ sortedBids
                (fun x => band_widens m Bids basePrice k n x Ht Hkn)
                Hb 0 0 (Qle_refl 0)) as (s1 & s2 & E1 & E2 & H0 & Hs).
    exists s1, s2. repeat split; assumption.
  - destruct (depth_sum_mono _ _ sortedAsks
                (fun x => band_widens m Asks basePrice k n x Ht Hkn)
                Ha 0 0 (Qle_refl 0)) as (s1 & s2 & E1 & E2 & H0 & Hs).
    exists s1, s2. repeat split; assumption.
Qed.

Lemma sortBids_head_in (l : list Level) (b0 : Level) (bs : list Level) :
  sortBids l = b0 :: bs -> In b0 l.
Proof.
  intro E. eapply Permutation_in; [apply sortBy_perm|].
  unfold sortBids in E. rewrite E. left. reflexivity.
Qed.

Lemma sortAsks_head_in (l : list Level) (a0 : Level) (ays : list Level) :
  sortAsks l = a0 :: ays -> In a0 l.
Proof.
  intro E. eapply Permutation_in; [apply sortBy_perm|].
  unfold sortAsks in E. rewrite E. left. reflexivity.
Qed.

Lemma sorted_sides_nonneg (book : OrderBook) :
  Forall nonnegSize (bids book) -> Forall nonnegSize (asks book) ->
  Forall nonnegSize (sortBids (bids book))
  /\ Forall nonnegSize (sortAsks (asks book)).
Proof.
  intros Hb Ha. split.
  - eapply Permutation_Forall; [|exact Hb].
    apply Permutation_sym, sortBy_perm.
  - eapply Permutation_Forall; [|exact Ha].
    apply Permutation_sym, sortBy_perm.
Qed.

(** X4. In the record of a market served by a book whose sizes are not
    negative, for a tick size that is not negative, the three reported
    depths are numbers and grow with the band:
    0 <= depth1Tick <= depth3Tick <= depth5Tick. *)
Theorem X4_reported_depths_ordered (log10Q : Q -> Q) (now : Q)
    (fetchBook : string -> option OrderBook) (m : Market) (book : OrderBook) :
  bookOf fetchBook m = Some book ->
  Forall nonnegSize (bids book) -> Forall nonnegSize (asks book) ->
  tickValid m ->
  let d := details (processMarket log10Q now fetchBook m) in
  exists d1 d3 d5 : Q,
    depth1Tick d = Num d1 /\ depth3Tick d = Num d3 /\ depth5Tick d = Num d5
    /\ 0 <= d1 /\ d1 <= d3 /\ d3 <= d5.
Proof.
  intros Hbook Hb Ha Ht d. subst d.
  destruct (sorted_sides_nonneg book Hb Ha) as [Hsb Hsa].
  destruct (processMarket_cases log10Q now fetchBook m)
    as [[E _] | (book' & b0 & bs & a0 & ays & E & Eb & Ea & ->)];
    rewrite Hbook in E; [discriminate|]. injection E as <-.
  unfold scoreWithBook. rewrite Eb, Ea in *.
  cbn -[calculateScalpingScore getDepth].
  assert (H13 : 1 <= 3) by discriminate.
  assert (H35 : 3 <= 5) by discriminate.
  destruct (getDepth_mono_num m _ _ Bids (price b0) 1 3 Hsb Hsa Ht H13)
    as (b1 & b3 & -> & Eb3 & Hb13).
  destruct (getDepth_mono_num m _ _ Bids (price b0) 3 5 Hsb Hsa Ht H35)
    as (b3' & b5 & Eb3' & -> & Hb35).
  rewrite Eb3 in *. injection Eb3' as <-.
  destruct (getDepth_mono_num m _ _ Asks (price a0) 1 3 Hsb Hsa Ht H13)
    as (a1 & a3 & -> & Ea3 & Ha13).
  destruct (getDepth_mono_num m _ _ Asks (price a0) 3 5 Hsb Hsa Ht H35)
    as (a3' & a5 & Ea3' & -> & Ha35).
  rewrite Ea3 in *. injection Ea3' as <-.
  exists (b1 + a1), (b3 + a3), (b5 + a5).
  repeat split; try reflexivity; lra.
Qed.

Lemma X4_reported_depths_witness :
  let d := details (processMarket log10_floor Sample.now
                      (Sample.serve Sample.book) Sample.calm) in
  depth1Tick d = Num 2000
  /\ depth5Tick d = Num 10000
  /\ exists d1 d3 d5 : Q,
       depth1Tick d = Num d1 /\ depth3Tick d = Num d3 /\ depth5Tick d = Num d5
       /\ 0 <= d1 /\ d1 <= d3 /\ d3 <= d5.
Proof.
  intro d. split; [reflexivity|]. split; [reflexivity|].
  apply (X4_reported_depths_ordered log10_floor Sample.now
           (Sample.serve Sample.book) Sample.calm Sample.book).
  - reflexivity.
  - repeat constructor; discriminate.
  - repeat constructor; discriminate.
  - discriminate.
Defined.

(** A level that passes the filter contributes its size to the sum. *)
Lemma depth_sum_member (f : Level -> bool) (l : list Level) (x : Level)
    (sx : Q) :
  Forall nonnegSize l -> In x l -> f x = true -> size x = Num sx ->
  forall a : Q,
  exists s,
    fold_left (fun acc item => (acc + size item)%js) (filter f l) (Num a)
    = Num s /\ a + sx <= s.
Proof.
  intros Hl. induction Hl as [|y l Hy Hl IH]; intros Hin Hf Hsx a;
    [destruct Hin|].
  simpl. destruct Hin as [->|Hin].
  - rewrite Hf. simpl. rewrite Hsx. simpl.
    destruct (depth_sum_mono f f l (fun _ H => H) Hl (a + sx) (a + sx)
                (Qle_refl _)) as (s1 & s2 & E1 & _ & H1 & _).
    exists s1. split; assumption.
  - unfold nonnegSize in Hy. destruct (size y) as [|sy] eqn:Ey; [contradiction|].
    destruct (f y); simpl.
    + rewrite Ey. simpl.
      destruct (IH Hin Hf Hsx (a + sy)) as (s & E & H).
      exists s. split; [exact E | lra].
    + apply IH; assumption.
Qed.

(** The exclusion for an empty book is reported by the seventh check
    only. *)
Lemma firstMatch_not_book (now : Q) (m : Market)
    (spread bidDepth1 askDepth1 : number) :
  check_book bidDepth1 askDepth1 = None ->
  firstMatch (hardExclusions now m spread bidDepth1 askDepth1)
  <> Some "One-sided or empty book"%string.
Proof.
  intro Hb. unfold hardExclusions. rewrite !firstMatch_cons, Hb.
  unfold check_fees. destruct (feesEnabled m); [discriminate|].
  unfold check_spread. destruct (Js.gt _ _); [discriminate|].
  unfold check_jump_keyword.
  destruct (find _ JUMP_RISK_KEYWORDS); [cbn [option_map append]; discriminate|].
  unfold check_decay_keyword.
  destruct (find _ STRUCTURAL_DECAY_KEYWORDS);
    [cbn [option_map append]; discriminate|].
  cbn [option_map].
  unfold check_price_edge.
  destruct (Js.lt (midPriceOf m) _ || Js.gt (midPriceOf m) _);
    [cbn [append]; discriminate|].
  unfold check_time. destruct (Js.lt (hoursToResOf now m) _); [discriminate|].
  unfold check_drift. destruct (Js.strict_eq (calculateDriftPenalty _ _) _);
    [discriminate|].
  unfold check_volatility.
  destruct (Js.strict_eq (calculateJumpRiskPenalty _ _) _); discriminate.
Qed.

(** X5. For a market served by a book whose sizes are positive numbers and
    whose prices are numbers, with a tick size that is not negative, the
    depth within one tick is positive on both sides, since the best level
    lies in its own band: the empty-book check of the scorer does not
    fire, and the record never carries the reason
    "One-sided or empty book". *)
Theorem X5_empty_book_check_unreachable (log10Q : Q -> Q) (now : Q)
    (fetchBook : string -> option OrderBook) (m : Market) (book : OrderBook) :
  bookOf fetchBook m = Some book ->
  Forall positiveSize (bids book) -> Forall positiveSize (asks book) ->
  Forall numericPrice (bids book) -> Forall numericPrice (asks book) ->
  tickValid m ->
  let p := processMarket log10Q now fetchBook m in
  (exists b1 a1 : Q,
      bidDepth1 (details p) = Num b1 /\ askDepth1 (details p) = Num a1
      /\ 0 < b1 /\ 0 < a1)
  /\ check_book (bidDepth1 (details p)) (askDepth1 (details p)) = None
  /\ exclusionReason' p <> Some "One-sided or empty book"%string.
Proof.
  intros Hbook Hpb Hpa Hnb Hna Ht p. subst p.
  assert (Hweak : forall l, Forall positiveSize l -> Forall nonnegSize l).
  { intros l H. eapply Forall_impl; [|exact H].
    intros x. unfold positiveSize, nonnegSize.
    destruct (size x); [trivial | lra]. }
  destruct (sorted_sides_nonneg book (Hweak _ Hpb) (Hweak _ Hpa))
    as [Hsb Hsa].
  destruct (processMarket_cases log10Q now fetchBook m)
    as [[E _] | (book' & b0 & bs & a0 & ays & E & Eb & Ea & ->)];
    rewrite Hbook in E; [discriminate|]. injection E as <-.
  assert (Hb0 : In b0 (bids book)).
  { exact (sortBids_head_in _ _ _ Eb). }
  assert (Ha0 : In a0 (asks book)).
  { exact (sortAsks_head_in _ _ _ Ea). }
  destruct (proj1 (Forall_forall _ _) Hnb b0 Hb0) as [pb Epb].
  destruct (proj1 (Forall_forall _ _) Hna a0 Ha0) as [pa Epa].
  pose proof (proj1 (Forall_forall _ _) Hpb b0 Hb0) as Hsb0.
  pose proof (proj1 (Forall_forall _ _) Hpa a0 Ha0) as Hsa0.
  unfold positiveSize in Hsb0, Hsa0.
  destruct (size b0) as [|sb] eqn:Esb; [contradiction|].
  destruct (size a0) as [|sa] eqn:Esa; [contradiction|].
  assert (Htick : exists t, (orderPriceMinTickSize m ||| 0.01)%js = Num t
                            /\ 0 <= t).
  { unfold tickValid in Ht. unfold Js.or_else, Js.truthy.
    destruct (orderPriceMinTickSize m) as [|t].
    - exists 0.01. split; [reflexivity | discriminate].
    - destruct (Qeq_bool t 0); simpl.
      + exists 0.01. split; [reflexivity | discriminate].
      + exists t. split; [reflexivity | exact Ht]. }
  destruct Htick as (t & Et & Ht0).
  unfold scoreWithBook. rewrite Eb, Ea in *.
  cbn -[calculateScalpingScore getDepth].
  assert (Hbid : exists b1, getDepth m (b0 :: bs) (a0 :: ays) (Num 1) Bids
                              (price b0) = Num b1 /\ 0 < b1).
  { unfold getDepth. rewrite Et, Epb.
    destruct (depth_sum_member
                (fun item => (price item >=? Num pb - Num 1 * Num t)%js)
                (b0 :: bs) b0 sb Hsb (or_introl eq_refl)) with (a := 0)
      as (s & E & H).
    - rewrite Epb. unfold_js. apply Qle_bool_iff. lra.
    - exact Esb.
    - exists s. split; [exact E | lra]. }
  assert (Hask : exists a1, getDepth m (b0 :: bs) (a0 :: ays) (Num 1) Asks
                              (price a0) = Num a1 /\ 0 < a1).
  { unfold getDepth. rewrite Et, Epa.
    destruct (depth_sum_member
                (fun item => (price item <=? Num pa + Num 1 * Num t)%js)
                (a0 :: ays) a0 sa Hsa (or_introl eq_refl)) with (a := 0)
      as (s & E & H).
    - rewrite Epa. unfold_js. apply Qle_bool_iff. lra.
    - exact Esa.
    - exists s. split; [exact E | lra]. }
  destruct Hbid as (b1 & Eb1 & Hb1). destruct Hask as (a1 & Ea1 & Ha1).
  rewrite Eb1, Ea1.
  assert (Hcb : check_book (Num b1) (Num a1) = None).
  { destruct (check_book (Num b1) (Num a1)) eqn:E; [|reflexivity].
    assert (K : check_book (Num b1) (Num a1) <> None) by congruence.
    apply check_book_fires in K. destruct K as [K|K]; lra. }
  split; [exists b1, a1; repeat split; assumption|].
  split; [exact Hcb|].
  rewrite exclusionReason_firstMatch. apply firstMatch_not_book. exact Hcb.
Qed.

Lemma X5_empty_book_check_witness :
  let p := processMarket log10_floor Sample.now (Sample.serve Sample.book)
             Sample.calm in
  bidDepth1 (details p) = Num 1000
  /\ exclusionReason' p <> Some "One-sided or empty book"%string.
Proof.
  intro p. split; [reflexivity|].
  apply (X5_empty_book_check_unreachable log10_floor Sample.now
           (Sample.serve Sample.book) Sample.calm Sample.book).
  - reflexivity.
  - repeat constructor.
  - repeat constructor.
  - repeat constructor; eexists; reflexivity.
  - repeat constructor; eexists; reflexivity.
  - discriminate.
Defined.

(* ================================================================== *)
(** * The score of an eligible market *)
(* ================================================================== *)

Lemma firstMatch_none (l : list (option string)) :
  firstMatch l = None <-> Forall (fun o => o = None) l.
Proof.
  induction l as [|o l IH]; simpl.
  - split; [constructor | reflexivity].
  - destruct o as [r|].
    + split; [discriminate|]. intro H. inversion H; subst. discriminate.
    + rewrite IH. split; [constructor; [reflexivity | assumption]|].
      intro H. inversion H; assumption.
Qed.

Lemma calculateDriftPenalty_values (p c : number) :
  calculateDriftPenalty p c = Num 0 \/ calculateDriftPenalty p c = Num 0.5
  \/ calculateDriftPenalty p c = Num 1.2 \/ calculateDriftPenalty p c = Num 1.0.
Proof.
  unfold calculateDriftPenalty.
  repeat match goal with
         | |- context [if ?c then _ else _] => destruct c
         end; tauto.
Qed.

Lemma calculateJumpRiskPenalty_values (q : string) (c : number) :
  calculateJumpRiskPenalty q c = Num 0 \/ calculateJumpRiskPenalty q c = Num 0.2
  \/ calculateJumpRiskPenalty q c = Num 0.5
  \/ calculateJumpRiskPenalty q c = Num 0.8
  \/ calculateJumpRiskPenalty q c = Num 1.0.
Proof.
  unfold calculateJumpRiskPenalty.
  destruct (existsb _ JUMP_RISK_KEYWORDS); [tauto|].
  repeat match goal with
         | |- context [if Js.gt ?a ?b then _ else _] => destruct (Js.gt a b)
         end; tauto.
Qed.

Lemma calculateEventResolutionPenalty_values (q : string) :
  calculateEventResolutionPenalty q = Num 0.3
  \/ calculateEventResolutionPenalty q = Num 0.5
  \/ calculateEventResolutionPenalty q = Num 1.0.
Proof.
  unfold calculateEventResolutionPenalty.
  destruct (existsb _ countdownPatterns); [tauto|].
  destruct (existsb _ singleEventPatterns); tauto.
Qed.

Lemma reversionBase_lower (p : Q) :
  0.08 <= p <= 0.92 ->
  exists b, reversionBase (Num p) = Num b /\ 24.4 <= b <= 100.
Proof.
  intros Hp. unfold reversionBase. unfold_js. eexists. split; [reflexivity|].
  destruct (Qabs_cases (p - 0.5)) as [[? ?]|[? ?]];
    case_cmp; reflect_cmp; lra.
Qed.

Lemma calculateVolumeChurnScore_range (log10Q : Q -> Q) (v : Q) (w : number) :
  (forall x : Q, 1 <= x -> 0 <= log10Q x) ->
  0 <= v ->
  exists s, calculateVolumeChurnScore log10Q (Num v) w = Num s
            /\ 0 <= s <= 100.
Proof.
  intros Hlog Hv.
  assert (Hd : exists d, (w ||| 1)%js = Num d /\ Qeq_bool d 0 = false).
  { destruct (or_else_nonzero w 1) as (d & E & Hd); [discriminate|].
    exists d. split; [exact E | apply Qeqb_neq; exact Hd]. }
  destruct Hd as (d & Ed & Hd0).
  unfold calculateVolumeChurnScore. rewrite Ed.
  unfold log10. unfold_js. rewrite Hd0.
  assert (Hpos : Js.Qltb 0 (v + 1) = true) by (apply Qltb_lt; lra).
  rewrite Hpos.
  pose proof (Hlog (v + 1)) as HL.
  set (r := v / d). set (L := log10Q (v + 1)) in *.
  assert (HL' : 0 <= L) by (apply HL; lra).
  assert (H7 : 1 / 7 == 1 # 7) by reflexivity.
  destruct (Qeq_bool 7 0) eqn:E7; [discriminate E7|].
  destruct (Js.Qltb 0.3 r) eqn:Er.
  - eexists. split; [reflexivity|]. reflect_cmp.
    case_cmp; reflect_cmp; lra.
  - eexists. split; [reflexivity|]. reflect_cmp.
    pose proof (Qabs_nonneg (r - 1 / 7)) as Habs.
    set (A := Qabs (r - 1 / 7)) in *.
    repeat (case_cmp; reflect_cmp); split; try lra; nra.
Qed.

Lemma toFixedValue_lower (x : Q) :
  0.6864 <= x <= 103.5 ->
  exists s, Js.toFixedValue 2 (Num x) = Num s /\ 0.69 <= s <= 103.5.
Proof.
  intros [H0 H1]. unfold Js.toFixedValue.
  assert (Hx : 0 <= x) by lra.
  assert (Ea : Qabs x == x) by (apply Qabs_pos; exact Hx).
  assert (Ebig : Qle_bool (inject_Z (10 ^ 21)) (Qabs x) = false).
  { apply Qleb_gt. rewrite Ea.
    apply Qle_lt_trans with (y := 103.5); [exact H1 | reflexivity]. }
  assert (Eneg : Js.Qltb x 0 = false) by (apply Qltb_ge; exact Hx).
  rewrite Ebig, Eneg. eexists. split; [reflexivity|].
  rewrite Qred_correct. unfold Js.fixedDigits.
  change (Pos.of_nat (10 ^ 2)) with 100%positive.
  change (inject_Z (10 ^ Z.of_nat 2)) with 100.
  set (n := Qfloor (Qabs x * 100 + (1 # 2))).
  assert (Hlo : (69 <= n)%Z).
  { change 69%Z with (Qfloor (0.6864 * 100 + (1 # 2))). apply Qfloor_resp_le.
    rewrite Ea. lra. }
  assert (Hhi : (n <= 10350)%Z).
  { change 10350%Z with (Qfloor (103.5 * 100 + (1 # 2))).
    apply Qfloor_resp_le. rewrite Ea. lra. }
  unfold Qle. simpl. lia.
Qed.

(** The score of an eligible market with numeric inputs. *)
Lemma eligible_score_range (log10Q : Q -> Q) (now : Q) (m : Market)
    (spread : number) (v p b1 a1 b5 a5 : Q) :
  (forall x : Q, 1 <= x -> 0 <= log10Q x) ->
  volume24hr m = Num v -> 0 <= v ->
  midPriceOf m = Num p ->
  0 <= b1 <= b5 -> 0 <= a1 <= a5 ->
  let r := calculateScalpingScore log10Q now m
             spread (Num b1) (Num a1) (Num b5) (Num a5) in
  exclusionReason r = None ->
  exists s, score r = Num s /\ 0.69 <= s <= 103.5.
Proof.
  intros Hlog Ev Hv Ep Hb Ha r Hr. subst r.
  rewrite exclusionReason_firstMatch in Hr.
  rewrite calculateScalpingScore_ladder, Hr. cbn [score].
  apply firstMatch_none in Hr. unfold hardExclusions in Hr.
  repeat match goal with
         | H : Forall _ (_ :: _) |- _ => inversion H; clear H; subst
         end.
  assert (Hp : 0.08 <= p <= 0.92).
  { destruct (Qlt_le_dec p 0.08) as [K|K];
      [|destruct (Qlt_le_dec 0.92 p) as [K'|K']; [|split; assumption]];
      exfalso;
      assert (F : check_price_edge m <> None)
        by (apply (check_price_edge_fires m p Ep); auto);
      contradiction. }
  unfold compositeScore. rewrite Ev, Ep.
  destruct (spreadScoreOf_range (spread / tickSizeOf m)%js) as (s1 & -> & Hs1).
  destruct (calculateVolumeChurnScore_range log10Q v (volume1wk m) Hlog Hv)
    as (s2 & -> & Hs2).
  destruct (reversionBase_lower p Hp) as (b & -> & Hbase).
  assert (Hd : exists d, calculateDriftPenalty (Num p)
                           (oneWeekPriceChange m ||| 0)%js = Num d
                         /\ 0.5 <= d <= 1.2).
  { match goal with H : check_drift m = None |- _ => unfold check_drift in H end.
    rewrite Ep in *.
    destruct (calculateDriftPenalty_values (Num p)
                (oneWeekPriceChange m ||| 0)%js) as [E|[E|[E|E]]];
      rewrite E in *;
      [discriminate | | | ]; eexists; (split; [reflexivity|]);
      split; discriminate. }
  destruct Hd as (d & -> & Hd).
  destruct (calculateDepthQualityScore_range log10Q Hlog b1 a1 b5 a5 Hb Ha)
    as (s4 & -> & Hs4).
  destruct (timeScoreOf_range (hoursToResOf now m)) as (t & -> & Hts).
  assert (He : exists e, calculateEventResolutionPenalty (question m) = Num e
                         /\ 0.3 <= e <= 1).
  { destruct (calculateEventResolutionPenalty_values (question m))
      as [E|[E|E]]; rewrite E; eexists; (split; [reflexivity|]);
      split; discriminate. }
  destruct He as (e & -> & He).
  assert (Hj : exists j, calculateJumpRiskPenalty (question m)
                           (oneWeekPriceChange m ||| 0)%js = Num j
                         /\ 0.2 <= j <= 1).
  { match goal with
    | H : check_volatility m = None |- _ => unfold check_volatility in H
    end.
    destruct (calculateJumpRiskPenalty_values (question m)
                (oneWeekPriceChange m ||| 0)%js) as [E|[E|[E|[E|E]]]];
      rewrite E in *;
      [discriminate | | | | ]; eexists; (split; [reflexivity|]);
      split; discriminate. }
  destruct Hj as (j & -> & Hj).
  unfold_js. apply toFixedValue_lower.
  assert (Hbd : 12.2 <= b * d <= 120) by nra.
  set (bd := b * d) in *.
  set (raw := s1 * 0.25 + s2 * 0.25 + bd * 0.20 + s4 * 0.15 + t * 0.10).
  assert (Hraw : 11.44 <= raw <= 103.5) by (subst raw; lra).
  assert (Hre : 3.432 <= raw * e <= raw) by nra.
  assert (Hfin : 0.6864 <= raw * e * j <= raw * e) by nra.
  case_cmp; reflect_cmp; lra.
Qed.


(** X6. An eligible market never scores low: when no check fires, the
    price and the 24-hour volume are numbers (volume >= 0) and the depths
    are numbers with 0 <= depth at 1 tick <= depth at 5 ticks, the score
    is at least 0.69 (and at most 103.5), for every decimal logarithm
    that is not negative from 1 on.  An excluded market scores 0, so an
    eligible one always scores strictly more. *)
Theorem X6_eligible_score_at_least (log10Q : Q -> Q) (now : Q) (m : Market)
    (spread : number) (v p b1 a1 b5 a5 : Q) :
  (forall x : Q, 1 <= x -> 0 <= log10Q x) ->
  volume24hr m = Num v -> 0 <= v ->
  midPriceOf m = Num p ->
  0 <= b1 <= b5 -> 0 <= a1 <= a5 ->
  let r := calculateScalpingScore log10Q now m
             spread (Num b1) (Num a1) (Num b5) (Num a5) in
  exclusionReason r = None ->
  exists s, score r = Num s /\ 0.69 <= s <= 103.5.
Proof.
  exact (eligible_score_range log10Q now m spread v p b1 a1 b5 a5).
Qed.

Lemma X6_eligible_score_witness :
  let r := calculateScalpingScore log10_floor Sample.now Sample.calm
             (Num 0.01) (Num 1400) (Num 1000) (Num 3000) (Num 5000) in
  exclusionReason r = None
  /\ exists s, score r = Num s /\ 0.69 <= s <= 103.5.
Proof.
  intro r. split; [reflexivity|].
  apply (X6_eligible_score_at_least log10_floor Sample.now Sample.calm
           (Num 0.01) 100000 0.5 1400 1000 3000 5000);
    try reflexivity; try discriminate; try (split; discriminate).
  exact log10_floor_nonneg.
Defined.

Lemma StronglySorted_after {A : Type} (R : A -> A -> Prop) (l1 l2 : list A)
    (a : A) :
  StronglySorted R (l1 ++ a :: l2) -> Forall (R a) l2.
Proof.
  induction l1 as [|x l1 IH]; simpl; intro H; inversion H; subst; auto.
Qed.

(** The record of a well-formed market: score 0 with a reason or without
    book data, or a scored record of an eligible market. *)
Lemma record_dichotomy (log10Q : Q -> Q) (now : Q)
    (fetchBook : string -> option OrderBook) (m : Market) :
  (forall x : Q, 1 <= x -> 0 <= log10Q x) ->
  wellFormedFor fetchBook m ->
  let p := processMarket log10Q now fetchBook m in
  (scalpingScore p = Num 0 /\ (exclusionReason' p <> None \/ spread p = None))
  \/ (exclusionReason' p = None /\ spread p <> None
      /\ exists s, scalpingScore p = Num s /\ 0.69 <= s <= 103.5).
Proof.
  intros Hlog ((v & Ev & Hv) & (pr & Ep) & Ht & Hbk) p. subst p.
  destruct (processMarket_cases log10Q now fetchBook m)
    as [[_ ->] | (book & b0 & bs & a0 & ays & Hbook & Eb & Ea & ->)].
  - left. split; [reflexivity | right; reflexivity].
  - destruct (Hbk book Hbook) as [Hnb Hna].
    destruct (sorted_sides_nonneg book Hnb Hna) as [Hsb Hsa].
    unfold scoreWithBook. rewrite Eb, Ea in *.
    cbn -[calculateScalpingScore getDepth].
    destruct (getDepth_ordered m _ _ Bids (price b0) Hsb Hsa Ht)
      as (b1 & b5 & -> & -> & Hbd).
    destruct (getDepth_ordered m _ _ Asks (price a0) Hsb Hsa Ht)
      as (a1 & a5 & -> & -> & Had).
    destruct (exclusionReason
                (calculateScalpingScore log10Q now m (price a0 - price b0)%js
                   (Num b1) (Num a1) (Num b5) (Num a5))) as [reason|] eqn:Er.
    + left. split; [|left; discriminate].
      rewrite calculateScalpingScore_ladder in *.
      destruct (firstMatch _); [reflexivity | discriminate Er].
    + right. split; [reflexivity|]. split; [discriminate|].
      pose proof (eligible_score_range log10Q now m (price a0 - price b0)%js
                    v pr b1 a1 b5 a5 Hlog Ev Hv Ep Hbd Had) as H.
      cbv zeta in H. apply H. exact Er.
Qed.

(** X7. In the ranking of a listing of well-formed markets (numeric price,
    numeric 24-hour volume >= 0, tick size not negative, book sizes not
    negative), no record that scores 0 because it is excluded or has no
    book stands before the record of an eligible market: every record
    before an eligible one is eligible too, and scores at least as
    much. *)
Theorem X7_eligible_ranked_first (log10Q : Q -> Q) (now : Q)
    (data : list Market) (fetchBook : string -> option OrderBook)
    (l1 l2 : list Processed) (a b : Processed) :
  (forall x : Q, 1 <= x -> 0 <= log10Q x) ->
  Forall (wellFormedFor fetchBook) data ->
  getScalpingMarkets log10Q now (Some data) fetchBook = l1 ++ a :: l2 ->
  In b l2 ->
  exclusionReason' b = None -> spread b <> None ->
  exclusionReason' a = None /\ spread a <> None
  /\ (scalpingScore a >=? scalpingScore b)%js = true.
Proof.
  intros Hlog Hwf Hout Hb Hrb Hsb.
  assert (Hrec : forall p,
             In p (map (processMarket log10Q now fetchBook) data) ->
             (scalpingScore p = Num 0
              /\ (exclusionReason' p <> None \/ spread p = None))
             \/ (exclusionReason' p = None /\ spread p <> None
                 /\ exists s, scalpingScore p = Num s /\ 0.69 <= s <= 103.5)).
  { intros p Hp. apply in_map_iff in Hp. destruct Hp as (m & <- & Hm).
    apply record_dichotomy; [exact Hlog|].
    exact (proj1 (Forall_forall _ _) Hwf m Hm). }
  assert (Hnum : Forall (fun p => exists s, scalpingScore p = Num s)
                   (map (processMarket log10Q now fetchBook) data)).
  { apply Forall_forall. intros p Hp.
    destruct (Hrec p Hp) as [[E _]|(_ & _ & s & E & _)]; eauto. }
  pose proof (sortBy_descending scalpingScore _ Hnum) as Hsorted.
  unfold getScalpingMarkets in Hout. rewrite Hout in Hsorted.
  pose proof (StronglySorted_after _ _ _ _ Hsorted) as Hafter.
  pose proof (proj1 (Forall_forall _ _) Hafter b Hb) as Hab.
  assert (Hin : forall p, In p (l1 ++ a :: l2) ->
                          In p (map (processMarket log10Q now fetchBook) data)).
  { intros p Hp. rewrite <- Hout in Hp.
    eapply Permutation_in; [apply sortBy_perm | exact Hp]. }
  assert (Ha' : In a (l1 ++ a :: l2)) by (apply in_or_app; right; left; reflexivity).
  assert (Hb' : In b (l1 ++ a :: l2)) by (apply in_or_app; right; right; exact Hb).
  apply Hin, Hrec in Ha'. apply Hin, Hrec in Hb'. cbv beta in Hab.
  destruct Hb' as [[_ [K|K]]|(_ & _ & sb & Esb & Hsb')]; [contradiction..|].
  destruct Ha' as [[Ea _]|(Hra & Hsa & _)].
  - exfalso. rewrite Ea, Esb in Hab. unfold_js. reflect_cmp. lra.
  - repeat split; assumption.
Qed.

Lemma sample_wellFormed (fees : bool) :
  wellFormedFor (Sample.serve Sample.book)
    (Sample.market Sample.rain (FirstPrice 0.5) fees (Num 0)).
Proof.
  split; [exists 100000; split; [reflexivity | discriminate]|].
  split; [exists 0.5; reflexivity|].
  split; [discriminate|].
  intros book H. injection H as <-.
  split; repeat constructor; discriminate.
Qed.

Lemma X7_eligible_ranked_first_witness :
  let pc := processMarket log10_floor Sample.now (Sample.serve Sample.book)
              Sample.calm in
  let pf := processMarket log10_floor Sample.now (Sample.serve Sample.book)
              Sample.withFees in
  getScalpingMarkets log10_floor Sample.now
    (Some [Sample.withFees; Sample.calm; Sample.calm])
    (Sample.serve Sample.book) = [] ++ pc :: [pc; pf]
  /\ exclusionReason' pc = None /\ spread pc <> None
  /\ (scalpingScore pc >=? scalpingScore pc)%js = true.
Proof.
  intros pc pf.
  assert (Hout : getScalpingMarkets log10_floor Sample.now
                   (Some [Sample.withFees; Sample.calm; Sample.calm])
                   (Sample.serve Sample.book) = [] ++ pc :: [pc; pf])
    by (vm_compute; reflexivity).
  split; [exact Hout|].
  apply (X7_eligible_ranked_first log10_floor Sample.now
           [Sample.withFees; Sample.calm; Sample.calm]
           (Sample.serve Sample.book) [] [pc; pf] pc pc log10_floor_nonneg).
  - repeat (apply Forall_cons; [apply sample_wellFormed|]). apply Forall_nil.
  - exact Hout.
  - left. reflexivity.
  - vm_compute. reflexivity.
  - vm_compute. discriminate.
Defined.

(** Rounding to one decimal keeps a value at or above 2. *)
Lemma toFixedValue_1_at_least_2 (x : Q) :
  2 <= x -> exists s, Js.toFixedValue 1 (Num x) = Num s /\ 2 <= s.
Proof.
  intro H. unfold Js.toFixedValue.
  assert (Hx : 0 <= x) by lra.
  assert (Ea : Qabs x == x) by (apply Qabs_pos; exact Hx).
  destruct (Qle_bool (inject_Z (10 ^ 21)) (Qabs x)).
  - exists x. split; [reflexivity | exact H].
  - assert (Eneg : Js.Qltb x 0 = false) by (apply Qltb_ge; exact Hx).
    rewrite Eneg. eexists. split; [reflexivity|].
    rewrite Qred_correct. unfold Js.fixedDigits.
    change (Pos.of_nat (10 ^ 1)) with 10%positive.
    change (inject_Z (10 ^ Z.of_nat 1)) with 10.
    set (n := Qfloor (Qabs x * 10 + (1 # 2))).
    assert (Hlo : (20 <= n)%Z).
    { change 20%Z with (Qfloor (2 * 10 + (1 # 2))). apply Qfloor_resp_le.
      rewrite Ea. lra. }
    unfold Qle. simpl. lia.
Qed.

(** X8. The days to resolution reported for a market agree with the
    48-hour cutoff of the scorer: when the end date is a number and the
    time check does not fire (at least 48 hours are left), the record
    shows at least 2.0 days, whether or not a book was available. *)
Theorem X8_days_agree_with_cutoff (log10Q : Q -> Q) (now : Q)
    (fetchBook : string -> option OrderBook) (m : Market) (e : Q) :
  endDate m = Num e ->
  check_time now m = None ->
  exists d, daysToRes (details (processMarket log10Q now fetchBook m)) = Num d
            /\ 2 <= d.
Proof.
  intros Ee Ht.
  assert (Hh : 48 <= (e - now) / 3600000).
  { destruct (Qlt_le_dec ((e - now) / 3600000) 48) as [K|K]; [|exact K].
    exfalso. apply (check_time_fires now m e Ee) in K. contradiction. }
  assert (Hd : daysToRes (details (processMarket log10Q now fetchBook m))
               = Js.toFixedValue 1 (Num ((e - now) / 86400000))).
  { destruct (processMarket_cases log10Q now fetchBook m)
      as [[_ ->] | (book & b0 & bs & a0 & ays & _ & Eb & Ea & ->)].
    - unfold initialProcessed. cbn [details daysToRes]. rewrite Ee. reflexivity.
    - unfold scoreWithBook. rewrite Eb, Ea. cbv zeta.
      cbn [details daysToRes]. unfold initialProcessed.
      cbn [details daysToRes]. rewrite Ee. reflexivity. }
  rewrite Hd. apply toFixedValue_1_at_least_2.
  unfold Qdiv in *.
  setoid_replace (/ 86400000) with ((/ 3600000) * (1 # 24)) by reflexivity.
  lra.
Qed.

Lemma X8_days_agree_witness :
  daysToRes (details (processMarket log10_floor Sample.now
                        (Sample.serve Sample.book) Sample.calm))
  = Num (104 # 5)
  /\ exists d,
       daysToRes (details (processMarket log10_floor Sample.now
                             (Sample.serve Sample.book) Sample.calm)) = Num d
       /\ 2 <= d.
Proof.
  split; [reflexivity|].
  apply (X8_days_agree_with_cutoff log10_floor Sample.now
           (Sample.serve Sample.book) Sample.calm 1763841600000);
    reflexivity.
Defined.

(* ================================================================== *)
(** * Volume churn and volatility *)
(* ================================================================== *)

(** X9. For a 24-hour volume that is a number and not negative, the
    volume churn score is a number in [0, 100], whatever the weekly volume
    is (a decimal logarithm that is not negative from 1 on is assumed).
    When the 24-hour volume is more than 0.3 of a weekly volume [w] that
    is a number other than 0, the score is that of a spike: at least 20
    and below 535/7 (about 76.43), whatever the size of the volume. *)
Theorem X9_volume_churn_range (log10Q : Q -> Q) (v : Q) :
  (forall x : Q, 1 <= x -> 0 <= log10Q x) ->
  0 <= v ->
  (forall w : number,
      exists s, calculateVolumeChurnScore log10Q (Num v) w = Num s
                /\ 0 <= s <= 100)
  /\ (forall w : Q,
         ~ w == 0 -> 0.3 < v / w ->
         exists s, calculateVolumeChurnScore log10Q (Num v) (Num w) = Num s
                   /\ 20 <= s /\ s < 535 # 7).
Proof.
  intros Hlog Hv. split.
  - intro w. apply calculateVolumeChurnScore_range; assumption.
  - intros w Hw Hr. unfold calculateVolumeChurnScore. unfold_js.
    apply Qeqb_neq in Hw. rewrite Hw. cbn [negb].
    rewrite Hw.
    destruct (Qeq_bool 7 0) eqn:E7; [discriminate E7|].
    apply Qltb_lt in Hr. rewrite Hr.
    eexists. split; [reflexivity|]. reflect_cmp.
    assert (H7 : 1 / 7 == 1 # 7) by reflexivity.
    case_cmp; reflect_cmp; split; lra.
Qed.

Lemma X9_volume_churn_witness :
  (exists s, calculateVolumeChurnScore log10_floor (Num 100000) (Num 700000)
             = Num s /\ 0 <= s <= 100)
  /\ (exists s, calculateVolumeChurnScore log10_floor (Num 400) (Num 1000)
                = Num s /\ 20 <= s /\ s < 535 # 7).
Proof.
  destruct (X9_volume_churn_range log10_floor 100000 log10_floor_nonneg)
    as [H1 _]; [discriminate|].
  destruct (X9_volume_churn_range log10_floor 400 log10_floor_nonneg)
    as [_ H2]; [discriminate|].
  split; [apply H1|]. apply H2; [discriminate | reflexivity].
Defined.

(** X10. A weekly volume that is 0 or missing counts as 1, so that the
    24-hour volume itself is the ratio: with a 24-hour volume of 1 or
    more the market is taken for a spike and scores exactly 20, whatever
    the logarithm. *)
Theorem X10_volume_churn_without_weekly_volume (log10Q : Q -> Q) (v : Q)
    (w : number) :
  Js.truthy w = false ->
  1 <= v ->
  calculateVolumeChurnScore log10Q (Num v) w = Num 20.
Proof.
  intros Hw Hv. unfold calculateVolumeChurnScore, Js.or_else. rewrite Hw.
  unfold_js. change (Qeq_bool 1 0) with false. cbv iota.
  destruct (Qeq_bool 7 0) eqn:E7; [discriminate E7|].
  assert (H7 : 1 / 7 == 1 # 7) by reflexivity.
  assert (Hv1 : v / 1 == v) by (unfold Qdiv; change (/ 1) with 1; ring).
  assert (Hr : Js.Qltb 0.3 (v / 1) = true).
  { apply Qltb_lt. rewrite Hv1. lra. }
  rewrite Hr.
  assert (Hc : Qle_bool 20 (100 - (v / 1 - 1 / 7) * 150) = false).
  { apply Qleb_gt. rewrite Hv1. lra. }
  rewrite Hc. reflexivity.
Qed.

Lemma X10_volume_churn_witness :
  calculateVolumeChurnScore log10_floor (Num 250000) (Num 0) = Num 20
  /\ calculateVolumeChurnScore log10_floor (Num 250000) NaN = Num 20.
Proof.
  split; apply X10_volume_churn_without_weekly_volume;
    reflexivity || discriminate.
Defined.

(** X11. Without a jump-risk keyword the volatility penalty depends on the
    one-week change through its absolute value only, and does not grow
    with it: a larger absolute change never gives a larger multiplier. *)
Theorem X11_jump_risk_penalty_monotone (q : string) (c1 c2 : Q) :
  Qabs c1 <= Qabs c2 ->
  (calculateJumpRiskPenalty q (Num c2) <=? calculateJumpRiskPenalty q (Num c1))%js
  = true
  /\ calculateJumpRiskPenalty q (Num (- c1)) = calculateJumpRiskPenalty q (Num c1).
Proof.
  intro H. unfold calculateJumpRiskPenalty.
  destruct (existsb _ JUMP_RISK_KEYWORDS); [split; reflexivity|].
  assert (Habs : forall c : Q,
             Js.abs (Num c ||| 0)%js = Num (Qabs (if Qeq_bool c 0 then 0 else c))).
  { intro c. unfold Js.or_else, Js.truthy, Js.abs.
    destruct (Qeq_bool c 0); reflexivity. }
  rewrite !Habs.
  assert (Hz : forall c : Q, Qabs (if Qeq_bool c 0 then 0 else c) == Qabs c).
  { intro c. destruct (Qeq_bool c 0) eqn:E; [|reflexivity].
    apply Qeq_bool_iff in E. rewrite E. reflexivity. }
  pose proof (Hz c1) as Hz1. pose proof (Hz c2) as Hz2.
  pose proof (Hz (- c1)) as Hz3. rewrite Qabs_opp in Hz3.
  set (a1 := Qabs (if Qeq_bool c1 0 then 0 else c1)) in *.
  set (a2 := Qabs (if Qeq_bool c2 0 then 0 else c2)) in *.
  set (a3 := Qabs (if Qeq_bool (- c1) 0 then 0 else - c1)) in *.
  unfold_js. split.
  - repeat (case_cmp; cbn [negb]); reflect_cmp;
      try reflexivity; exfalso; lra.
  - repeat (case_cmp; cbn [negb]); reflect_cmp;
      try reflexivity; exfalso; lra.
Qed.

Lemma X11_jump_risk_penalty_witness :
  (calculateJumpRiskPenalty Sample.rain (Num 0.25)
   <=? calculateJumpRiskPenalty Sample.rain (Num (- 0.15)))%js = true.
Proof.
  apply (X11_jump_risk_penalty_monotone Sample.rain (- 0.15) 0.25).
  discriminate.
Defined.

(* ================================================================== *)
(** * Spread and top of book *)
(* ================================================================== *)

Lemma length_zero_nil {A : Type} (l : list A) :
  (List.length l =? 0)%nat = true <-> l = [].
Proof.
  destruct l; simpl; split; try reflexivity; discriminate.
Qed.

(** X12. [calculateSpread] returns [null] exactly when a side of the book
    is empty.  Otherwise, on a book whose prices are numbers, the best bid
    it returns is the price of a bid level and no bid is higher, the best
    ask is the price of an ask level and no ask is lower, and the spread
    is best ask minus best bid (negative exactly for a crossed book). *)
Theorem X12_calculateSpread_best_prices (book : OrderBook) :
  (calculateSpread book = None <-> bids book = [] \/ asks book = [])
  /\ (Forall numericPrice (bids book) -> Forall numericPrice (asks book) ->
      forall sd, calculateSpread book = Some sd ->
        (exists b, In b (bids book) /\ price b = sd_bestBid sd)
        /\ (forall x, In x (bids book) ->
              (price x <=? sd_bestBid sd)%js = true)
        /\ (exists a, In a (asks book) /\ price a = sd_bestAsk sd)
        /\ (forall x, In x (asks book) ->
              (sd_bestAsk sd <=? price x)%js = true)
        /\ sd_spread sd = (sd_bestAsk sd - sd_bestBid sd)%js
        /\ ((sd_spread sd <? Num 0)%js = (sd_bestAsk sd <? sd_bestBid sd)%js)).
Proof.
  unfold calculateSpread. split.
  - destruct (bids book) as [|x xs] eqn:Eb; cbn [List.length Nat.eqb orb].
    { split; [left; reflexivity | reflexivity]. }
    destruct (asks book) as [|y ys] eqn:Ea; cbn [List.length Nat.eqb orb].
    { split; [right; reflexivity | reflexivity]. }
    unfold sortBids, sortAsks.
    destruct (sortBy_cons (fun a b => (price b - price a)%js) x xs)
      as (b0 & bs & ->).
    destruct (sortBy_cons (fun a b => (price a - price b)%js) y ys)
      as (a0 & ays & ->).
    cbv zeta. split; [discriminate | intros [H|H]; discriminate H].
  - intros Hnb Hna sd.
    destruct ((List.length (bids book) =? 0)%nat
              || (List.length (asks book) =? 0)%nat); [discriminate|].
    cbv zeta.
    destruct (sortBids (bids book)) as [|b0 bs] eqn:Eb; [discriminate|].
    destruct (sortAsks (asks book)) as [|a0 ays] eqn:Ea; [discriminate|].
    intro H. injection H as <-. cbn [sd_spread sd_bestBid sd_bestAsk].
    assert (Hb0 : In b0 (bids book)).
    { exact (sortBids_head_in _ _ _ Eb). }
    assert (Ha0 : In a0 (asks book)).
    { exact (sortAsks_head_in _ _ _ Ea). }
    split; [exists b0; split; [exact Hb0 | reflexivity]|].
    split; [exact (sortBids_head_max _ _ _ Hnb Eb)|].
    split; [exists a0; split; [exact Ha0 | reflexivity]|].
    split; [exact (sortAsks_head_min _ _ _ Hna Ea)|].
    split; [reflexivity|].
    destruct (proj1 (Forall_forall _ _) Hnb b0 Hb0) as [pb ->].
    destruct (proj1 (Forall_forall _ _) Hna a0 Ha0) as [pa ->].
    unfold_js.
    destruct (Js.Qltb (pa - pb) 0) eqn:E1, (Js.Qltb pa pb) eqn:E2;
      reflect_cmp; try reflexivity; exfalso; lra.
Qed.

Lemma X12_calculateSpread_witness :
  calculateSpread Sample.emptyBook = None
  /\ calculateSpread Sample.crossedBook
     = Some {| sd_spread := (Num 0.50 - Num 0.55)%js;
               sd_bestBid := Num 0.55; sd_bestAsk := Num 0.50 |}
  /\ forall x, In x (bids Sample.crossedBook) ->
               (price x <=? Num 0.55)%js = true.
Proof.
  split; [reflexivity|]. split; [reflexivity|].
  destruct (X12_calculateSpread_best_prices Sample.crossedBook) as [_ H].
  destruct (H ltac:(repeat constructor; eexists; reflexivity)
              ltac:(repeat constructor; eexists; reflexivity)
              _ eq_refl) as (_ & Hmax & _).
  exact Hmax.
Defined.

(** X13. The copies of the book analysis agree: for every book,
    [calculateSpread] of the client, the record of [getScalpingMarkets]
    and the top-of-book data of [getTopMarkets] give the same best bid,
    best ask and spread, and all three give none when a side of the book
    is empty. *)
Theorem X13_book_views_agree (log10Q : Q -> Q) (now : Q)
    (fetchBook : string -> option OrderBook) (m : Market) (tokenId : string)
    (rest : list string) (book : OrderBook) :
  clobTokenIds m = tokenId :: rest ->
  fetchBook tokenId = Some book ->
  let p := processMarket log10Q now fetchBook m in
  let t := topOfBook (Some book) in
  spread p = option_map sd_spread (calculateSpread book)
  /\ bestBid p = option_map sd_bestBid (calculateSpread book)
  /\ bestAsk p = option_map sd_bestAsk (calculateSpread book)
  /\ tb_spread t = spread p /\ tb_bestBid t = bestBid p
  /\ tb_bestAsk t = bestAsk p.
Proof.
  intros Hc Hf p t. subst p t.
  unfold processMarket, calculateSpread, topOfBook, scoreWithBook.
  rewrite Hc, Hf.
  destruct (bids book) as [|x xs] eqn:Eb; cbn [List.length Nat.eqb orb negb andb].
  { repeat split; reflexivity. }
  destruct (asks book) as [|y ys] eqn:Ea; cbn [List.length Nat.eqb orb negb andb].
  { repeat split; reflexivity. }
  unfold sortBids, sortAsks.
  destruct (sortBy_cons (fun a b => (price b - price a)%js) x xs)
    as (b0 & bs & ->).
  destruct (sortBy_cons (fun a b => (price a - price b)%js) y ys)
    as (a0 & ays & ->).
  repeat split; reflexivity.
Qed.

Lemma X13_book_views_witness :
  spread (processMarket log10_floor Sample.now
            (Sample.serve Sample.crossedBook) Sample.calm)
  = option_map sd_spread (calculateSpread Sample.crossedBook)
  /\ tb_bestBid (topOfBook (Some Sample.crossedBook)) = Some (Num 0.55).
Proof.
  destruct (X13_book_views_agree log10_floor Sample.now
              (Sample.serve Sample.crossedBook) Sample.calm
              "7132" [] Sample.crossedBook eq_refl eq_refl)
    as (H & _).
  split; [exact H | reflexivity].
Defined.

Lemma toFixedValue_range_100 (x : Q) :
  0 <= x <= 100 ->
  exists s, Js.toFixedValue 2 (Num x) = Num s /\ 0 <= s <= 100.
Proof.
  intros [H0 H1]. unfold Js.toFixedValue.
  assert (Ea : Qabs x == x) by (apply Qabs_pos; exact H0).
  assert (Ebig : Qle_bool (inject_Z (10 ^ 21)) (Qabs x) = false).
  { apply Qleb_gt. rewrite Ea.
    apply Qle_lt_trans with (y := 100); [exact H1 | reflexivity]. }
  assert (Eneg : Js.Qltb x 0 = false) by (apply Qltb_ge; exact H0).
  rewrite Ebig, Eneg. eexists. split; [reflexivity|].
  rewrite Qred_correct. unfold Js.fixedDigits.
  change (Pos.of_nat (10 ^ 2)) with 100%positive.
  change (inject_Z (10 ^ Z.of_nat 2)) with 100.
  set (n := Qfloor (Qabs x * 100 + (1 # 2))).
  assert (Hlo : (0 <= n)%Z).
  { change 0%Z with (Qfloor (1 # 2)). apply Qfloor_resp_le.
    rewrite Ea. lra. }
  assert (Hhi : (n <= 10000)%Z).
  { change 10000%Z with (Qfloor (100 * 100 + (1 # 2))).
    apply Qfloor_resp_le. rewrite Ea. lra. }
  unfold Qle. simpl. lia.
Qed.

Lemma Qdiv_nonneg (x y : Q) : 0 <= x -> 0 < y -> 0 <= x / y.
Proof.
  intros Hx Hy. apply Qle_shift_div_l; [exact Hy | lra].
Qed.

(** X14. The fill likelihood score is a number in [0, 100] whenever the
    24-hour volume is a number that is not negative, the two best-price
    depths are numbers that are not negative and the spread, if there is
    one, is above -1; this holds for every decimal logarithm, since the
    score is clamped. *)
Theorem X14_fill_score_range (log10Q : Q -> Q) (v bd ad : Q)
    (tob : TopOfBook) :
  0 <= v ->
  bestBidDepth tob = Num bd -> 0 <= bd ->
  bestAskDepth tob = Num ad -> 0 <= ad ->
  (forall s : Q, tb_spread tob = Some (Num s) -> - (1) < s) ->
  exists f, fillScoreOf log10Q (Num v) tob = Num f /\ 0 <= f <= 100.
Proof.
  intros Hv Ebd Hbd Ead Had Hsp.
  assert (Hs : exists sp, match tb_spread tob with
                          | None => Num 0.1
                          | Some s => (s ||| 0.1)%js
                          end = Num sp /\ - (1) < sp).
  { destruct (tb_spread tob) as [[|s]|] eqn:E.
    - exists 0.1. split; reflexivity.
    - unfold Js.or_else, Js.truthy. destruct (Qeq_bool s 0).
      + exists 0.1. split; reflexivity.
      + exists s. split; [reflexivity | apply Hsp; reflexivity].
    - exists 0.1. split; reflexivity. }
  destruct Hs as (sp & Esp & Hsp').
  unfold fillScoreOf. rewrite Ebd, Ead, Esp. unfold_js.
  change (Qeq_bool 2 0) with false. change (Qeq_bool 24 0) with false.
  cbv iota.
  assert (Havg : 0 <= (bd + ad) / 2) by (apply Qdiv_nonneg; [lra | reflexivity]).
  set (avg := (bd + ad) / 2) in *.
  assert (E1 : Qeq_bool (avg + 1) 0 = false) by (apply Qeqb_neq; lra).
  assert (E2 : Qeq_bool (1 + sp) 0 = false) by (apply Qeqb_neq; lra).
  rewrite E1, E2.
  assert (Hh : 0 <= v / 24) by (apply Qdiv_nonneg; [lra | reflexivity]).
  assert (Hr1 : 0 <= v / 24 / (avg + 1)) by (apply Qdiv_nonneg; lra).
  assert (Hr2 : 0 <= 1 / (1 + sp)) by (apply Qdiv_nonneg; lra).
  set (r1 := v / 24 / (avg + 1)) in *. set (r2 := 1 / (1 + sp)) in *.
  assert (Hraw : 0 <= r1 * r2) by (apply Qmult_le_0_compat; assumption).
  unfold log10.
  assert (Hpos : Js.Qltb 0 (r1 * r2 + 1) = true) by (apply Qltb_lt; lra).
  rewrite Hpos. unfold_js.
  apply toFixedValue_range_100.
  set (L := log10Q (r1 * r2 + 1) * 50).
  repeat (case_cmp; reflect_cmp); lra.
Qed.

(** The depth at the best price and the depth within one tick, on a side
    whose sizes are not negative. *)
Lemma best_depth_within_band (m : Market) (side : Side)
    (sortedBids sortedAsks : list Level) (pb : Q) :
  Forall nonnegSize sortedBids -> Forall nonnegSize sortedAsks ->
  tickValid m ->
  exists d0 d1,
    fold_left (fun acc b => (acc + size b)%js)
      (filter (fun b => (price b === Num pb)%js)
         match side with Bids => sortedBids | Asks => sortedAsks end)
      (Num 0) = Num d0
    /\ getDepth m sortedBids sortedAsks (Num 1) side (Num pb) = Num d1
    /\ 0 <= d0 <= d1.
Proof.
  intros Hb Ha Ht.
  assert (Htick : exists t, (orderPriceMinTickSize m ||| 0.01)%js = Num t
                            /\ 0 <= t).
  { unfold tickValid in Ht. unfold Js.or_else, Js.truthy.
    destruct (orderPriceMinTickSize m) as [|t].
    - exists 0.01. split; [reflexivity | discriminate].
    - destruct (Qeq_bool t 0); simpl.
      + exists 0.01. split; [reflexivity | discriminate].
      + exists t. split; [reflexivity | exact Ht]. }
  destruct Htick as (t & Et & Ht0).
  unfold getDepth. rewrite Et. destruct side.
  - destruct (depth_sum_mono
                (fun b => (price b === Num pb)%js)
                (fun item => (price item >=? Num pb - Num 1 * Num t)%js)
                sortedBids) with (a1 := 0) (a2 := 0)
      as (s1 & s2 & E1 & E2 & H0 & Hs);
      [|exact Hb | apply Qle_refl | exists s1, s2; repeat split; assumption].
    intros x. destruct (price x) as [|px]; [discriminate|].
    unfold_js. intro H. reflect_cmp. apply Qle_bool_iff. lra.
  - destruct (depth_sum_mono
                (fun b => (price b === Num pb)%js)
                (fun item => (price item <=? Num pb + Num 1 * Num t)%js)
                sortedAsks) with (a1 := 0) (a2 := 0)
      as (s1 & s2 & E1 & E2 & H0 & Hs);
      [|exact Ha | apply Qle_refl | exists s1, s2; repeat split; assumption].
    intros x. destruct (price x) as [|px]; [discriminate|].
    unfold_js. intro H. reflect_cmp. apply Qle_bool_iff. lra.
Qed.

(** X15. The two pipelines measure the top of one book consistently: on a
    book whose sizes are not negative and whose prices are numbers, for a
    tick size that is not negative, the depth at the best price that
    [getTopMarkets] computes is a number between 0 and the depth within
    one tick that [getScalpingMarkets] reports, on each side. *)
Theorem X15_best_depth_at_most_one_tick_depth (log10Q : Q -> Q) (now : Q)
    (fetchBook : string -> option OrderBook) (m : Market) (book : OrderBook) :
  bookOf fetchBook m = Some book ->
  Forall nonnegSize (bids book) -> Forall nonnegSize (asks book) ->
  Forall numericPrice (bids book) -> Forall numericPrice (asks book) ->
  tickValid m ->
  let t := topOfBook (Some book) in
  let d := details (processMarket log10Q now fetchBook m) in
  exists tb ta b1 a1 : Q,
    bestBidDepth t = Num tb /\ bidDepth1 d = Num b1 /\ 0 <= tb <= b1
    /\ bestAskDepth t = Num ta /\ askDepth1 d = Num a1 /\ 0 <= ta <= a1.
Proof.
  intros Hbook Hb Ha Hnb Hna Ht t d. subst t d.
  destruct (sorted_sides_nonneg book Hb Ha) as [Hsb Hsa].
  destruct (processMarket_cases log10Q now fetchBook m)
    as [[E _] | (book' & b0 & bs & a0 & ays & E & Eb & Ea & ->)];
    rewrite Hbook in E; [discriminate|]. injection E as <-.
  assert (Hb0 : In b0 (bids book)).
  { exact (sortBids_head_in _ _ _ Eb). }
  assert (Ha0 : In a0 (asks book)).
  { exact (sortAsks_head_in _ _ _ Ea). }
  destruct (proj1 (Forall_forall _ _) Hnb b0 Hb0) as [pb Epb].
  destruct (proj1 (Forall_forall _ _) Hna a0 Ha0) as [pa Epa].
  unfold topOfBook, scoreWithBook.
  assert (Hlen : negb (List.length (bids book) =? 0)%nat
                 && negb (List.length (asks book) =? 0)%nat = true).
  { destruct (bids book); [destruct Hb0|].
    destruct (asks book); [destruct Ha0|]. reflexivity. }
  rewrite Hlen, Eb, Ea in *. cbv zeta.
  cbn [bestBidDepth bestAskDepth details bidDepth1 askDepth1].
  rewrite Epb, Epa.
  destruct (best_depth_within_band m Bids _ _ pb Hsb Hsa Ht)
    as (tb & b1 & Etb & Eb1 & Hbd).
  destruct (best_depth_within_band m Asks _ _ pa Hsb Hsa Ht)
    as (ta & a1 & Eta & Ea1 & Had).
  exists tb, ta, b1, a1.
  split; [exact Etb|]. split; [exact Eb1|]. split; [exact Hbd|].
  split; [exact Eta|]. split; [exact Ea1|]. exact Had.
Qed.

Lemma X15_best_depth_witness :
  bestBidDepth (topOfBook (Some Sample.book)) = Num 1000
  /\ exists tb ta b1 a1 : Q,
       bestBidDepth (topOfBook (Some Sample.book)) = Num tb
       /\ bidDepth1 (details (processMarket log10_floor Sample.now
                                (Sample.serve Sample.book) Sample.calm))
          = Num b1
       /\ 0 <= tb <= b1
       /\ bestAskDepth (topOfBook (Some Sample.book)) = Num ta
       /\ askDepth1 (details (processMarket log10_floor Sample.now
                                (Sample.serve Sample.book) Sample.calm))
          = Num a1
       /\ 0 <= ta <= a1.
Proof.
  split; [reflexivity|].
  apply (X15_best_depth_at_most_one_tick_depth log10_floor Sample.now
           (Sample.serve Sample.book) Sample.calm Sample.book).
  - reflexivity.
  - repeat constructor; discriminate.
  - repeat constructor; discriminate.
  - repeat constructor; eexists; reflexivity.
  - repeat constructor; eexists; reflexivity.
  - discriminate.
Defined.

Lemma X14_fill_score_witness :
  exists f,
    fillScoreOf log10_floor (Num 100000) (topOfBook (Some Sample.book)) = Num f
    /\ 0 <= f <= 100.
Proof.
  apply (X14_fill_score_range log10_floor 100000 1000 1000).
  - discriminate.
  - reflexivity.
  - discriminate.
  - reflexivity.
  - discriminate.
  - intros s H. vm_compute in H. injection H as <-. reflexivity.
Defined.

(* ================================================================== *)
(** * Correctness of the pattern matcher *)
(* ================================================================== *)

Open Scope string_scope.

Lemma append_nil_r (s : string) : s ++ "" = s.
Proof. induction s as [|c s IH]; simpl; [reflexivity | rewrite IH; reflexivity]. Qed.

Lemma append_assoc (s t u : string) : (s ++ t) ++ u = s ++ (t ++ u).
Proof. induction s as [|c s IH]; simpl; [reflexivity | rewrite IH; reflexivity]. Qed.

Lemma append_eq_nil (u v : string) : u ++ v = "" -> u = "" /\ v = "".
Proof. destruct u; simpl; [auto | discriminate]. Qed.

Lemma append_eq_cons (u v w : string) (c : ascii) :
  u ++ v = String c w ->
  (u = "" /\ v = String c w) \/ (exists u', u = String c u' /\ w = u' ++ v).
Proof.
  destruct u as [|d u]; simpl; intro H.
  - left. auto.
  - right. injection H as -> <-. eauto.
Qed.

Lemma Matches_Void (w : string) : ~ Matches Regex.Void w.
Proof. intro H. inversion H. Qed.

Lemma nullable_correct (r : Regex.t) :
  Regex.nullable r = true <-> Matches r "".
Proof.
  split.
  - induction r; simpl; intro H; try discriminate.
    + constructor.
    + apply andb_true_iff in H. destruct H as [H1 H2].
      change "" with ("" ++ ""). constructor; auto.
    + apply orb_true_iff in H. destruct H as [H|H];
        [apply MAltL | apply MAltR]; auto.
    + constructor.
  - intro H. remember "" as w eqn:Ew.
    induction H; simpl; try reflexivity; try discriminate.
    + apply append_eq_nil in Ew. destruct Ew as [-> ->].
      rewrite IHMatches1, IHMatches2; reflexivity.
    + rewrite IHMatches; [reflexivity | assumption].
    + rewrite IHMatches; [apply orb_true_r | assumption].
Qed.

Lemma seq_correct (r s : Regex.t) (w : string) :
  Matches (Regex.seq r s) w <-> Matches (Regex.Seq r s) w.
Proof.
  assert (HV1 : forall s' w', Matches (Regex.Seq Regex.Void s') w' -> False).
  { intros s' w' H. inversion H; subst.
    match goal with K : Matches Regex.Void _ |- _ => inversion K end. }
  assert (HV2 : forall r' w', Matches (Regex.Seq r' Regex.Void) w' -> False).
  { intros r' w' H. inversion H; subst.
    match goal with K : Matches Regex.Void _ |- _ => inversion K end. }
  assert (HE : forall s' w', Matches s' w' <-> Matches (Regex.Seq Regex.Eps s') w').
  { intros s' w'. split; intro H.
    - change w' with ("" ++ w'). constructor; [constructor | exact H].
    - inversion H; subst.
      match goal with K : Matches Regex.Eps _ |- _ => inversion K; subst end.
      assumption. }
  destruct r; destruct s; simpl; try tauto;
    try (split; intro H; exfalso;
         solve [ apply (Matches_Void _ H) | apply (HV1 _ _ H)
               | apply (HV2 _ _ H) ]);
    try apply HE.
Qed.

Lemma alt_correct (r s : Regex.t) (w : string) :
  Matches (Regex.alt r s) w <-> Matches (Regex.Alt r s) w.
Proof.
  assert (HL : forall s' w', Matches s' w' <-> Matches (Regex.Alt Regex.Void s') w').
  { intros s' w'. split; intro H; [apply MAltR; exact H|].
    inversion H; subst; [|assumption].
    match goal with K : Matches Regex.Void _ |- _ => inversion K end. }
  assert (HR : forall r' w', Matches r' w' <-> Matches (Regex.Alt r' Regex.Void) w').
  { intros r' w'. split; intro H; [apply MAltL; exact H|].
    inversion H; subst; [assumption|].
    match goal with K : Matches Regex.Void _ |- _ => inversion K end. }
  destruct r; destruct s; simpl; try tauto; try apply HL; try apply HR.
Qed.

Lemma star_cons (r : Regex.t) (c : ascii) (w : string) :
  Matches (Regex.Star r) (String c w) ->
  exists u v, w = u ++ v /\ Matches r (String c u) /\ Matches (Regex.Star r) v.
Proof.
  intro H. remember (Regex.Star r) as sr eqn:Er.
  remember (String c w) as cw eqn:Ew.
  revert w Ew.
  induction H; intros w Ew; try discriminate.
  injection Er as ->.
  apply append_eq_cons in Ew. destruct Ew as [[-> ->]|(u' & -> & ->)].
  - apply IHMatches2; reflexivity.
  - exists u', v. auto.
Qed.

Lemma deriv_correct (r : Regex.t) (c : ascii) (w : string) :
  Matches (Regex.deriv c r) w <-> Matches r (String c w).
Proof.
  revert w. induction r as [| |p|r IHr s IHs|r IHr s IHs|r IHr]; intro w; simpl.
  - split; intro H; inversion H.
  - split; intro H; inversion H.
  - destruct (p c) eqn:E; split; intro H.
    + inversion H; subst. constructor. exact E.
    + inversion H; subst. constructor.
    + inversion H.
    + inversion H; subst. congruence.
  - assert (Hs1 : forall w', Matches (Regex.seq (Regex.deriv c r) s) w'
                             -> Matches (Regex.Seq r s) (String c w')).
    { intros w' H. apply seq_correct in H. inversion H; subst.
      change (String c (u ++ v)) with (String c u ++ v).
      constructor; [apply IHr|]; assumption. }
    assert (Hs2 : forall u v, Matches r (String c u) -> Matches s v ->
                              Matches (Regex.seq (Regex.deriv c r) s) (u ++ v)).
    { intros u v H1 H2. apply seq_correct. constructor; [apply IHr|]; assumption. }
    destruct (Regex.nullable r) eqn:En.
    + rewrite alt_correct. split; intro H.
      * inversion H; subst; [apply Hs1; assumption|].
        change (String c w) with ("" ++ String c w).
        constructor; [apply nullable_correct; exact En | apply IHs; assumption].
      * inversion H; subst.
        match goal with K : _ ++ _ = String c w |- _ =>
          apply append_eq_cons in K; destruct K as [[-> ->]|(u' & -> & ->)] end.
        -- apply MAltR. apply IHs. assumption.
        -- apply MAltL. apply Hs2; assumption.
    + split; intro H.
      * apply Hs1; assumption.
      * inversion H; subst.
        match goal with K : _ ++ _ = String c w |- _ =>
          apply append_eq_cons in K; destruct K as [[-> ->]|(u' & -> & ->)] end.
        -- match goal with K : Matches r "" |- _ =>
             apply nullable_correct in K; congruence end.
        -- apply Hs2; assumption.
  - rewrite alt_correct. split; intro H; inversion H; subst.
    + apply MAltL, IHr. assumption.
    + apply MAltR, IHs. assumption.
    + apply MAltL, IHr. assumption.
    + apply MAltR, IHs. assumption.
  - rewrite seq_correct. split; intro H.
    + inversion H; subst.
      change (String c (u ++ v)) with (String c u ++ v).
      constructor; [apply IHr|]; assumption.
    + apply star_cons in H. destruct H as (u & v & -> & H1 & H2).
      constructor; [apply IHr|]; assumption.
Qed.

Lemma matchesPrefix_correct (r : Regex.t) (s : string) :
  Regex.matchesPrefix r s = true
  <-> exists b c, s = b ++ c /\ Matches r b.
Proof.
  revert r. induction s as [|d s IH]; intro r; simpl.
  - rewrite orb_false_r, nullable_correct. split.
    + intro H. exists "", "". auto.
    + intros (b & c & E & H). symmetry in E. apply append_eq_nil in E.
      destruct E as [-> _]. exact H.
  - rewrite orb_true_iff, nullable_correct, IH. split.
    + intros [H|(b & c & -> & H)].
      * exists "", (String d s). auto.
      * exists (String d b), c. split; [reflexivity|].
        apply deriv_correct. exact H.
    + intros (b & c & E & H). destruct b as [|d' b].
      * left. exact H.
      * simpl in E. injection E as <- ->. right.
        exists b, c. split; [reflexivity|]. apply deriv_correct. exact H.
Qed.

(** [Regex.test] finds exactly the strings with an occurrence of a match. *)
Lemma test_correct (r : Regex.t) (s : string) :
  Regex.test r s = true
  <-> exists a b c, s = a ++ b ++ c /\ Matches r b.
Proof.
  induction s as [|d s IH]; cbn [Regex.test].
  - rewrite orb_false_r, matchesPrefix_correct. split.
    + intros (b & c & E & H). exists "", b, c. auto.
    + intros (a & b & c & E & H). symmetry in E.
      apply append_eq_nil in E. destruct E as [-> E]. eauto.
  - rewrite orb_true_iff, matchesPrefix_correct, IH. split.
    + intros [(b & c & E & H)|(a & b & c & -> & H)].
      * exists "", b, c. auto.
      * exists (String d a), b, c. auto.
    + intros (a & b & c & E & H). destruct a as [|d' a].
      * left. exists b, c. auto.
      * simpl in E. injection E as <- ->. right. eauto.
Qed.

Lemma lit_correct (w b : string) : Matches (Regex.lit w) b <-> b = w.
Proof.
  revert b. induction w as [|c w IH]; intro b; simpl.
  - split; intro H; [inversion H; reflexivity | subst; constructor].
  - split; intro H.
    + inversion H; subst.
      match goal with K : Matches (Regex.Chr _) _ |- _ => inversion K; subst end.
      match goal with K : Ascii.eqb _ _ = true |- _ =>
        apply Ascii.eqb_eq in K; subst end.
      simpl. f_equal. apply IH. assumption.
    + subst. change (String c w) with (String c "" ++ w).
      constructor; [constructor; apply Ascii.eqb_refl | apply IH; reflexivity].
Qed.

Lemma prefix_append (w s : string) :
  String.prefix w s = true <-> exists c, s = w ++ c.
Proof.
  revert s. induction w as [|d w IH]; intro s; simpl.
  - split; [intros _; exists s; reflexivity | intros _; destruct s; reflexivity].
  - destruct s as [|e s]; [split; [discriminate | intros [c H]; discriminate H]|].
    simpl. destruct (ascii_dec d e) as [->|Hne].
    + rewrite IH. split; intros [c H]; exists c; [rewrite H; reflexivity|].
      injection H as ->. reflexivity.
    + split; [discriminate|]. intros [c H]. injection H as <- _. congruence.
Qed.

(** [includes] is the occurrence of the keyword. *)
Lemma includes_correct (s w : string) :
  includes s w = true <-> occursIn w s.
Proof.
  unfold occursIn. induction s as [|d s IH]; cbn [includes].
  - rewrite orb_false_r, prefix_append. split.
    + intros [c H]. exists "", c. exact H.
    + intros (a & c & H). symmetry in H. apply append_eq_nil in H.
      destruct H as [-> H]. exists c. symmetry. exact H.
  - rewrite orb_true_iff, prefix_append, IH. split.
    + intros [[c H]|(a & c & ->)].
      * exists "", c. exact H.
      * exists (String d a), c. reflexivity.
    + intros (a & c & H). destruct a as [|d' a].
      * left. exists c. exact H.
      * simpl in H. injection H as <- ->. right. eauto.
Qed.

Lemma test_lit (w s : string) :
  Regex.test (Regex.lit w) s = true <-> occursIn w s.
Proof.
  rewrite test_correct. unfold occursIn. split.
  - intros (a & b & c & -> & H). apply lit_correct in H. subst. eauto.
  - intros (a & c & ->). exists a, w, c. split; [reflexivity|].
    apply lit_correct. reflexivity.
Qed.

Close Scope string_scope.

(* ================================================================== *)
(** * The phrases of [calculateEventResolutionPenalty] *)
(* ================================================================== *)

Open Scope string_scope.

Lemma Matches_Seq (r s : Regex.t) (w : string) :
  Matches (Regex.Seq r s) w
  <-> exists u v, w = u ++ v /\ Matches r u /\ Matches s v.
Proof.
  split.
  - intro H. inversion H; subst. eauto.
  - intros (u & v & -> & H1 & H2). constructor; assumption.
Qed.

Lemma Matches_Alt (r s : Regex.t) (w : string) :
  Matches (Regex.Alt r s) w <-> Matches r w \/ Matches s w.
Proof.
  split.
  - intro H. inversion H; subst; auto.
  - intros [H|H]; [apply MAltL | apply MAltR]; assumption.
Qed.

Lemma Matches_Eps (w : string) : Matches Regex.Eps w <-> w = "".
Proof.
  split; intro H; [inversion H; reflexivity | subst; constructor].
Qed.

Lemma Matches_Chr (p : ascii -> bool) (w : string) :
  Matches (Regex.Chr p) w <-> exists c, w = String c "" /\ p c = true.
Proof.
  split.
  - intro H. inversion H; subst. eauto.
  - intros (c & -> & H). constructor. exact H.
Qed.

Lemma Matches_lit_Seq (a : string) (r : Regex.t) (w : string) :
  Matches (Regex.Seq (Regex.lit a) r) w
  <-> exists v, w = a ++ v /\ Matches r v.
Proof.
  rewrite Matches_Seq. split.
  - intros (u & v & -> & H1 & H2). apply lit_correct in H1. subst. eauto.
  - intros (v & -> & H). exists a, v. split; [reflexivity|].
    split; [apply lit_correct; reflexivity | exact H].
Qed.

Lemma Matches_oneOf (l : list string) (w : string) :
  Matches (Regex.oneOf l) w <-> In w l.
Proof.
  induction l as [|s l IH].
  - simpl. split; [apply Matches_Void | tauto].
  - destruct l as [|s' l].
    + simpl. rewrite lit_correct. split; [auto | intros [H|[]]; auto].
    + change (Regex.oneOf (s :: s' :: l))
        with (Regex.Alt (Regex.lit s) (Regex.oneOf (s' :: l))).
      rewrite Matches_Alt, IH, lit_correct.
      split; (intros [H|H]; [left | right]); auto.
Qed.

Lemma Matches_Star_Chr (p : ascii -> bool) (w : string) :
  Matches (Regex.Star (Regex.Chr p)) w <-> allChars p w.
Proof.
  induction w as [|c w IH].
  - split; [intros _; exact I | intros _; constructor].
  - simpl. rewrite <- IH. split.
    + intro H. apply star_cons in H. destruct H as (u & v & -> & H1 & H2).
      inversion H1; subst. simpl. auto.
    + intros [Hc H]. change (String c w) with (String c "" ++ w).
      constructor; [constructor; exact Hc | exact H].
Qed.

Lemma Matches_plus_Chr (p : ascii -> bool) (w : string) :
  Matches (Regex.plus (Regex.Chr p)) w <-> w <> "" /\ allChars p w.
Proof.
  unfold Regex.plus. rewrite Matches_Seq. split.
  - intros (u & v & -> & H1 & H2). apply Matches_Chr in H1.
    destruct H1 as (c & -> & Hc). apply Matches_Star_Chr in H2.
    simpl. split; [discriminate | auto].
  - intros [Hne H]. destruct w as [|c w]; [congruence|].
    destruct H as [Hc H]. exists (String c ""), w.
    split; [reflexivity|].
    split; [constructor; exact Hc | apply Matches_Star_Chr; exact H].
Qed.

Lemma Matches_digit (w : string) :
  Matches Regex.digit w <-> numeral 1 1 w.
Proof.
  unfold Regex.digit. rewrite Matches_Chr. unfold numeral. split.
  - intros (c & -> & H). simpl. split; [split; [exact H | exact I] | lia].
  - intros [H Hl]. destruct w as [|c [|d w]]; simpl in Hl; try lia.
    exists c. split; [reflexivity | apply H].
Qed.

Lemma numeral_append (a b c d : nat) (u v : string) :
  numeral a b u -> numeral c d v -> numeral (a + c) (b + d) (u ++ v).
Proof.
  unfold numeral. intros [Hu Lu] [Hv Lv]. split.
  - clear Lu. induction u as [|e u IH]; simpl in *; [exact Hv|].
    destruct Hu as [He Hu]. auto.
  - assert (E : String.length (u ++ v)
                = (String.length u + String.length v)%nat).
    { clear. induction u as [|e u IH]; simpl; [reflexivity|].
      rewrite IH. reflexivity. }
    rewrite E. lia.
Qed.

Lemma numeral_split (n hi : nat) (w : string) :
  numeral (S n) (S hi) w ->
  exists u v, w = u ++ v /\ numeral 1 1 u /\ numeral n hi v.
Proof.
  unfold numeral. intros [H L]. destruct w as [|c w]; simpl in L; [lia|].
  destruct H as [Hc H]. exists (String c ""), w. simpl.
  repeat split; auto; lia.
Qed.

Lemma numeral_zero (w : string) : numeral 0 0 w <-> w = "".
Proof.
  unfold numeral. split.
  - intros [_ L]. destruct w; simpl in L; [reflexivity | lia].
  - intros ->. simpl. split; [exact I | lia].
Qed.

Lemma Matches_digit12 (w : string) :
  Matches Regex.digit12 w <-> numeral 1 2 w.
Proof.
  unfold Regex.digit12. rewrite Matches_Seq. split.
  - intros (u & v & -> & H1 & H2). apply Matches_digit in H1.
    apply Matches_Alt in H2. destruct H2 as [H2|H2].
    + apply Matches_Eps in H2. subst. rewrite append_nil_r.
      destruct H1 as [H1 L]. split; [exact H1 | lia].
    + apply Matches_digit in H2.
      destruct (numeral_append _ _ _ _ _ _ H1 H2) as [H L].
      split; [exact H | simpl in L; lia].
  - intro H. destruct H as [H L].
    destruct w as [|c [|d [|e w]]]; simpl in L; try lia.
    + exists (String c ""), "". split; [reflexivity|]. split.
      * apply Matches_digit. split; [exact H | simpl; lia].
      * apply MAltL. constructor.
    + exists (String c ""), (String d ""). split; [reflexivity|].
      simpl in H. destruct H as (Hc & Hd & _). split.
      * apply Matches_digit. split; simpl; [auto | lia].
      * apply MAltR. apply Matches_digit. split; simpl; [auto | lia].
Qed.

Lemma Matches_digit4 (w : string) :
  Matches Regex.digit4 w <-> numeral 4 4 w.
Proof.
  unfold Regex.digit4. split.
  - intro H.
    apply Matches_Seq in H. destruct H as (u1 & v1 & -> & H1 & H).
    apply Matches_Seq in H. destruct H as (u2 & v2 & -> & H2 & H).
    apply Matches_Seq in H. destruct H as (u3 & v3 & -> & H3 & H4).
    apply Matches_digit in H1, H2, H3, H4.
    apply (numeral_append 1 1 3 3); [exact H1|].
    apply (numeral_append 1 1 2 2); [exact H2|].
    apply (numeral_append 1 1 1 1); assumption.
  - intro H.
    apply numeral_split in H. destruct H as (u1 & v1 & -> & H1 & H).
    apply numeral_split in H. destruct H as (u2 & v2 & -> & H2 & H).
    apply numeral_split in H. destruct H as (u3 & v3 & -> & H3 & H4).
    apply numeral_split in H4. destruct H4 as (u4 & v4 & -> & H4 & H5).
    apply numeral_zero in H5. subst. rewrite append_nil_r.
    repeat (constructor; [apply Matches_digit; assumption|]).
    apply Matches_digit; assumption.
Qed.

(** The language of the countdown patterns. *)
Lemma countdown_language (w : string) :
  (exists p, In p countdownPatterns /\ Matches p w) <-> deadlinePhrase w.
Proof.
  unfold deadlinePhrase, monthDeadline, countdownPatterns. split.
  - intros (p & Hin & H). cbn [In] in Hin.
    destruct Hin as [<-|[<-|[<-|[<-|[<-|[<-|[<-|[]]]]]]]].
    + apply Matches_lit_Seq in H. destruct H as (v & -> & H).
      apply Matches_oneOf in H. left. eauto.
    + apply Matches_lit_Seq in H. destruct H as (v & -> & H).
      apply Matches_oneOf in H. left. eauto.
    + apply lit_correct in H. auto.
    + apply lit_correct in H. auto.
    + apply Matches_lit_Seq in H. destruct H as (v & -> & H).
      apply Matches_Seq in H. destruct H as (d & v' & -> & Hd & H).
      apply Matches_lit_Seq in H. destruct H as (n & -> & Hn).
      apply Matches_digit12 in Hd, Hn.
      right; right; right; left. exists d, n. auto.
    + apply Matches_lit_Seq in H. destruct H as (v & -> & H).
      apply Matches_digit4 in H. right; right; right; right. eauto.
    + apply Matches_lit_Seq in H. destruct H as (v & -> & H).
      apply Matches_digit4 in H. right; right; right; right. eauto.
  - intros [(mo & Hmo & [->| ->])|[->|[->|[(d & n & Hd & Hn & ->)
                                          |(y & Hy & [->| ->])]]]].
    + eexists. split; [left; reflexivity|].
      apply Matches_lit_Seq. exists mo. split; [reflexivity|].
      apply Matches_oneOf. exact Hmo.
    + eexists. split; [right; left; reflexivity|].
      apply Matches_lit_Seq. exists mo. split; [reflexivity|].
      apply Matches_oneOf. exact Hmo.
    + eexists. split; [do 2 right; left; reflexivity|].
      apply lit_correct. reflexivity.
    + eexists. split; [do 3 right; left; reflexivity|].
      apply lit_correct. reflexivity.
    + eexists. split; [do 4 right; left; reflexivity|].
      apply Matches_lit_Seq. eexists. split; [reflexivity|].
      apply Matches_Seq. exists d, ("/" ++ n). split; [reflexivity|].
      split; [apply Matches_digit12; exact Hd|].
      apply Matches_lit_Seq. exists n. split; [reflexivity|].
      apply Matches_digit12; exact Hn.
    + eexists. split; [do 5 right; left; reflexivity|].
      apply Matches_lit_Seq. exists y. split; [reflexivity|].
      apply Matches_digit4; exact Hy.
    + eexists. split; [do 6 right; left; reflexivity|].
      apply Matches_lit_Seq. exists y. split; [reflexivity|].
      apply Matches_digit4; exact Hy.
Qed.

(** The language of the single-event patterns. *)
Lemma singleEvent_language (w : string) :
  (exists p, In p singleEventPatterns /\ Matches p w) <-> singleEventPhrase w.
Proof.
  unfold singleEventPhrase.
  change singleEventPatterns with (map willPattern eventWords).
  assert (Hw : forall word,
             Matches (willPattern word) w
             <-> exists x, x <> "" /\ allChars notLineBreak x
                           /\ w = "will " ++ x ++ " " ++ word).
  { intro word. unfold willPattern. rewrite Matches_lit_Seq. split.
    - intros (v & -> & H). apply Matches_Seq in H.
      destruct H as (x & t & -> & Hx & Ht).
      apply Matches_plus_Chr in Hx. apply lit_correct in Ht. subst.
      exists x. tauto.
    - intros (x & Hne & Hx & ->). eexists. split; [reflexivity|].
      apply Matches_Seq. exists x, (" " ++ word). split; [reflexivity|].
      split; [apply Matches_plus_Chr; auto | apply lit_correct; reflexivity]. }
  split.
  - intros (p & Hin & H). apply in_map_iff in Hin.
    destruct Hin as (word & <- & Hin). apply Hw in H.
    destruct H as (x & Hne & Hx & ->). exists x, word. auto.
  - intros (x & word & Hin & Hne & Hx & ->).
    exists (willPattern word). split; [apply in_map; exact Hin|].
    apply Hw. exists x. auto.
Qed.

Lemma existsb_test (ps : list Regex.t) (s : string) :
  existsb (fun p => Regex.test p s) ps = true
  <-> exists w, (exists p, In p ps /\ Matches p w) /\ occursIn w s.
Proof.
  rewrite existsb_exists. unfold occursIn. split.
  - intros (p & Hin & H). apply test_correct in H.
    destruct H as (a & b & c & -> & H). exists b.
    split; [exists p; auto | exists a, c; reflexivity].
  - intros (w & (p & Hin & H) & (a & c & ->)). exists p.
    split; [exact Hin|]. apply test_correct. exists a, w, c. auto.
Qed.

Lemma hasCountdown_correct (s : string) :
  existsb (fun p => Regex.test p s) countdownPatterns = true
  <-> exists w, deadlinePhrase w /\ occursIn w s.
Proof.
  rewrite existsb_test. split; intros (w & H & Ho); exists w;
    (split; [apply countdown_language; exact H | exact Ho]).
Qed.

Lemma isSingleEvent_correct (s : string) :
  existsb (fun p => Regex.test p s) singleEventPatterns = true
  <-> exists w, singleEventPhrase w /\ occursIn w s.
Proof.
  rewrite existsb_test. split; intros (w & H & Ho); exists w;
    (split; [apply singleEvent_language; exact H | exact Ho]).
Qed.

Close Scope string_scope.

(** X16.  [calculateEventResolutionPenalty] by phrases: the penalty is
    0.3 exactly when the lower-cased question contains a deadline phrase
    ("by"/"before" a month name or four digits, "by end of", "by
    midnight", "by" d/d with one or two digits each); it is 0.5 exactly
    when it contains no deadline phrase but "will", one or more characters
    other than line breaks, a space and one of the ten event words; and
    1.0 exactly when it contains neither. *)
Theorem X16_event_penalty_by_phrase (q : string) :
  let deadline :=
    exists w, deadlinePhrase w /\ occursIn w (toLowerCase q) in
  let single :=
    exists w, singleEventPhrase w /\ occursIn w (toLowerCase q) in
  (calculateEventResolutionPenalty q = Num 0.3 <-> deadline)
  /\ (calculateEventResolutionPenalty q = Num 0.5 <-> ~ deadline /\ single)
  /\ (calculateEventResolutionPenalty q = Num 1.0 <-> ~ deadline /\ ~ single).
Proof.
  cbv zeta. rewrite <- hasCountdown_correct, <- isSingleEvent_correct.
  unfold calculateEventResolutionPenalty.
  destruct (existsb _ countdownPatterns);
    destruct (existsb _ singleEventPatterns);
    repeat split; try discriminate; try tauto;
    try (intros [H1 H2]; congruence); try (intros [H1 H2]; tauto).
Qed.

(* ================================================================== *)
(** * Deadlines that are jump-risk keywords *)
(* ================================================================== *)

Lemma monthDeadline_keyword (w : string) :
  monthDeadline w \/ w = "by midnight"%string -> In w JUMP_RISK_KEYWORDS.
Proof.
  assert (Hd : forall x,
             existsb (String.eqb x) JUMP_RISK_KEYWORDS = true ->
             In x JUMP_RISK_KEYWORDS).
  { intros x H. apply existsb_exists in H. destruct H as (k & Hin & E).
    apply String.eqb_eq in E. subst. exact Hin. }
  intros [(mo & Hmo & Hw)| ->].
  - unfold months in Hmo. cbn [In] in Hmo.
    repeat (destruct Hmo as [<-|Hmo];
            [destruct Hw as [->| ->]; apply Hd; vm_compute; reflexivity|]).
    contradiction.
  - apply Hd. vm_compute. reflexivity.
Qed.

(** X17.  A question with "by" or "before" a month name, or with "by
    midnight", has event-resolution penalty 0.3, and the scorer excludes
    its market for every book and clock: these deadlines are jump-risk
    keywords as well, and that check is among the first three, so the
    penalty of such a question never reaches a composite score. *)
Theorem X17_month_deadline_always_excluded
    (log10Q : Q -> Q) (now : Q) (m : Market)
    (spread bidDepth1 askDepth1 bidDepth5 askDepth5 : number) (w : string) :
  monthDeadline w \/ w = "by midnight"%string ->
  occursIn w (toLowerCase (question m)) ->
  calculateEventResolutionPenalty (question m) = Num 0.3
  /\ exists reason,
       calculateScalpingScore log10Q now m
         spread bidDepth1 askDepth1 bidDepth5 askDepth5
       = excluded reason.
Proof.
  intros Hw Ho. split.
  - unfold calculateEventResolutionPenalty.
    assert (E : existsb (fun p => Regex.test p (toLowerCase (question m)))
                  countdownPatterns = true).
    { apply hasCountdown_correct. exists w. split; [|exact Ho].
      unfold deadlinePhrase. destruct Hw as [Hw| ->]; auto. }
    rewrite E. reflexivity.
  - rewrite calculateScalpingScore_ladder.
    assert (K : check_jump_keyword m <> None).
    { apply check_jump_keyword_fires. exists w.
      split; [apply monthDeadline_keyword; exact Hw|].
      apply includes_correct. exact Ho. }
    unfold hardExclusions. rewrite !firstMatch_cons.
    destruct (check_fees m) as [r|]; [exists r; reflexivity|].
    destruct (check_spread m spread) as [r|]; [exists r; reflexivity|].
    destruct (check_jump_keyword m) as [r|]; [exists r; reflexivity|].
    congruence.
Qed.

Lemma X17_month_deadline_witness :
  let m := Sample.market "Will BTC hit 100k by June?" (FirstPrice 0.5)
             false (Num 0) in
  occursIn "by june" (toLowerCase (question m))
  /\ calculateEventResolutionPenalty (question m) = Num 0.3
  /\ exists reason,
       calculateScalpingScore log10_floor Sample.now m
         (Num 0.01) (Num 1000) (Num 1000) (Num 5000) (Num 5000)
       = excluded reason.
Proof.
  intro m.
  assert (Ho : occursIn "by june" (toLowerCase (question m))).
  { exists "will btc hit 100k "%string, "?"%string. reflexivity. }
  split; [exact Ho|].
  apply (X17_month_deadline_always_excluded log10_floor Sample.now m
           (Num 0.01) (Num 1000) (Num 1000) (Num 5000) (Num 5000)
           "by june").
  - left. exists "june"%string.
    split; [unfold months; cbn [In]; tauto | left; reflexivity].
  - exact Ho.
Defined.
